(** * qg_botsdk: the gateway connection ([qg_bot_ws.py]) and the REST
    session ([http.py]) as Rocq functions.

    The Python code is embedded shallowly.  A [str] is the sequence of its
    Unicode code points, JSON documents are an inductive type, Python
    exceptions are the [Raise] outcome of a small error monad,
    [exit()] is the separate outcome [Exit] (it is not an [Exception], so no
    [except Exception] clause stops it), and the attributes of [BotWs] and of
    the REST [Session] are record fields threaded through every call together
    with the observable trace (frames sent, log records, callbacks run, REST
    requests issued). *)

From Stdlib Require Import ZArith NArith List Bool Lia Floats Strings.Byte.
Import ListNotations.
Open Scope Z_scope.
Set Warnings "-register-all".
Set Warnings "-inexact-float".
Set Warnings "-abstract-large-number".

(** ** Python values and the operations the two modules apply to them *)

Module Py.

(** *** Text

    A Python [str] is the sequence of its Unicode code points. *)
Inductive str : Set :=
| Empty
| Chr (c : N) (rest : str).

(** A literal between double quotes stands for the text that its bytes
    spell in UTF-8. *)
Definition continuation (b : N) : bool := ((128 <=? b) && (b <? 192))%N.

Fixpoint utf8_decode (l : list N) : option str :=
  match l with
  | [] => Some Empty
  | b0 :: l1 =>
      if (b0 <? 128)%N then option_map (Chr b0) (utf8_decode l1)
      else if (b0 <? 192)%N then None
      else if (b0 <? 224)%N then
        match l1 with
        | b1 :: l2 =>
            if continuation b1
            then option_map (Chr ((b0 - 192) * 64 + (b1 - 128))%N) (utf8_decode l2)
            else None
        | _ => None
        end
      else if (b0 <? 240)%N then
        match l1 with
        | b1 :: b2 :: l3 =>
            if continuation b1 && continuation b2
            then option_map
                   (Chr ((b0 - 224) * 4096 + (b1 - 128) * 64 + (b2 - 128))%N)
                   (utf8_decode l3)
            else None
        | _ => None
        end
      else if (b0 <? 248)%N then
        match l1 with
        | b1 :: b2 :: b3 :: l4 =>
            if continuation b1 && continuation b2 && continuation b3
            then option_map
                   (Chr ((b0 - 240) * 262144 + (b1 - 128) * 4096
                         + (b2 - 128) * 64 + (b3 - 128))%N)
                   (utf8_decode l4)
            else None
        | _ => None
        end
      else None
  end.

Definition str_of_bytes (l : list Byte.byte) : option str :=
  utf8_decode (map Byte.to_N l).

Definition utf8_encode (c : N) : list N :=
  (if c <? 128 then [c]
   else if c <? 2048 then [192 + c / 64; 128 + c mod 64]
   else if c <? 65536 then [224 + c / 4096; 128 + (c / 64) mod 64; 128 + c mod 64]
   else [240 + c / 262144; 128 + (c / 4096) mod 64; 128 + (c / 64) mod 64;
         128 + c mod 64])%N.

Fixpoint bytes_of_str (t : str) : option (list Byte.byte) :=
  match t with
  | Empty => Some []
  | Chr c rest =>
      match bytes_of_str rest with
      | None => None
      | Some l =>
          fold_right
            (fun b acc =>
               match Byte.of_N b, acc with
               | Some x, Some r => Some (x :: r)
               | _, _ => None
               end)
            (Some l) (utf8_encode c)
      end
  end.

Declare Scope str_scope.
Delimit Scope str_scope with str.
Bind Scope str_scope with str.
String Notation str str_of_bytes bytes_of_str : str_scope.
Open Scope str_scope.

Module Str.

(** [a == b] *)
Fixpoint eqb (a b : str) : bool :=
  match a, b with
  | Empty, Empty => true
  | Chr x a', Chr y b' => N.eqb x y && eqb a' b'
  | _, _ => false
  end.

(** [a + b] *)
Fixpoint append (a b : str) : str :=
  match a with
  | Empty => b
  | Chr c a' => Chr c (append a' b)
  end.

(** [len(t)] *)
Fixpoint length (t : str) : nat :=
  match t with
  | Empty => O
  | Chr _ t' => S (length t')
  end.

(** [t[n]] for [n >= 0], [None] out of range. *)
Fixpoint get (n : nat) (t : str) : option N :=
  match t, n with
  | Empty, _ => None
  | Chr c _, O => Some c
  | Chr _ t', S n' => get n' t'
  end.

Fixpoint of_uint (d : Decimal.uint) : str :=
  match d with
  | Decimal.Nil => Empty
  | Decimal.D0 d' => Chr 48 (of_uint d')
  | Decimal.D1 d' => Chr 49 (of_uint d')
  | Decimal.D2 d' => Chr 50 (of_uint d')
  | Decimal.D3 d' => Chr 51 (of_uint d')
  | Decimal.D4 d' => Chr 52 (of_uint d')
  | Decimal.D5 d' => Chr 53 (of_uint d')
  | Decimal.D6 d' => Chr 54 (of_uint d')
  | Decimal.D7 d' => Chr 55 (of_uint d')
  | Decimal.D8 d' => Chr 56 (of_uint d')
  | Decimal.D9 d' => Chr 57 (of_uint d')
  end.

(** [str(n)] for an [int]: decimal, with a minus sign below zero. *)
Definition of_Z (n : Z) : str :=
  match n with
  | Z0 => Chr 48 Empty
  | Zpos p => of_uint (Pos.to_uint p)
  | Zneg p => Chr 45 (of_uint (Pos.to_uint p))
  end.

End Str.

Infix "++" := Str.append (right associativity, at level 60) : str_scope.

(** What [json.loads] produces.  Numbers are integers: the gateway and the
    REST API send no fractional number in the fields read below. *)
Inductive json : Type :=
| JNull
| JBool (b : bool)
| JInt (n : Z)
| JStr (s : str)
| JList (items : list json)
| JDict (kv : list (str * json)).

(** The exception classes that the modelled statements can raise. *)
Inductive exn : Type :=
| KeyError (key : str)
| TypeError
| AttributeError
| IndexError
| ValueError
| OverflowError
| JSONDecodeError
| RecursionError
| OtherError (msg : str).

(** Outcome of running a piece of Python. *)
Inductive py (A : Type) : Type :=
| Return (a : A)
| Raise (e : exn)
| Exit.
Arguments Return {A} a.
Arguments Raise {A} e.
Arguments Exit {A}.

(** Stateful, fallible computations over a state [S]. *)
Definition M (S A : Type) : Type := S -> py A * S.

Definition ret {S A} (a : A) : M S A := fun st => (Return a, st).

Definition bind {S A B} (c : M S A) (k : A -> M S B) : M S B :=
  fun st =>
    match c st with
    | (Return a, st') => k a st'
    | (Raise e, st') => (Raise e, st')
    | (Exit, st') => (Exit, st')
    end.

Definition lift {S A} (r : py A) : M S A := fun st => (r, st).

Definition modify {S} (f : S -> S) : M S unit := fun st => (Return tt, f st).

Definition gets {S A} (f : S -> A) : M S A := fun st => (Return (f st), st).

Definition raise {S A} (e : exn) : M S A := fun st => (Raise e, st).

Definition exit {S A} : M S A := fun st => (Exit, st).

(** [try: c  except Exception: h] *)
Definition try_except {S A} (c : M S A) (h : exn -> M S A) : M S A :=
  fun st =>
    match c st with
    | (Raise e, st') => h e st'
    | r => r
    end.

Declare Scope py_scope.
Delimit Scope py_scope with py.
Notation "x <- c ;; k" := (bind c (fun x => k))
  (at level 61, c at next level, right associativity) : py_scope.
Notation "c ;;; k" := (bind c (fun _ => k))
  (at level 61, right associativity) : py_scope.

(** *** Dictionaries: insertion-ordered, keys unique *)

Fixpoint dict_get (k : str) (kv : list (str * json)) : option json :=
  match kv with
  | [] => None
  | (k', v) :: rest => if Str.eqb k k' then Some v else dict_get k rest
  end.

Definition dict_has (k : str) (kv : list (str * json)) : bool :=
  match dict_get k kv with Some _ => true | None => false end.

(** [d[k] = v]: overwrite in place, or append a new key. *)
Fixpoint dict_set (k : str) (v : json) (kv : list (str * json))
  : list (str * json) :=
  match kv with
  | [] => [(k, v)]
  | (k', v') :: rest =>
      if Str.eqb k k' then (k', v) :: rest else (k', v') :: dict_set k v rest
  end.

(** *** [==] on decoded JSON

    [True == 1] and [False == 0] hold in Python; dictionaries compare without
    regard to order. *)
Fixpoint py_eq (a b : json) {struct a} : bool :=
  match a with
  | JNull => match b with JNull => true | _ => false end
  | JBool x =>
      match b with
      | JBool y => Bool.eqb x y
      | JInt y => Z.eqb (Z.b2z x) y
      | _ => false
      end
  | JInt x =>
      match b with
      | JInt y => Z.eqb x y
      | JBool y => Z.eqb x (Z.b2z y)
      | _ => false
      end
  | JStr x => match b with JStr y => Str.eqb x y | _ => false end
  | JList xs =>
      match b with
      | JList ys =>
          (fix all2 (xs ys : list json) {struct xs} : bool :=
             match xs, ys with
             | [], [] => true
             | x :: xs', y :: ys' => py_eq x y && all2 xs' ys'
             | _, _ => false
             end) xs ys
      | _ => false
      end
  | JDict kvs =>
      match b with
      | JDict kvs' =>
          Nat.eqb (List.length kvs) (List.length kvs')
          && (fix all (l : list (str * json)) {struct l} : bool :=
                match l with
                | [] => true
                | (k, v) :: rest =>
                    match dict_get k kvs' with
                    | Some v' => py_eq v v'
                    | None => false
                    end && all rest
                end) kvs
      | _ => false
      end
  end.

(** [x in (c1, c2, ...)] for a tuple of strings. *)
Definition in_strs (x : json) (names : list str) : bool :=
  existsb (fun n => py_eq x (JStr n)) names.

(** [x in (n1, n2, ...)] for a tuple of integers. *)
Definition in_ints (x : json) (codes : list Z) : bool :=
  existsb (fun n => py_eq x (JInt n)) codes.

(** *** [str] methods *)

(** [str.isspace] on one character: the white space of Unicode. *)
Definition is_space (c : N) : bool :=
  ((9 <=? c) && (c <=? 13) || (28 <=? c) && (c <=? 32)
   || (c =? 0x85) || (c =? 0xA0) || (c =? 0x1680)
   || (0x2000 <=? c) && (c <=? 0x200A)
   || (c =? 0x2028) || (c =? 0x2029) || (c =? 0x202F) || (c =? 0x205F)
   || (c =? 0x3000))%N.

(** [t] without its leading characters in [blank]. *)
Fixpoint lstrip_of (blank : N -> bool) (t : str) : str :=
  match t with
  | Empty => Empty
  | Chr c rest => if blank c then lstrip_of blank rest else t
  end.

Fixpoint rev_str (t acc : str) : str :=
  match t with
  | Empty => acc
  | Chr c rest => rev_str rest (Chr c acc)
  end.

Definition rstrip_of (blank : N -> bool) (t : str) : str :=
  rev_str (lstrip_of blank (rev_str t Empty)) Empty.

Definition strip_of (blank : N -> bool) (t : str) : str :=
  rstrip_of blank (lstrip_of blank t).

(** [t.strip()] *)
Definition strip (t : str) : str := strip_of is_space t.

(** [t.startswith(p)] *)
Fixpoint startswith (p t : str) : bool :=
  match p with
  | Empty => true
  | Chr a p' =>
      match t with
      | Empty => false
      | Chr b t' => N.eqb a b && startswith p' t'
      end
  end.

Fixpoint drop (n : nat) (t : str) : str :=
  match n with
  | O => t
  | S n' => match t with Empty => Empty | Chr _ t' => drop n' t' end
  end.

Fixpoint find_from (i : Z) (sub t : str) : Z :=
  if startswith sub t then i
  else match t with
       | Empty => -1
       | Chr _ t' => find_from (i + 1) sub t'
       end.

(** [t.find(sub)]: lowest index of [sub] in [t], or -1. *)
Definition find (sub t : str) : Z := find_from 0 sub t.

(** [t.replace(old, new, 1)] *)
Fixpoint replace1 (old new t : str) : str :=
  if startswith old t then new ++ drop (Str.length old) t
  else match t with
       | Empty => Empty
       | Chr c t' => Chr c (replace1 old new t')
       end.

(** Truth value of an [int]. *)
Definition truthy_int (n : Z) : bool := negb (n =? 0).

(** *** Subscripting, membership and attribute access *)

(** [v[k]] for a string key [k]. *)
Definition subscript (v : json) (k : str) : py json :=
  match v with
  | JDict kv =>
      match dict_get k kv with
      | Some x => Return x
      | None => Raise (KeyError k)
      end
  | _ => Raise TypeError
  end.

(** [v[k] = x] for a string key [k]. *)
Definition setitem (v : json) (k : str) (x : json) : py json :=
  match v with
  | JDict kv => Return (JDict (dict_set k x kv))
  | _ => Raise TypeError
  end.

(** [k in v] for a string [k]. *)
Definition contains (k : str) (v : json) : py bool :=
  match v with
  | JDict kv => Return (dict_has k kv)
  | JList l => Return (existsb (py_eq (JStr k)) l)
  | JStr t => Return (0 <=? find k t)
  | _ => Raise TypeError
  end.

(** [v.strip()]: only [str] has the method. *)
Definition strip_method (v : json) : py str :=
  match v with
  | JStr t => Return (strip t)
  | _ => Raise AttributeError
  end.

(** *** [int(...)] and [float] arithmetic *)

(** The decimal digits of Unicode come in runs of ten, zero to nine; each
    run is given by its zero (Unicode 14, as in CPython 3.11). *)
Definition decades : list N :=
  [0x30; 0x660; 0x6F0; 0x7C0; 0x966; 0x9E6; 0xA66; 0xAE6; 0xB66; 0xBE6;
   0xC66; 0xCE6; 0xD66; 0xDE6; 0xE50; 0xED0; 0xF20; 0x1040; 0x1090; 0x17E0;
   0x1810; 0x1946; 0x19D0; 0x1A80; 0x1A90; 0x1B50; 0x1BB0; 0x1C40; 0x1C50;
   0xA620; 0xA8D0; 0xA900; 0xA9D0; 0xA9F0; 0xAA50; 0xABF0; 0xFF10; 0x104A0;
   0x10D30; 0x11066; 0x110F0; 0x11136; 0x111D0; 0x112F0; 0x11450; 0x114D0;
   0x11650; 0x116C0; 0x11730; 0x118E0; 0x11950; 0x11C50; 0x11D50; 0x11DA0;
   0x16A60; 0x16AC0; 0x16B50; 0x1D7CE; 0x1D7D8; 0x1D7E2; 0x1D7EC; 0x1D7F6;
   0x1E140; 0x1E2F0; 0x1E950; 0x1FBF0]%N.

(** The value of a decimal digit, [None] for any other character. *)
Definition decimal (c : N) : option Z :=
  match List.find (fun zero => (zero <=? c) && (c <? zero + 10))%N decades with
  | Some zero => Some (Z.of_N (c - zero))
  | None => None
  end.

(** Decimal digits, single underscores allowed between two digits. *)
Fixpoint digits (t : str) (acc : Z) (after_digit : bool) : option Z :=
  match t with
  | Empty => if after_digit then Some acc else None
  | Chr c rest =>
      match decimal c with
      | Some d => digits rest (10 * acc + d) true
      | None =>
          if N.eqb c 95 && after_digit then digits rest acc false else None
      end
  end.

(** The blanks [int] passes over around a number: tab to carriage return
    and the space, and the white space beyond ASCII. *)
Definition is_int_space (c : N) : bool :=
  (if c <? 127 then (9 <=? c) && (c <=? 13) || (c =? 32) else is_space c)%N.

(** [int(t)] for a [str]: blanks around, an optional sign, decimal digits. *)
Definition int_of_str (t : str) : option Z :=
  match strip_of is_int_space t with
  | Chr 45 rest => option_map Z.opp (digits rest 0 false)
  | Chr 43 rest => digits rest 0 false
  | u => digits u 0 false
  end.

(** [int(v)] *)
Definition int_of (v : json) : py Z :=
  match v with
  | JInt n => Return n
  | JBool b => Return (Z.b2z b)
  | JStr t =>
      match int_of_str t with
      | Some n => Return n
      | None => Raise ValueError
      end
  | _ => Raise TypeError
  end.

(** The binary64 value nearest to an integer, ties to even. *)
Definition double_of_int (n : Z) : float :=
  SF2Prim (binary_normalize prec emax n 0 false).

(** An [int] as a [float], as the product of an [int] and a [float] needs
    it: [OverflowError] beyond the range of a double. *)
Definition float_of_int (n : Z) : py float :=
  let f := double_of_int n in
  if PrimFloat.is_infinity f then Raise OverflowError else Return f.

(** The double written [0.001] in the source. *)
Definition milli : float := 0x1.0624dd2f1a9fcp-10%float.

(** [str(v)] inside an f-string, for the scalar values; how a list or a
    mapping prints is left to [repr_obj] (it depends on the record type the
    converter [objectize] builds). *)
Definition format (repr_obj : json -> str) (v : json) : str :=
  match v with
  | JStr t => t
  | JInt n => Str.of_Z n
  | JBool true => "True"
  | JBool false => "False"
  | JNull => "None"
  | _ => repr_obj v
  end.

End Py.

(** ** [http.py]: the REST session *)

Module Http.
Import Py.
Local Open Scope py_scope.

(** What [_request] reads of an [aiohttp] response. *)
Record response : Type := mkResponse {
  ok : bool;                   (* resp.ok *)
  status : Z;                  (* resp.status *)
  content_type : str;          (* resp.headers.get("content-type", '') *)
  json_ : py json;             (* await resp.json() *)
  text : str;                  (* await resp.text() *)
  trace_id : option str        (* resp.headers.get("X-Tps-Trace-Id", None) *)
}.

(** Records handed to [self._logger]. *)
Inductive log_record : Type :=
| Warning_api (url : str) (status : Z) (text : str) (trace : option str)
| Error_api (url : json) (detail : str).

(** One call of [self._session.request(method, url, **kwargs)], tagged with
    the [retry] flag of the [_request] activation that issued it. *)
Record request : Type := mkRequest {
  req_method : str;
  req_url : str;
  req_retry : bool
}.

(** The constructor arguments kept by [Session.__init__]. *)
Record Session : Type := mkSession {
  _is_retry : bool;
  _is_log_error : bool
}.

(** What changes while the session is used: whether [self._session] exists
    and is open, the requests issued so far, the log. *)
Record world : Type := mkWorld {
  session_open : bool;
  issued : list request;
  logged : list log_record
}.

Definition set_open (w : world) : world :=
  mkWorld true (issued w) (logged w).

Definition add_request (r : request) (w : world) : world :=
  mkWorld (session_open w) (issued w ++ [r]) (logged w).

Definition add_log (l : log_record) (w : world) : world :=
  mkWorld (session_open w) (issued w) (logged w ++ [l]).

(** The handle [Queue.create_task] returns. *)
Definition task : Type := nat.



Section Session.

(** [retry_err_code] and [exception_handler] come from [._utils], the queue
    from [._queue]; none of the three is defined in [http.py]. *)
Variable retry_err_code : list Z.
Variable exception_handler : exn -> str.
(** [self._queue.create_task(self._request, item, *args, **kwargs)] *)
Variable create_task : str -> list json -> list (str * json) -> py task.

Variable self : Session.

(** The server: its answer to the [n]-th request issued on this session. *)
Variable server : nat -> response.

Definition _check_session (w : world) : world :=
  if negb (session_open w) then set_open w else w.

Definition _warning (url : str) (resp : response) (w : world) : world :=
  add_log (Warning_api url (status resp) (text resp) (trace_id resp)) w.

(** [json_.get("code", None)] for a [dict] *)
Definition code_of (kv : list (str * json)) : json :=
  match dict_get "code" kv with Some c => c | None => JNull end.

(** [not isinstance(json_, dict) or json_.get("code", None) not in retry_err_code] *)
Definition not_retryable (j : json) : bool :=
  match j with
  | JDict kv => negb (in_ints (code_of kv) retry_err_code)
  | _ => true
  end.

(** [Session._request].  The function calls itself for the retry; [fuel]
    bounds the depth of these calls, [None] is a call cut short by it. *)
Fixpoint _request (fuel : nat) (method url : str) (retry : bool) (w : world)
  : option (py response * world) :=
  match fuel with
  | O => None
  | S fuel' =>
      let w := _check_session w in
      let resp := server (List.length (issued w)) in
      let w := add_request (mkRequest method url retry) w in
      if ok resp then Some (Return resp, w)
      else
        let w := if _is_log_error self && (negb (_is_retry self) || retry)
                 then _warning url resp w else w in
        if _is_retry self && negb retry then
          if Str.eqb (content_type resp) "application/json" then
            match json_ resp with
            | Return j =>
                if not_retryable j then Some (Return resp, _warning url resp w)
                else _request fuel' method url true w
            | Raise e => Some (Raise e, w)
            | Exit => Some (Exit, w)
            end
          else _request fuel' method url true w
        else Some (Return resp, w)
  end.


(** The closure [wrap] (positional [args], keyword [kwargs]) returned for the verb [item]: the
    submitted task, or [None] after the handler ran. *)
Definition wrap (item : str) (args : list json) (kwargs : list (str * json))
  : M world (option task) :=
  try_except
    (h <- lift (create_task item args kwargs) ;; ret (Some h))
    (fun e =>
       match args with
       | url :: _ =>
           modify (add_log (Error_api url (exception_handler e))) ;;; ret None
       | [] => raise IndexError
       end).

End Session.

End Http.

(** ** [qg_bot_ws.py]: the gateway connection *)

Module Ws.
Import Py.
Local Open Scope py_scope.

(** A user callback, by name; the code only tests it against [None] and
    calls it. *)
Definition callback : Type := str.

(** The arguments of [BotWs.__init__] that the modelled methods read. *)
Record Bot : Type := mkBot {
  bot_id : str;
  bot_token : str;
  intents : Z;
  shard_no : Z;
  total_shard : Z;
  is_filter_self : bool;
  msg_treat : bool;
  dm_treat : bool;
  is_async : bool;
  on_start_function : option callback;
  on_msg_function : option callback;
  on_dm_function : option callback;
  on_delete_function : option callback;
  on_forum_function : option callback;
  on_guild_event_function : option callback;
  on_channel_event_function : option callback;
  on_guild_member_function : option callback;
  on_reaction_function : option callback;
  on_interaction_function : option callback;
  on_audit_function : option callback;
  on_audio_function : option callback
}.

(** Records handed to [self.logger], by the statement that writes them. *)
Inductive log_record : Type :=
| Error_no_intents                  (* __init__, line 57 *)
| Error_robot_info                  (* get_robot_info, line 131 *)
| Error_op9                         (* main, line 206 *)
| Error_exception (e : exn)         (* logger.error(e) for a caught exception *)
| Debug_exception (e : exn)         (* connect, line 263 *)
| Debug_heartbeat_ack               (* main, line 196 *)
| Info_connected                    (* main, line 219 *)
| Info_robot_id (id : json)         (* main, line 223 *)
| Info_resumed                      (* main, line 232 *)
| Info_ws_ended                     (* connect, line 248 *)
| Warning_disconnected              (* connect, lines 256 and 259 *)
| Warning_unknown_event (t : json). (* data_process, line 188 *)

(** How a callback was started: run by the calling coroutine itself, or
    handed to the event loop as a task. *)
Inductive mode : Type := Direct | LoopTask.

Record call : Type := mkCall {
  callee : callback;
  argument : option json;
  how : mode
}.

(** [self.heartbeat]: no task yet, a live task, or a cancelled one. *)
Inductive heartbeat_task : Type := NoTask | Beating | Cancelled.

(** The attributes of [BotWs] that change after construction, followed by
    what the outside sees: whether the socket is closed, the frames sent,
    the log, the callbacks started, the identity fetches made. *)
Record state : Type := mkState {
  robot : option json;
  heartbeat_time : float;
  s : json;
  reconnect_times : Z;
  re_connect : bool;
  running : bool;
  session_id : json;
  flag : bool;
  heartbeat : heartbeat_task;
  op9_flag : bool;
  ws_closed : bool;
  sent : list json;
  logged : list log_record;
  called : list call;
  fetched : nat
}.

Definition set_robot v (st : state) : state :=
  mkState v (heartbeat_time st) (s st) (reconnect_times st) (re_connect st) (running st) (session_id st) (flag st) (heartbeat st) (op9_flag st) (ws_closed st) (sent st) (logged st) (called st) (fetched st).

Definition set_heartbeat_time v (st : state) : state :=
  mkState (robot st) v (s st) (reconnect_times st) (re_connect st) (running st) (session_id st) (flag st) (heartbeat st) (op9_flag st) (ws_closed st) (sent st) (logged st) (called st) (fetched st).

Definition set_s v (st : state) : state :=
  mkState (robot st) (heartbeat_time st) v (reconnect_times st) (re_connect st) (running st) (session_id st) (flag st) (heartbeat st) (op9_flag st) (ws_closed st) (sent st) (logged st) (called st) (fetched st).

Definition set_reconnect_times v (st : state) : state :=
  mkState (robot st) (heartbeat_time st) (s st) v (re_connect st) (running st) (session_id st) (flag st) (heartbeat st) (op9_flag st) (ws_closed st) (sent st) (logged st) (called st) (fetched st).

Definition set_re_connect v (st : state) : state :=
  mkState (robot st) (heartbeat_time st) (s st) (reconnect_times st) v (running st) (session_id st) (flag st) (heartbeat st) (op9_flag st) (ws_closed st) (sent st) (logged st) (called st) (fetched st).

Definition set_running v (st : state) : state :=
  mkState (robot st) (heartbeat_time st) (s st) (reconnect_times st) (re_connect st) v (session_id st) (flag st) (heartbeat st) (op9_flag st) (ws_closed st) (sent st) (logged st) (called st) (fetched st).

Definition set_session_id v (st : state) : state :=
  mkState (robot st) (heartbeat_time st) (s st) (reconnect_times st) (re_connect st) (running st) v (flag st) (heartbeat st) (op9_flag st) (ws_closed st) (sent st) (logged st) (called st) (fetched st).

Definition set_flag v (st : state) : state :=
  mkState (robot st) (heartbeat_time st) (s st) (reconnect_times st) (re_connect st) (running st) (session_id st) v (heartbeat st) (op9_flag st) (ws_closed st) (sent st) (logged st) (called st) (fetched st).

Definition set_heartbeat v (st : state) : state :=
  mkState (robot st) (heartbeat_time st) (s st) (reconnect_times st) (re_connect st) (running st) (session_id st) (flag st) v (op9_flag st) (ws_closed st) (sent st) (logged st) (called st) (fetched st).

Definition set_op9_flag v (st : state) : state :=
  mkState (robot st) (heartbeat_time st) (s st) (reconnect_times st) (re_connect st) (running st) (session_id st) (flag st) (heartbeat st) v (ws_closed st) (sent st) (logged st) (called st) (fetched st).

Definition set_ws_closed v (st : state) : state :=
  mkState (robot st) (heartbeat_time st) (s st) (reconnect_times st) (re_connect st) (running st) (session_id st) (flag st) (heartbeat st) (op9_flag st) v (sent st) (logged st) (called st) (fetched st).

Definition set_sent v (st : state) : state :=
  mkState (robot st) (heartbeat_time st) (s st) (reconnect_times st) (re_connect st) (running st) (session_id st) (flag st) (heartbeat st) (op9_flag st) (ws_closed st) v (logged st) (called st) (fetched st).

Definition set_logged v (st : state) : state :=
  mkState (robot st) (heartbeat_time st) (s st) (reconnect_times st) (re_connect st) (running st) (session_id st) (flag st) (heartbeat st) (op9_flag st) (ws_closed st) (sent st) v (called st) (fetched st).

Definition set_called v (st : state) : state :=
  mkState (robot st) (heartbeat_time st) (s st) (reconnect_times st) (re_connect st) (running st) (session_id st) (flag st) (heartbeat st) (op9_flag st) (ws_closed st) (sent st) (logged st) v (fetched st).

Definition set_fetched v (st : state) : state :=
  mkState (robot st) (heartbeat_time st) (s st) (reconnect_times st) (re_connect st) (running st) (session_id st) (flag st) (heartbeat st) (op9_flag st) (ws_closed st) (sent st) (logged st) (called st) v.

(** The attributes as [__init__] leaves them (lines 62-72). *)
Definition initial : state :=
  mkState None 0%float JNull 0 false true (JInt 0) false NoTask false false
          [] [] [] 0%nat.

(** [BotWs.__init__]: a bot that subscribes to nothing is refused. *)
Definition __init__ (bot : Bot) : py state * list log_record :=
  if intents bot =? 0 then (Exit, [Error_no_intents])
  else (Return initial, []).

Definition log (r : log_record) : M state unit :=
  modify (fun st => set_logged (logged st ++ [r]) st).

Definition start (c : call) : M state unit :=
  modify (fun st => set_called (called st ++ [c]) st).

(** One message read from the socket: a text frame as [json.loads] decodes
    it ([None] when it is not JSON), a close or error notice, or any other
    kind of message. *)
Inductive ws_message : Type :=
| TEXT (msg : option json)
| CLOSE
| OTHER.

(** One call of [ws_connect]: the handshake fails with an exception, or the
    socket delivers these messages and is closed after the last. *)
Inductive attempt : Type :=
| Refused (e : exn)
| Connected (messages : list ws_message).

Section BotWs.

(** The tokenizer and the JSON reader are imported; [repr_obj] prints a
    non-scalar value inside an f-string. *)
Variable treat_msg : str -> json.
Variable loads : str -> option json.
Variable repr_obj : json -> str.

Variable self : Bot.

(** [self.session.get(f'{self.bot_url}/users/@me').json()], by the number
    of fetches made before. *)
Variable identity : nat -> py json.

(** How many nested calls the interpreter still allows. *)
Variable stack_depth : nat.

(** Modelled from the spec: [objectize] of [._utils], the converter from a
    raw mapping to a structured record.  The record is kept as the mapping
    itself, and reading an attribute of it is reading the key. *)
Definition objectize (v : json) : json := v.

Definition getattr (v : json) (name : str) : py json :=
  match v with
  | JDict kv =>
      match dict_get name kv with
      | Some x => Return x
      | None => Raise AttributeError
      end
  | _ => Raise AttributeError
  end.

(** Modelled from the spec: [exception_processor] of [._utils], the
    decorator that catches an exception at the dispatch boundary and logs
    it. *)
Definition exception_processor (body : M state unit) : M state unit :=
  try_except body (fun e => log (Error_exception e)).

Definition token : json := JStr ("Bot " ++ bot_id self ++ "." ++ bot_token self).

(** The identify frame of [send_connect]. *)
Definition connect_paras : json :=
  JDict [("op", JInt 2);
         ("d", JDict [("token", token);
                      ("intents", JInt (intents self));
                      ("shard", JList [JInt (shard_no self); JInt (total_shard self)])])].

(** The resume frame of [send_reconnect]. *)
Definition reconnect_paras (st : state) : json :=
  JDict [("op", JInt 6);
         ("d", JDict [("token", token);
                      ("session_id", session_id st);
                      ("seq", s st)])].

Definition ws_send (msg : json) : M state unit :=
  modify (fun st => if ws_closed st then st else set_sent (sent st ++ [msg]) st).

Definition send_connect : M state unit := ws_send connect_paras.

Definition send_reconnect : M state unit :=
  fun st => ws_send (reconnect_paras st) st.

(** [start_heartbeat]: a task named heartbeat_task is created unless one is
    alive.  A cancelled task is taken to have left [all_tasks()].  The
    task's body [heart], which sleeps [heartbeat_time] seconds between two
    heartbeat frames, runs beside the receive loop and is not part of this
    sequential model. *)
Definition start_heartbeat : M state unit :=
  modify (fun st =>
            match heartbeat st with
            | Beating => st
            | _ => set_heartbeat Beating st
            end).

(** [if self.heartbeat is not None and not self.heartbeat.cancelled():
    self.heartbeat.cancel()] *)
Definition cancel_heartbeat : M state unit :=
  modify (fun st =>
            match heartbeat st with
            | Beating => set_heartbeat Cancelled st
            | _ => st
            end).

(** [BotWs.get_robot_info].  [depth] is the number of nested calls still
    allowed; Python raises [RecursionError] when it is used up. *)
Fixpoint get_robot_info (depth : nat) (retry : bool) : M state json :=
  match depth with
  | O => raise RecursionError
  | S depth' =>
      n <- gets fetched ;;
      modify (set_fetched (S n)) ;;;
      robot_info <- lift (identity n) ;;
      has_id <- lift (contains "id" robot_info) ;;
      if negb has_id then
        if negb retry then get_robot_info depth' retry
        else log Error_robot_info ;;; exit
      else ret (objectize robot_info)
  end.

(** [BotWs.distribute] *)
Definition distribute (function : option callback) (data : json) : M state unit :=
  t <- lift (subscript data "t") ;;
  d <- lift (subscript data "d") ;;
  d <- lift (setitem d "t" t) ;;
  id <- lift (subscript data "id") ;;
  d <- lift (setitem d "event_id" id) ;;
  match function with
  | None => ret tt
  | Some f =>
      start (mkCall f (Some (objectize d)) (if is_async self then LoopTask else Direct))
  end.

(** [data["d"][k] = v] *)
Definition set_d (data : json) (k : str) (v : json) : py json :=
  match subscript data "d" with
  | Return d =>
      match setitem d k v with
      | Return d' => setitem data "d" d'
      | Raise e => Raise e
      | Exit => Exit
      end
  | Raise e => Raise e
  | Exit => Exit
  end.

(** ['' if 'content' not in data["d"] else data["d"]["content"].strip()] *)
Definition raw_content (data : json) : M state str :=
  d <- lift (subscript data "d") ;;
  present <- lift (contains "content" d) ;;
  if negb present then ret Empty
  else c <- lift (subscript d "content") ;; lift (strip_method c).

(** [f'<@!{self.robot.id}>'] *)
Definition mention : M state str :=
  r <- gets robot ;;
  match r with
  | None => raise AttributeError
  | Some r => id <- lift (getattr r "id") ;; ret ("<@!" ++ format repr_obj id ++ ">")
  end.

Definition events : list (str * option callback) :=
  [("GUILD_CREATE", on_guild_event_function self);
   ("GUILD_UPDATE", on_guild_event_function self);
   ("GUILD_DELETE", on_guild_event_function self);
   ("CHANNEL_CREATE", on_channel_event_function self);
   ("CHANNEL_UPDATE", on_channel_event_function self);
   ("CHANNEL_DELETE", on_channel_event_function self);
   ("GUILD_MEMBER_ADD", on_guild_member_function self);
   ("GUILD_MEMBER_UPDATE", on_guild_member_function self);
   ("GUILD_MEMBER_REMOVE", on_guild_member_function self);
   ("MESSAGE_REACTION_ADD", on_reaction_function self);
   ("MESSAGE_REACTION_REMOVE", on_reaction_function self);
   ("INTERACTION_CREATE", on_interaction_function self);
   ("MESSAGE_AUDIT_PASS", on_audit_function self);
   ("MESSAGE_AUDIT_REJECT", on_audit_function self);
   ("AUDIO_START", on_audio_function self);
   ("AUDIO_FINISH", on_audio_function self);
   ("AUDIO_ON_MIC", on_audio_function self);
   ("AUDIO_OFF_MIC", on_audio_function self)].

Fixpoint events_get (k : str) (l : list (str * option callback))
  : option (option callback) :=
  match l with
  | [] => None
  | (k', f) :: rest => if Str.eqb k k' then Some f else events_get k rest
  end.

(** One round of the loop over [("content", "title")] in the forum branch. *)
Definition load_thread_field (items : str) (data : json) : M state json :=
  d <- lift (subscript data "d") ;;
  info <- lift (subscript d "thread_info") ;;
  x <- lift (subscript info items) ;;
  match x with
  | JStr txt =>
      match loads txt with
      | Some v =>
          info' <- lift (setitem info items v) ;;
          lift (set_d data "thread_info" info')
      | None => ret data
      end
  | _ => raise TypeError
  end.

Definition forum_events : list str :=
  ["FORUM_THREAD_CREATE"; "FORUM_THREAD_UPDATE"; "FORUM_THREAD_DELETE";
   "FORUM_POST_CREATE"; "FORUM_POST_DELETE"; "FORUM_REPLY_CREATE";
   "FORUM_REPLY_DELETE"; "FORUM_PUBLISH_AUDIT_RESULT"].

(** The body of [BotWs.data_process], without its decorator. *)
Definition data_process_body (data : json) : M state unit :=
  t <- lift (subscript data "t") ;;
  if in_strs t ["AT_MESSAGE_CREATE"; "MESSAGE_CREATE"] then
    (if msg_treat self then
       raw_msg <- raw_content data ;;
       at_ <- mention ;;
       let treated_msg :=
         if truthy_int (find at_ raw_msg) then raw_msg
         else replace1 at_ Empty raw_msg in
       data <- lift (set_d data "treated_msg" (treat_msg (strip treated_msg))) ;;
       distribute (on_msg_function self) data
     else distribute (on_msg_function self) data)
  else if in_strs t ["MESSAGE_DELETE"; "PUBLIC_MESSAGE_DELETE"; "DIRECT_MESSAGE_DELETE"] then
    (if is_filter_self self then
       d <- lift (subscript data "d") ;;
       message <- lift (subscript d "message") ;;
       author <- lift (subscript message "author") ;;
       target <- lift (subscript author "id") ;;
       d <- lift (subscript data "d") ;;
       op_user <- lift (subscript d "op_user") ;;
       op_user <- lift (subscript op_user "id") ;;
       if py_eq op_user target then ret tt
       else distribute (on_delete_function self) data
     else distribute (on_delete_function self) data)
  else if py_eq t (JStr "DIRECT_MESSAGE_CREATE") then
    (if dm_treat self then
       raw_msg <- raw_content data ;;
       data <- lift (set_d data "treated_msg" (treat_msg raw_msg)) ;;
       distribute (on_dm_function self) data
     else distribute (on_dm_function self) data)
  else if in_strs t forum_events then
    data <- load_thread_field "content" data ;;
    data <- load_thread_field "title" data ;;
    distribute (on_forum_function self) data
  else
    match t with
    | JList _ | JDict _ => raise TypeError
    | JStr name =>
        match events_get name events with
        | Some (Some func) => distribute (Some func) data
        | Some None => ret tt
        | None => log (Warning_unknown_event t)
        end
    | _ => log (Warning_unknown_event t)
    end.

(** [BotWs.data_process] *)
Definition data_process (data : json) : M state unit :=
  exception_processor (data_process_body data).

(** [if not self.re_connect: await self.send_connect()
    else: await self.send_reconnect()] *)
Definition handshake : M state unit :=
  resume <- gets re_connect ;;
  if negb resume then send_connect else send_reconnect.

(** What [main] does on the first READY only (lines 220-228): the bot's
    identity is fetched and the start callback is run. *)
Definition first_ready : M state unit :=
  done <- gets flag ;;
  if negb done then
    modify (set_flag true) ;;;
    r <- get_robot_info stack_depth false ;;
    modify (set_robot (Some r)) ;;;
    id <- lift (getattr r "id") ;;
    log (Info_robot_id id) ;;;
    match on_start_function self with
    | None => ret tt
    | Some f => start (mkCall f None (if is_async self then LoopTask else Direct))
    end
  else ret tt.

(** The [READY] branch of [main] (lines 216-228). *)
Definition on_ready (data : json) : M state unit :=
  d <- lift (subscript data "d") ;;
  sid <- lift (subscript d "session_id") ;;
  modify (set_session_id sid) ;;;
  modify (set_reconnect_times 0) ;;;
  start_heartbeat ;;;
  log Info_connected ;;;
  first_ready.

(** The [RESUMED] branch of [main] (lines 230-232). *)
Definition on_resumed : M state unit :=
  modify (set_reconnect_times 0) ;;;
  start_heartbeat ;;;
  log Info_resumed.

(** The invalid-session branch of [main] (lines 198-207). *)
Definition on_invalid_session : M state unit :=
  seen <- gets op9_flag ;;
  if negb seen then modify (set_op9_flag true) ;;; handshake
  else log Error_op9 ;;; exit.

(** The hello branch of [main] (lines 209-213): the period is
    [float(int(data["d"]["heartbeat_interval"]) * 0.001)]. *)
Definition on_hello (data : json) : M state unit :=
  d <- lift (subscript data "d") ;;
  interval <- lift (subscript d "heartbeat_interval") ;;
  n <- lift (int_of interval) ;;
  f <- lift (float_of_int n) ;;
  modify (set_heartbeat_time (PrimFloat.mul f milli)) ;;;
  handshake.

(** The branches of [main] on the frame's [op] (lines 195-234). *)
Definition on_op (op : json) (data : json) : M state unit :=
  if py_eq op (JInt 11) then log Debug_heartbeat_ack
  else if py_eq op (JInt 9) then on_invalid_session
  else if py_eq op (JInt 10) then on_hello data
  else if py_eq op (JInt 0) then
    t <- lift (subscript data "t") ;;
    if py_eq t (JStr "READY") then on_ready data
    else if py_eq t (JStr "RESUMED") then on_resumed
    else data_process data
  else ret tt.

(** [BotWs.main], on the message as [loads] decodes it: the sequence
    number is stored (lines 193-194), then the frame is handled by its
    [op]. *)
Definition main (msg : option json) : M state unit :=
  match msg with
  | None => raise JSONDecodeError
  | Some (JDict kv) =>
      match dict_get "s" kv with
      | Some v => modify (set_s v)
      | None => ret tt
      end ;;;
      on_op (match dict_get "op" kv with Some v => v | None => JNull end) (JDict kv)
  | Some _ => raise AttributeError
  end.

(** The [while not self.ws.closed] loop of [connect] (lines 241-257) over
    the messages the socket delivers; the socket is closed after the last
    one. *)
Fixpoint receive (messages : list ws_message) : M state unit :=
  match messages with
  | [] => ret tt
  | TEXT msg :: rest =>
      alive <- gets running ;;
      if negb alive then
        cancel_heartbeat ;;; modify (set_ws_closed true) ;;; log Info_ws_ended
      else main msg ;;; receive rest
  | CLOSE :: rest =>
      alive <- gets running ;;
      if alive then
        modify (set_re_connect true) ;;; cancel_heartbeat ;;; log Warning_disconnected
      else receive rest
  | OTHER :: rest => receive rest
  end.

(** Leaving [async with ... as self.ws] closes the socket, however the
    block ends. *)
Definition with_ws (body : M state unit) : M state unit :=
  fun st =>
    let '(r, st') := body (set_ws_closed false st) in (r, set_ws_closed true st').

(** [BotWs.connect] *)
Definition connect (a : attempt) : M state unit :=
  modify (fun st => set_reconnect_times (reconnect_times st + 1) st) ;;;
  try_except
    match a with
    | Refused e => raise e
    | Connected messages => with_ws (receive messages)
    end
    (fun e =>
       log Warning_disconnected ;;;
       cancel_heartbeat ;;;
       log (Error_exception e) ;;;
       log (Debug_exception e)).

(** One round of the [while self.running] loop of [starter] (lines
    269-274).  [connect] lets no [Exception] out, so the handler for
    [WSServerHandshakeError] never runs. *)
Definition reconnect (a : attempt) : M state unit :=
  modify (fun st => set_re_connect (if 20 <=? reconnect_times st then false else true) st) ;;;
  connect a.

Fixpoint reconnect_loop (attempts : list attempt) : M state unit :=
  match attempts with
  | [] => ret tt
  | a :: rest =>
      alive <- gets running ;;
      if alive then reconnect a ;;; reconnect_loop rest else ret tt
  end.

(** [BotWs.starter], over the connection attempts the network grants; it
    returns early when they run out. *)
Definition starter (attempts : list attempt) : M state unit :=
  match attempts with
  | [] => ret tt
  | a :: rest => connect a ;;; reconnect_loop rest
  end.

End BotWs.

End Ws.

(** ** Notions the claims are stated with *)

Module Claims.
Import Py Ws.

(** [t.removeprefix(p)]: [t] without its leading [p], or [t] itself.  The
    code does not call it; it names what stripping a leading mention is. *)
Definition removeprefix (p t : str) : str :=
  if startswith p t then drop (Str.length p) t else t.

(** [n / 1000] on doubles: the correctly rounded quotient. *)
Definition thousandth (n : Z) : float :=
  PrimFloat.div (double_of_int n) (double_of_int 1000).

(** [x] is the double [q], or the next one above or below it. *)
Definition adjacent (x q : float) : bool :=
  PrimFloat.eqb x q || PrimFloat.eqb x (next_up q) || PrimFloat.eqb x (next_down q).

(** The period computed for an interval of [n] milliseconds is a finite
    double, and it is [n / 1000] or a double next to it. *)
Definition period_near (n : Z) : bool :=
  negb (PrimFloat.is_infinity (double_of_int n))
  && adjacent (PrimFloat.mul (double_of_int n) milli) (thousandth n).

(** [period_near] holds for the [k] intervals from [n] on. *)
Fixpoint near_from (k : nat) (n : Z) : bool :=
  match k with
  | O => true
  | S k' => period_near n && near_from k' (n + 1)
  end.

(** [exit()] was called. *)
Definition exits {A : Type} (r : py A) : bool :=
  match r with Exit => true | _ => false end.

(** The [op] of a decoded frame: [data.get('op', None)]. *)
Definition op_of (kv : list (str * json)) : json :=
  match dict_get "op" kv with Some v => v | None => JNull end.

(** A dispatch frame announcing READY (with the session id the handler
    reads first) or RESUMED. *)
Definition ready_or_resumed (msg : option json) : bool :=
  match msg with
  | Some (JDict kv) =>
      py_eq (op_of kv) (JInt 0)
      && match dict_get "t" kv with
         | Some t =>
             if py_eq t (JStr "READY") then
               match dict_get "d" kv with
               | Some (JDict d) => dict_has "session_id" d
               | _ => false
               end
             else py_eq t (JStr "RESUMED")
         | None => false
         end
  | _ => false
  end.

(** A relation between the state before and after a step holds for every
    run of the computation [c]. *)
Definition keeps (R : state -> state -> Prop) {A : Type} (c : M state A) : Prop :=
  forall st, R st (snd (c st)).

(** The two states agree on the attribute [f]. *)
Definition same {A : Type} (f : state -> A) : state -> state -> Prop :=
  fun st st' => f st' = f st.

(** Frames are only ever added to those sent. *)
Definition sent_grows : state -> state -> Prop :=
  fun st st' => exists more, sent st' = (sent st ++ more)%list.

(** Once set, the invalid-session flag stays set. *)
Definition op9_sticky : state -> state -> Prop :=
  fun st st' => op9_flag st = true -> op9_flag st' = true.

(** The text of the message: the [content] field when it is a string, the
    empty string when the payload has no such field. *)
Definition content_text (payload : list (str * json)) : option str :=
  match dict_get "content" payload with
  | None => Some Empty
  | Some (JStr c) => Some c
  | Some _ => None
  end.

(** The id of the bot's own identity, once the identity is known and
    has one. *)
Definition own_id (st : state) : option json :=
  match robot st with
  | Some (JDict kv) => dict_get "id" kv
  | _ => None
  end.

(** The sequence number a frame carries, if any. *)
Definition seq_of (msg : option json) : option json :=
  match msg with
  | Some (JDict kv) => dict_get "s" kv
  | _ => None
  end.

End Claims.

(** ** Concrete inputs used by the examples below *)

Module Samples.
Import Py.

Definition codes : list Z := [11298].

Definition session0 : Http.Session := Http.mkSession true true.

Definition fresh : Http.world := Http.mkWorld false [] [].

Definition bad_gateway : Http.response :=
  Http.mkResponse false 502 "text/html" (Raise JSONDecodeError) "Bad Gateway" None.

Definition limited : Http.response :=
  Http.mkResponse false 429 "application/json"
    (Return (JDict [("code", JInt 11298)])) "code 11298" (Some "trace-1").

Definition missing : Http.response :=
  Http.mkResponse false 404 "application/json"
    (Return (JDict [("code", JInt 10001)])) "code 10001" None.

(** A failure announced as JSON whose body is not JSON. *)
Definition garbled : Http.response :=
  Http.mkResponse false 500 "application/json" (Raise JSONDecodeError)
    "Internal Server Error" None.

Definition fine : Http.response :=
  Http.mkResponse true 200 "application/json" (Return (JDict [])) "{}" None.

Definition always (r : Http.response) : nat -> Http.response := fun _ => r.

(** A server that answers [r0] once and [r1] from then on. *)
Definition first_then (r0 r1 : Http.response) : nat -> Http.response :=
  fun n => match n with O => r0 | S _ => r1 end.

Definition failing_queue : str -> list json -> list (str * json) -> py Http.task :=
  fun _ _ _ => Raise (OtherError "queue is closed").

(** A bot with every callback registered and every option enabled. *)
Definition bot0 : Ws.Bot :=
  Ws.mkBot "102" "secret" 513 0 1 true true true false
    (Some "on_start") (Some "on_msg") (Some "on_dm") (Some "on_delete")
    (Some "on_forum") (Some "on_guild") (Some "on_channel") (Some "on_member")
    (Some "on_reaction") (Some "on_interaction") (Some "on_audit") (Some "on_audio").

(** A tokenizer that returns the text it is given. *)
Definition tokens : str -> json := JStr.

Definition no_json : str -> option json := fun _ => None.

Definition no_repr : json -> str := fun _ => "object".

(** The identity endpoint answers with the bot's user. *)
Definition known : nat -> py json :=
  fun _ => Return (JDict [("id", JStr "42"); ("username", JStr "bot")]).

(** The identity endpoint answers with an error body, always. *)
Definition unknown : nat -> py json :=
  fun _ => Return (JDict [("code", JInt 11241); ("message", JStr "unauthorized")]).

(** The identity endpoint cannot be reached. *)
Definition offline : nat -> py json :=
  fun _ => Raise (OtherError "timeout").

(** The identity endpoint fails twice, then answers. *)
Definition third_time : nat -> py json :=
  fun n => match n with
           | O | S O => unknown n
           | _ => known n
           end.

Definition hello_payload (interval : Z) : json :=
  JDict [("heartbeat_interval", JInt interval)].

Definition hello_fields (interval : Z) : list (str * json) :=
  [("op", JInt 10); ("d", hello_payload interval)].

Definition hello (interval : Z) : json := JDict (hello_fields interval).

Definition invalid_session : json := JDict [("op", JInt 9)].

Definition heartbeat_ack (seq : Z) : json := JDict [("op", JInt 11); ("s", JInt seq)].

Definition ready : json :=
  JDict [("op", JInt 0); ("s", JInt 1); ("t", JStr "READY");
         ("d", JDict [("session_id", JStr "abc123")])].

Definition resumed : json :=
  JDict [("op", JInt 0); ("s", JInt 2); ("t", JStr "RESUMED"); ("d", JStr Empty)].

Definition deleted_message (author : str) : json :=
  JDict [("author", JDict [("id", JStr author)]); ("id", JStr "m1")].

Definition delete_payload (author op_user : str) : list (str * json) :=
  [("message", deleted_message author); ("op_user", JDict [("id", JStr op_user)])].

Definition delete_fields (author op_user : str) : list (str * json) :=
  [("op", JInt 0); ("s", JInt 7); ("t", JStr "MESSAGE_DELETE");
   ("id", JStr "MESSAGE_DELETE:e1"); ("d", JDict (delete_payload author op_user))].

(** A message-delete event: [author] wrote the message, [op_user] deleted it. *)
Definition message_delete (author op_user : str) : json :=
  JDict (delete_fields author op_user).

Definition message_payload (content : str) : list (str * json) :=
  [("content", JStr content); ("id", JStr "m2")].

Definition message_fields (content : str) : list (str * json) :=
  [("op", JInt 0); ("s", JInt 8); ("t", JStr "AT_MESSAGE_CREATE");
   ("id", JStr "AT_MESSAGE_CREATE:e2"); ("d", JDict (message_payload content))].

(** A guild message with the given text. *)
Definition at_message (content : str) : json := JDict (message_fields content).

(** The state once READY was handled and the bot's identity is known. *)
Definition ready_state : Ws.state :=
  Ws.set_robot (Some (JDict [("id", JStr "42"); ("username", JStr "bot")]))
    (Ws.set_flag true Ws.initial).

Definition describe (e : exn) : str :=
  match e with OtherError m => m | _ => "error" end.

End Samples.

(** ** [http.py]: the form whose parts can be generated again, and the check
    of the installed [aiohttp] version *)

Module Form.
Import Py.
Local Open Scope py_scope.

Section FormData.

(** What a field holds and what a serialised part is are aiohttp's; so are
    [payload.get_payload] ([None] when it raises) and the two calls that
    put the disposition on a part,
    [part.set_content_disposition("form-data", ...)] followed by
    [part.headers.popall(hdrs.CONTENT_LENGTH, None)]. *)
Variable V P : Type.
Variable get_payload : V -> option str -> list (str * str) -> option P.
Variable disposed : list (str * str) -> P -> P.

(** The value of a field: as it is, or behind the SDK's [StrPtr]. *)
Inductive value : Type :=
| Plain (v : option V)
| StrPtr (inner : option V).

(** An entry of [self._fields]: [(dispparams, headers, value)]. *)
Record field : Type := mkField {
  dispparams : list (str * str);
  headers : list (str * str);
  held : value
}.

(** The attributes [_gen_form_data] reads and writes, and what it prints. *)
Record FormData_ : Type := mkForm {
  _fields : list field;
  _writer : list P;
  _is_processed : bool;
  printed : list field
}.

Fixpoint header_get (k : str) (h : list (str * str)) : option str :=
  match h with
  | [] => None
  | (k', v) :: rest => if Str.eqb k k' then Some v else header_get k rest
  end.

(** [if isinstance(value, StrPtr): value = value.value] *)
Definition unwrapped (x : value) : option V :=
  match x with
  | Plain v => v
  | StrPtr inner => inner
  end.

Definition append_payload (part : P) (form : FormData_) : FormData_ :=
  mkForm (_fields form) (_writer form ++ [part]) (_is_processed form) (printed form).

Definition print (f : field) (form : FormData_) : FormData_ :=
  mkForm (_fields form) (_writer form) (_is_processed form) (printed form ++ [f]).

Definition processed (form : FormData_) : FormData_ :=
  mkForm (_fields form) (_writer form) true (printed form).

(** The part made of a field whose value is [v] (lines 54-64 and 73-78);
    [None] when [get_payload] raises. *)
Definition part_of (f : field) (v : V) : option P :=
  match get_payload v (header_get "Content-Type" (headers f)) (headers f) with
  | None => None
  | Some part =>
      Some (match dispparams f with
            | [] => part
            | _ :: _ => disposed (dispparams f) part
            end)
  end.

(** The loop over [self._fields] (lines 45-80). *)
Fixpoint append_fields (fields : list field) : M FormData_ unit :=
  match fields with
  | [] => ret tt
  | f :: rest =>
      match unwrapped (held f) with
      | None => append_fields rest
      | Some v =>
          match part_of f v with
          | None => modify (print f) ;;; raise TypeError
          | Some part => modify (append_payload part) ;;; append_fields rest
          end
      end
  end.

(** [FormData_._gen_form_data] *)
Definition _gen_form_data : M FormData_ (list P) :=
  done <- gets _is_processed ;;
  if done then gets _writer
  else
    fields <- gets _fields ;;
    append_fields fields ;;;
    modify processed ;;;
    gets _writer.

End FormData.

Arguments Plain {V} v.
Arguments StrPtr {V} inner.
Arguments mkField {V} dispparams headers held.
Arguments dispparams {V} f.
Arguments headers {V} f.
Arguments held {V} f.
Arguments mkForm {V P} _fields _writer _is_processed printed.
Arguments _fields {V P} f.
Arguments _writer {V P} f.
Arguments _is_processed {V P} f.
Arguments printed {V P} f.

(** The module-level check of [aio_version] against 3.8.1 (lines 27-36). *)

Definition version_checking : list Z := [3; 8; 1].

(** [int(aio_version[2 * version_index]) < least], false when the index is
    out of range or the character is no number: both exceptions are
    passed over. *)
Definition lower_at (aio_version : str) (version_index : nat) (least : Z) : bool :=
  match Str.get (2 * version_index) aio_version with
  | None => false
  | Some c =>
      match int_of_str (Chr c Empty) with
      | None => false
      | Some n => n <? least
      end
  end.

(** The loop from [version_index] on: whether the warning is printed. *)
Fixpoint warned_from (aio_version : str) (version_index : nat) (least : list Z)
  : bool :=
  match least with
  | [] => false
  | l :: rest =>
      if lower_at aio_version version_index l then true
      else warned_from aio_version (S version_index) rest
  end.

Definition version_warning (aio_version : str) : bool :=
  warned_from aio_version 0 version_checking.

End Form.

(** ** Further notions and inputs *)

Module Notions.
Import Py Ws.

(** An exception came out. *)
Definition raises {A : Type} (r : py A) : bool :=
  match r with Raise _ => true | _ => false end.

(** The event types [data_process] has a branch or a table entry for. *)
Definition known_types (self : Bot) : list str :=
  (["AT_MESSAGE_CREATE"; "MESSAGE_CREATE"; "MESSAGE_DELETE"; "PUBLIC_MESSAGE_DELETE";
    "DIRECT_MESSAGE_DELETE"; "DIRECT_MESSAGE_CREATE"]
   ++ forum_events ++ map fst (events self))%list.

(** A text field after the forum branch: the JSON it holds, or the text
    itself when it holds none. *)
Definition decoded (loads : str -> option json) (txt : str) : json :=
  match loads txt with
  | Some v => v
  | None => JStr txt
  end.

(** The character of a decimal digit. *)
Definition digit_char (n : nat) : N := N.of_nat (48 + n).

(** A version [a.b.c...] written with three single digits. *)
Definition dotted (a b c : nat) (rest : str) : str :=
  Chr (digit_char a)
    (Chr 46 (Chr (digit_char b) (Chr 46 (Chr (digit_char c) rest)))).

(** [a.b.c] comes before 3.8.1. *)
Definition before_3_8_1 (a b c : nat) : Prop :=
  (a < 3 \/ (a = 3 /\ b < 8) \/ (a = 3 /\ b = 8 /\ c < 1))%nat.

(** The parts lines 45-80 make of the fields that hold a value, in order;
    [None] when some field cannot be serialised. *)
Fixpoint parts_of {V P : Type}
  (get_payload : V -> option str -> list (str * str) -> option P)
  (disposed : list (str * str) -> P -> P)
  (fields : list (Form.field V)) : option (list P) :=
  match fields with
  | [] => Some []
  | f :: rest =>
      match Form.unwrapped V (Form.held f) with
      | None => parts_of get_payload disposed rest
      | Some v =>
          match Form.part_of V P get_payload disposed f v,
                parts_of get_payload disposed rest with
          | Some part, Some parts => Some (part :: parts)
          | _, _ => None
          end
      end
  end.

(** From a state in which the first READY was already handled: the flag
    stays set, no identity fetch is added and the bot's identity is kept. *)
Definition identity_settled : state -> state -> Prop :=
  fun st st' =>
    flag st = true ->
    flag st' = true /\ fetched st' = fetched st /\ robot st' = robot st.

(** [self.heartbeat] after
    [if self.heartbeat is not None and not self.heartbeat.cancelled():
    self.heartbeat.cancel()]. *)
Definition cancelled (h : heartbeat_task) : heartbeat_task :=
  match h with
  | Beating => Cancelled
  | other => other
  end.

(** The identify frame of the gateway protocol: op 2 with the bot token, the
    subscribed intents and the shard. *)
Definition identify_frame (self : Bot) : json :=
  JDict [("op", JInt 2);
         ("d", JDict [("token", JStr ("Bot " ++ bot_id self ++ "." ++ bot_token self));
                      ("intents", JInt (intents self));
                      ("shard", JList [JInt (shard_no self);
                                       JInt (total_shard self)])])].

(** The resume frame for the session id and the sequence number given. *)
Definition resume_frame (self : Bot) (sid seq : json) : json :=
  JDict [("op", JInt 6);
         ("d", JDict [("token", JStr ("Bot " ++ bot_id self ++ "." ++ bot_token self));
                      ("session_id", sid);
                      ("seq", seq)])].

(** The field holds a value: it is not [None], directly or behind a
    [StrPtr]. *)
Definition holds_value {V : Type} (f : Form.field V) : bool :=
  match Form.unwrapped V (Form.held f) with Some _ => true | None => false end.

(** An envelope of the type given around a payload. *)
Definition envelope (type : str) (payload : list (str * json))
  : list (str * json) :=
  [("op", JInt 0); ("s", JInt 9); ("t", JStr type); ("id", JStr "e3");
   ("d", JDict payload)].

(** The same envelope without its event id. *)
Definition envelope_without_id (type : str) (payload : list (str * json))
  : list (str * json) :=
  [("op", JInt 0); ("s", JInt 9); ("t", JStr type); ("d", JDict payload)].

Definition guild_payload : list (str * json) :=
  [("id", JStr "g1"); ("name", JStr "guild")].

Definition thread : list (str * json) :=
  [("thread_id", JStr "t1"); ("content", JStr "[1]"); ("title", JStr "plain title")].

Definition thread_without_title : list (str * json) :=
  [("thread_id", JStr "t1"); ("content", JStr "[1]")].

(** A JSON reader that knows one text. *)
Definition reads_one : str -> option json :=
  fun txt => if Str.eqb txt "[1]" then Some (JList [JInt 1]) else None.

(** A state with a session to resume. *)
Definition resumable : state :=
  set_session_id (JStr "abc123") (set_s (JInt 12) (set_reconnect_times 3 Ws.initial)).

(** Serialisation of text values: the text itself, after its content type
    when the field has one; the text [?] cannot be serialised. *)
Definition text_payload (v : str) (content_type : option str)
  (headers : list (str * str)) : option str :=
  if Str.eqb v "?" then None
  else Some (match content_type with
             | Some c => c ++ ":" ++ v
             | None => v
             end).

Definition text_disposed (params : list (str * str)) (part : str) : str :=
  "form-data;" ++ part.

Definition text_fields : list (Form.field str) :=
  [Form.mkField [("name", "content")] [] (Form.Plain (Some "hello"));
   Form.mkField [("name", "image")] [] (Form.StrPtr None);
   Form.mkField [("name", "embed")] [] (Form.Plain None);
   Form.mkField [] [("Content-Type", "text/plain")] (Form.StrPtr (Some "world"))].

Definition bad_field : Form.field str :=
  Form.mkField [("name", "file")] [] (Form.Plain (Some "?")).

(** A bot that registered the message callbacks only. *)
Definition quiet_bot : Bot :=
  mkBot "102" "secret" 513 0 1 false false true true
    None (Some "on_msg") (Some "on_dm") None (Some "on_forum")
    None None None None None None None.

End Notions.

(** * Equality of texts *)

Module PySpec.
Import Py.

Lemma str_eqb_refl : forall t, Str.eqb t t = true.
Proof.
  induction t as [|c t IH]; cbn; [reflexivity|].
  now rewrite N.eqb_refl, IH.
Qed.

Lemma str_eqb_eq : forall a b, Str.eqb a b = true <-> a = b.
Proof.
  induction a as [|x a IH]; intros [|y b]; cbn; split; intro H;
    try reflexivity; try discriminate.
  - apply andb_true_iff in H. destruct H as [Hc Ht].
    apply N.eqb_eq in Hc. apply IH in Ht. now subst.
  - injection H as -> ->. now rewrite N.eqb_refl, str_eqb_refl.
Qed.

Lemma str_eqb_neq : forall a b, Str.eqb a b = false <-> a <> b.
Proof.
  intros a b. split.
  - intros H Heq. apply str_eqb_eq in Heq. congruence.
  - intro H. destruct (Str.eqb a b) eqn:E; [|reflexivity].
    apply str_eqb_eq in E. contradiction.
Qed.

Lemma str_eqb_spec : forall a b, reflect (a = b) (Str.eqb a b).
Proof.
  intros a b. destruct (Str.eqb a b) eqn:E; constructor.
  - now apply str_eqb_eq.
  - now apply str_eqb_neq.
Qed.

(** [str.strip] and [int] on text beyond ASCII. *)
Example strip_keeps_letters : strip "　你 " = "你".
Proof. reflexivity. Qed.

Example strip_separators : strip (Chr 28 (Chr 133 (Chr 160 "a b"))) = "a b".
Proof. reflexivity. Qed.

Example int_of_wide_digits : int_of_str " ４_２ " = Some 42.
Proof. reflexivity. Qed.

Example int_of_mixed_digits : int_of_str (Chr 49 (Chr 1634 Empty)) = Some 12.
Proof. reflexivity. Qed.

Example int_rejects_separator : int_of_str (Chr 28 "5") = None.
Proof. reflexivity. Qed.

Example int_rejects_inner_blank : int_of_str "+ 5" = None.
Proof. reflexivity. Qed.

End PySpec.

(** * Properties of the REST session *)

Module HttpSpec.
Import Py PySpec Http Samples.
Local Open Scope list_scope.

Section Request.

Variable retry_err_code : list Z.
Variable self : Session.
Variable server : nat -> response.

Lemma check_session_issued :
  forall w, issued (_check_session w) = issued w.
Proof. intro w. unfold _check_session. destruct (session_open w); reflexivity. Qed.

Lemma check_session_logged :
  forall w, logged (_check_session w) = logged w.
Proof. intro w. unfold _check_session. destruct (session_open w); reflexivity. Qed.

(** A call made with the retry flag issues one request and hands back its
    response, whatever it is. *)
Lemma retry_call_is_final :
  forall fuel method url w,
    let w1 := add_request (mkRequest method url true) (_check_session w) in
    let resp := server (List.length (issued w)) in
    _request retry_err_code self server (S fuel) method url true w =
      Some (Return resp,
            if ok resp then w1
            else if _is_log_error self then _warning url resp w1 else w1).
Proof.
  intros fuel method url w w1 resp.
  cbn [_request]. rewrite check_session_issued. fold resp. fold w1.
  destruct (ok resp); [reflexivity|].
  rewrite andb_false_r, orb_true_r, andb_true_r.
  destruct (_is_log_error self); reflexivity.
Qed.

Lemma retry_call_issued :
  forall fuel method url w r w',
    _request retry_err_code self server (S fuel) method url true w = Some (r, w') ->
    r = Return (server (List.length (issued w)))
    /\ issued w' = issued w ++ [mkRequest method url true].
Proof.
  intros fuel method url w r w' H.
  rewrite retry_call_is_final in H. injection H as <- <-.
  split; [reflexivity|].
  destruct (ok _); [|destruct (_is_log_error self)]; cbn;
    now rewrite check_session_issued.
Qed.

(** The first activation of a call, with the re-issue left folded. *)
Lemma first_call_unfold :
  forall fuel method url w,
    let w0 := _check_session w in
    let resp := server (List.length (issued w)) in
    let w1 := add_request (mkRequest method url false) w0 in
    _request retry_err_code self server (S fuel) method url false w =
      if ok resp then Some (Return resp, w1)
      else if _is_retry self then
        if Str.eqb (content_type resp) "application/json" then
          match json_ resp with
          | Return j =>
              if not_retryable retry_err_code j
              then Some (Return resp, _warning url resp w1)
              else _request retry_err_code self server fuel method url true w1
          | Raise e => Some (Raise e, w1)
          | Exit => Some (Exit, w1)
          end
        else _request retry_err_code self server fuel method url true w1
      else Some (Return resp, if _is_log_error self then _warning url resp w1 else w1).
Proof.
  intros fuel method url w w0 resp w1.
  cbn [_request]. rewrite check_session_issued. fold w0 resp w1.
  destruct (ok resp); [reflexivity|].
  destruct (_is_retry self), (_is_log_error self); reflexivity.
Qed.

(** C4.  A call issued with the retry flag set sends exactly one request
    and returns that request's response as it is, failed or not; and any
    call, given room for two activations, ends after its own request plus at
    most one re-issue, which carries the retry flag. *)
Theorem C4_at_most_one_retry :
  forall fuel method url retry w,
    (exists w',
        _request retry_err_code self server (S fuel) method url true w
          = Some (Return (server (List.length (issued w))), w')
        /\ issued w' = issued w ++ [mkRequest method url true])
    /\ (exists r w',
           _request retry_err_code self server (S (S fuel)) method url retry w
             = Some (r, w')
           /\ (issued w' = issued w ++ [mkRequest method url retry]
               \/ retry = false
                  /\ issued w' = issued w ++ [mkRequest method url false;
                                              mkRequest method url true])).
Proof.
  intros fuel method url retry w. split.
  - destruct (_request retry_err_code self server (S fuel) method url true w)
      as [[r w']|] eqn:E.
    + destruct (retry_call_issued _ _ _ _ _ _ E) as [-> Hi]. eauto.
    + rewrite retry_call_is_final in E. discriminate.
  - destruct retry.
    + destruct (_request retry_err_code self server (S (S fuel)) method url true w)
        as [[r w']|] eqn:E.
      * destruct (retry_call_issued _ _ _ _ _ _ E) as [_ Hi]. eauto.
      * rewrite retry_call_is_final in E. discriminate.
    + assert (Hretry : forall w1,
                 issued w1 = issued w ++ [mkRequest method url false] ->
                 exists r w',
                   _request retry_err_code self server (S fuel) method url true w1
                     = Some (r, w')
                   /\ issued w' = issued w ++ [mkRequest method url false;
                                               mkRequest method url true]).
      { intros w1 H1.
        destruct (_request retry_err_code self server (S fuel) method url true w1)
          as [[r w']|] eqn:E.
        - destruct (retry_call_issued _ _ _ _ _ _ E) as [_ Hi].
          exists r, w'. split; [reflexivity|].
          rewrite Hi, H1, <- app_assoc. reflexivity.
        - rewrite retry_call_is_final in E. discriminate. }
      rewrite first_call_unfold.
      set (w1 := add_request (mkRequest method url false) (_check_session w)).
      assert (H0 : issued w1 = issued w ++ [mkRequest method url false]).
      { cbn. now rewrite check_session_issued. }
      destruct (Hretry _ H0) as (r & w' & E & Hi).
      assert (Hagain : exists r w',
                 _request retry_err_code self server (S fuel) method url true w1
                   = Some (r, w')
                 /\ (issued w' = issued w ++ [mkRequest method url false]
                     \/ false = false
                        /\ issued w' = issued w ++ [mkRequest method url false;
                                                    mkRequest method url true])).
      { exists r, w'. split; [exact E|]. right. split; [reflexivity|exact Hi]. }
      destruct (ok _); [eauto|].
      destruct (_is_retry self).
      * destruct (Str.eqb _ _); [|exact Hagain].
        destruct (json_ _) as [j|e|]; [|eauto|eauto].
        destruct (not_retryable retry_err_code j); [|exact Hagain].
        do 2 eexists. split; [reflexivity|]. left. exact H0.
      * destruct (_is_log_error self); do 2 eexists;
          (split; [reflexivity|]); left; exact H0.
Qed.

(** C1, as the code has it.  With retry enabled, a first attempt whose
    response is not successful is answered in one of three ways.  When the
    content type is exactly application/json and the body decodes to a value
    that is not a mapping, or whose [code] is not in the retryable set, the
    warning is logged and that response is returned; no second request is
    made.  When the content type is application/json and decoding the body
    raises, the exception leaves [_request]: one request, no warning, no
    second request.  In every other case, a content type other than
    application/json included, the call is issued once more with the retry
    flag, and the second response is returned. *)
Theorem C1_reissue_unless_json_forbids :
  forall method url w,
    _is_retry self = true ->
    ok (server (List.length (issued w))) = false ->
    let resp := server (List.length (issued w)) in
    let first := mkRequest method url false in
    let again := mkRequest method url true in
    let reissued r w' :=
      r = Return (server (S (List.length (issued w))))
      /\ issued w' = issued w ++ [first; again] in
    let only_first w' :=
      issued w' = issued w ++ [first] /\ logged w' = logged w in
    exists r w',
      _request retry_err_code self server 2 method url false w = Some (r, w')
      /\ if Str.eqb (content_type resp) "application/json"
         then match json_ resp with
              | Return j =>
                  if not_retryable retry_err_code j
                  then r = Return resp
                       /\ issued w' = issued w ++ [first]
                       /\ logged w' = logged w
                            ++ [Warning_api url (status resp) (text resp)
                                  (trace_id resp)]
                  else reissued r w'
              | Raise e => r = Raise e /\ only_first w'
              | Exit => r = Exit /\ only_first w'
              end
         else reissued r w'.
Proof.
  intros method url w Hretry Hfail resp first again reissued only_first.
  rewrite first_call_unfold. fold resp first.
  set (w1 := add_request first (_check_session w)).
  assert (H1 : issued w1 = issued w ++ [first]).
  { cbn. now rewrite check_session_issued. }
  assert (Hagain : exists r w',
             _request retry_err_code self server 1 method url true w1 = Some (r, w')
             /\ r = Return (server (S (List.length (issued w))))
             /\ issued w' = issued w ++ [first; again]).
  { destruct (_request retry_err_code self server 1 method url true w1)
      as [[r w']|] eqn:E.
    - destruct (retry_call_issued _ _ _ _ _ _ E) as [-> Hi].
      exists (Return (server (List.length (issued w1)))), w'.
      split; [reflexivity|]. split.
      + rewrite H1, length_app, Nat.add_1_r. reflexivity.
      + rewrite Hi, H1, <- app_assoc. reflexivity.
    - rewrite retry_call_is_final in E. discriminate. }
  unfold resp in *. rewrite Hfail, Hretry.
  assert (Hl1 : logged w1 = logged w).
  { cbn. now rewrite check_session_logged. }
  destruct (Str.eqb (content_type _) "application/json"); cbn [andb negb orb].
  - destruct (json_ _) as [j|e|].
    + destruct (not_retryable retry_err_code j).
      * do 2 eexists. split; [reflexivity|]. repeat split.
        -- exact H1.
        -- cbn. now rewrite check_session_logged.
      * exact Hagain.
    + do 2 eexists. split; [reflexivity|]. unfold only_first. repeat split.
      * destruct (_is_log_error self); exact H1.
      * destruct (_is_log_error self); exact Hl1.
    + do 2 eexists. split; [reflexivity|]. unfold only_first. repeat split.
      * destruct (_is_log_error self); exact H1.
      * destruct (_is_log_error self); exact Hl1.
  - exact Hagain.
Qed.

End Request.

(** A failing page that is not JSON is requested again, and the caller gets
    the second answer: the first response is not the one returned. *)
Lemma C1_html_failure_is_reissued :
  _request codes session0 (first_then bad_gateway fine) 2 "GET" "/users/@me" false fresh
  = Some (Return fine,
          mkWorld true
            [mkRequest "GET" "/users/@me" false; mkRequest "GET" "/users/@me" true]
            []).
Proof. reflexivity. Qed.

Lemma C1_json_refusal_returned :
  exists r w',
    _request codes session0 (always missing) 2 "GET" "/guilds" false fresh = Some (r, w')
    /\ r = Return missing
    /\ issued w' = [mkRequest "GET" "/guilds" false]
    /\ logged w' = [Warning_api "/guilds" 404 "code 10001" None].
Proof.
  exact (C1_reissue_unless_json_forbids codes session0 (always missing)
           "GET" "/guilds" fresh eq_refl eq_refl).
Defined.

(** A failure announced as JSON whose body does not decode: the decoding
    error reaches the caller, nothing is logged and nothing is requested
    again. *)
Example undecodable_failure_raises :
  _request codes session0 (first_then garbled fine) 2 "GET" "/guilds" false fresh
  = Some (Raise JSONDecodeError, mkWorld true [mkRequest "GET" "/guilds" false] []).
Proof. reflexivity. Qed.

(** Scenario 5 of the specification: code 11298 twice, two requests, the
    second response handed back with its warning. *)
Example retryable_code_twice :
  _request codes session0 (always limited) 2 "GET" "/guilds" false fresh
  = Some (Return limited,
          mkWorld true
            [mkRequest "GET" "/guilds" false; mkRequest "GET" "/guilds" true]
            [Warning_api "/guilds" 429 "code 11298" (Some "trace-1")]).
Proof. reflexivity. Qed.

Section Attributes.

Variable exception_handler : exn -> str.
Variable create_task : str -> list json -> list (str * json) -> py task.




(** Without a positional argument the handler has no URL to print: its own
    [args[0]] raises. *)
Lemma wrap_without_positional_argument :
  forall item kwargs e w,
    create_task item [] kwargs = Raise e ->
    wrap exception_handler create_task item [] kwargs w = (Raise IndexError, w).
Proof.
  intros item kwargs e w Hraise.
  unfold wrap, try_except, bind, lift. rewrite Hraise. reflexivity.
Qed.

(** A submission that succeeds hands its task back. *)
Lemma wrap_submitted :
  forall item args kwargs h w,
    create_task item args kwargs = Return h ->
    wrap exception_handler create_task item args kwargs w = (Return (Some h), w).
Proof.
  intros item args kwargs h w Hok.
  unfold wrap, try_except, bind, lift. rewrite Hok. reflexivity.
Qed.

End Attributes.



End HttpSpec.

(** * Properties of the gateway connection *)

Module WsSpec.
Import Py PySpec Ws Claims Samples Notions.
Local Open Scope list_scope.

(** ** Dictionaries and strings *)

Lemma dict_get_set_same :
  forall k v kv, dict_get k (dict_set k v kv) = Some v.
Proof.
  intros k v kv. induction kv as [|[k' v'] rest IH]; cbn.
  - now rewrite str_eqb_refl.
  - destruct (Str.eqb k k') eqn:E; cbn; rewrite E; [reflexivity|exact IH].
Qed.

Lemma dict_get_set_other :
  forall k k' v kv, k <> k' -> dict_get k (dict_set k' v kv) = dict_get k kv.
Proof.
  intros k k' v kv Hne. induction kv as [|[k0 v0] rest IH]; cbn.
  - apply str_eqb_neq in Hne. now rewrite Hne.
  - destruct (Str.eqb k' k0) eqn:E; cbn.
    + apply str_eqb_eq in E. subst k0.
      apply str_eqb_neq in Hne. now rewrite Hne.
    + now rewrite IH.
Qed.

(** An integer equals at most one integer literal. *)
Lemma py_eq_int_unique :
  forall v a b, py_eq v (JInt a) = true -> py_eq v (JInt b) = true -> a = b.
Proof.
  intros v a b Ha Hb. destruct v; cbn in *; try discriminate.
  - apply Z.eqb_eq in Ha, Hb. congruence.
  - apply Z.eqb_eq in Ha, Hb. congruence.
Qed.

Lemma find_from_range :
  forall sub t i, 0 <= i -> find_from i sub t = -1 \/ i <= find_from i sub t.
Proof.
  intros sub t. induction t as [|c rest IH]; intros i Hi; cbn [find_from].
  - destruct (startswith sub Empty); [right|left]; lia.
  - destruct (startswith sub (Chr c rest)); [right; lia|].
    destruct (IH (i + 1)) as [H|H]; [lia|left; exact H|right; lia].
Qed.

(** [t.find(p)] is zero exactly when [t] starts with [p]. *)
Lemma find_zero_startswith :
  forall p t, truthy_int (find p t) = negb (startswith p t).
Proof.
  intros p t. unfold find, truthy_int.
  destruct t as [|c rest]; cbn [find_from].
  - destruct (startswith p Empty); reflexivity.
  - destruct (startswith p (Chr c rest)); [reflexivity|].
    destruct (find_from_range p rest (0 + 1)) as [H|H]; [lia| |].
    + rewrite H. reflexivity.
    + destruct (Z.eqb_spec (find_from (0 + 1) p rest) 0); [lia|reflexivity].
Qed.

(** What the ternary on [raw_msg.find(at)] computes: the leading mention
    is removed, a mention further on or none at all leaves the text as it
    is. *)
Lemma mention_test_removes_prefix :
  forall p t,
    (if truthy_int (find p t) then t else replace1 p Empty t)
    = removeprefix p t.
Proof.
  intros p t. rewrite find_zero_startswith. unfold removeprefix.
  destruct (startswith p t) eqn:E; cbn [negb]; [|reflexivity].
  destruct t; cbn [replace1]; rewrite E; reflexivity.
Qed.

(** ** Running the monad one step *)

Section Steps.

Context {S A B : Type}.

Lemma bind_ret : forall (a : A) (k : A -> M S B) st, bind (ret a) k st = k a st.
Proof. reflexivity. Qed.

Lemma bind_return : forall (a : A) (k : A -> M S B) st,
    bind (lift (Return a)) k st = k a st.
Proof. reflexivity. Qed.

Lemma bind_raised : forall e (k : A -> M S B) st,
    bind (lift (Raise e)) k st = (Raise e, st).
Proof. reflexivity. Qed.

Lemma bind_gets : forall (f : S -> A) (k : A -> M S B) st,
    bind (gets f) k st = k (f st) st.
Proof. reflexivity. Qed.

Lemma bind_modify : forall (f : S -> S) (k : unit -> M S B) st,
    bind (modify f) k st = k tt (f st).
Proof. reflexivity. Qed.

End Steps.

(** ** Relations kept along a computation *)

Section Keeps.

Variable R : state -> state -> Prop.
Hypothesis R_refl : forall st, R st st.
Hypothesis R_trans : forall a b c, R a b -> R b c -> R a c.

Lemma keeps_ret : forall A (a : A), keeps R (ret a).
Proof. intros A a st. apply R_refl. Qed.

Lemma keeps_lift : forall A (r : py A), keeps R (lift r).
Proof. intros A r st. apply R_refl. Qed.

Lemma keeps_gets : forall A (f : state -> A), keeps R (gets f).
Proof. intros A f st. apply R_refl. Qed.

Lemma keeps_raise : forall A e, keeps R (@raise state A e).
Proof. intros A e st. apply R_refl. Qed.

Lemma keeps_exit : forall A, keeps R (@exit state A).
Proof. intros A st. apply R_refl. Qed.

Lemma keeps_modify :
  forall f, (forall st, R st (f st)) -> keeps R (modify f).
Proof. intros f H st. apply H. Qed.

Lemma keeps_bind :
  forall A B (c : M state A) (k : A -> M state B),
    keeps R c -> (forall a, keeps R (k a)) -> keeps R (bind c k).
Proof.
  intros A B c k Hc Hk st. unfold bind.
  specialize (Hc st). destruct (c st) as [[a|e|] st1]; cbn in *.
  - eapply R_trans; [exact Hc|apply Hk].
  - exact Hc.
  - exact Hc.
Qed.

Lemma keeps_try_except :
  forall A (c : M state A) (h : exn -> M state A),
    keeps R c -> (forall e, keeps R (h e)) -> keeps R (try_except c h).
Proof.
  intros A c h Hc Hh st. unfold try_except.
  specialize (Hc st). destruct (c st) as [[a|e|] st1]; cbn in *.
  - exact Hc.
  - eapply R_trans; [exact Hc|apply Hh].
  - exact Hc.
Qed.

End Keeps.

(** ** What every method keeps

    [R] is kept by a method as soon as it is kept by the assignments the
    method makes; each lemma below depends on the assumptions about the
    assignments that its method reaches, and on no other. *)

Section Frame.

Variable treat_msg : str -> json.
Variable loads : str -> option json.
Variable repr_obj : json -> str.
Variable self : Bot.
Variable identity : nat -> py json.
Variable stack_depth : nat.

Variable R : state -> state -> Prop.
Hypothesis R_refl : forall st, R st st.
Hypothesis R_trans : forall a b c, R a b -> R b c -> R a c.
Hypothesis R_logged : forall r st, R st (set_logged (logged st ++ [r]) st).
Hypothesis R_called : forall c st, R st (set_called (called st ++ [c]) st).
Hypothesis R_sent : forall m st, R st (set_sent (sent st ++ [m]) st).
Hypothesis R_fetched : forall n st, R st (set_fetched n st).
Hypothesis R_heartbeat : forall h st, R st (set_heartbeat h st).
Hypothesis R_flag : forall st, R st (set_flag true st).
Hypothesis R_robot : forall r st, R st (set_robot r st).
Hypothesis R_session_id : forall v st, R st (set_session_id v st).
Hypothesis R_heartbeat_time : forall v st, R st (set_heartbeat_time v st).
Hypothesis R_reconnect_zero : forall st, R st (set_reconnect_times 0 st).
Hypothesis R_reconnect_next :
  forall st, R st (set_reconnect_times (reconnect_times st + 1) st).
Hypothesis R_op9 : forall st, R st (set_op9_flag true st).
Hypothesis R_s : forall v st, R st (set_s v st).
Hypothesis R_re_connect : forall b st, R st (set_re_connect b st).
Hypothesis R_ws_closed : forall b st, R st (set_ws_closed b st).

Ltac side :=
  intros; cbv beta;
  repeat match goal with
         | |- context [match ?x with _ => _ end] => destruct x
         end;
  auto.

Ltac kept :=
  lazymatch goal with
  | |- keeps _ (bind _ _) =>
      apply keeps_bind; [exact R_trans | kept | intros; kept]
  | |- keeps _ (try_except _ _) =>
      apply keeps_try_except; [exact R_trans | kept | intros; kept]
  | |- keeps _ (ret _) => apply keeps_ret; exact R_refl
  | |- keeps _ (lift _) => apply keeps_lift; exact R_refl
  | |- keeps _ (gets _) => apply keeps_gets; exact R_refl
  | |- keeps _ (raise _) => apply keeps_raise; exact R_refl
  | |- keeps _ exit => apply keeps_exit; exact R_refl
  | |- keeps _ (modify _) => apply keeps_modify; side
  | |- keeps _ (match ?x with _ => _ end) => destruct x; kept
  | |- _ => auto
  end.

Lemma keeps_log : forall r, keeps R (log r).
Proof using R_logged. intro r. unfold log. kept. Qed.

Lemma keeps_start : forall c, keeps R (start c).
Proof using R_called. intro c. unfold start. kept. Qed.

Lemma keeps_ws_send : forall m, keeps R (ws_send m).
Proof using R_refl R_sent. intro m. unfold ws_send. kept. Qed.

Lemma keeps_handshake : keeps R (handshake self).
Proof using R_refl R_trans R_sent.
  unfold handshake. apply keeps_bind; [exact R_trans|kept|].
  intros [|]; cbn [negb].
  - intro st. unfold send_reconnect. apply keeps_ws_send.
  - unfold send_connect. apply keeps_ws_send.
Qed.

Lemma keeps_start_heartbeat : keeps R start_heartbeat.
Proof using R_refl R_heartbeat. unfold start_heartbeat. kept. Qed.

Lemma keeps_cancel_heartbeat : keeps R cancel_heartbeat.
Proof using R_refl R_heartbeat. unfold cancel_heartbeat. kept. Qed.

Hint Resolve keeps_log keeps_start keeps_ws_send keeps_handshake
  keeps_start_heartbeat keeps_cancel_heartbeat : core.

Lemma keeps_get_robot_info :
  forall depth retry, keeps R (get_robot_info identity depth retry).
Proof using R_refl R_trans R_logged R_fetched.
  induction depth as [|depth IH]; intro retry; cbn [get_robot_info]; kept.
Qed.

Lemma keeps_distribute :
  forall function data, keeps R (distribute self function data).
Proof using R_refl R_trans R_called. intros function data. unfold distribute. kept. Qed.

Lemma keeps_raw_content : forall data, keeps R (raw_content data).
Proof using R_refl R_trans. intro data. unfold raw_content. kept. Qed.

Lemma keeps_mention : keeps R (mention repr_obj).
Proof using R_refl R_trans. unfold mention. kept. Qed.

Lemma keeps_load_thread_field :
  forall items data, keeps R (load_thread_field loads items data).
Proof using R_refl R_trans. intros items data. unfold load_thread_field. kept. Qed.

Hint Resolve keeps_get_robot_info keeps_distribute keeps_raw_content
  keeps_mention keeps_load_thread_field : core.

Lemma keeps_data_process :
  forall data, keeps R (data_process treat_msg loads repr_obj self data).
Proof using R_refl R_trans R_logged R_called.
  intro data. unfold data_process, exception_processor, data_process_body. kept.
Qed.

Lemma keeps_first_ready : keeps R (first_ready self identity stack_depth).
Proof using R_refl R_trans R_logged R_called R_fetched R_flag R_robot.
  unfold first_ready. kept.
Qed.

Lemma keeps_on_resumed : keeps R on_resumed.
Proof using R_refl R_trans R_logged R_heartbeat R_reconnect_zero.
  unfold on_resumed. kept.
Qed.

Lemma keeps_on_invalid_session : keeps R (on_invalid_session self).
Proof using R_refl R_trans R_logged R_sent R_op9.
  unfold on_invalid_session. kept.
Qed.

Lemma keeps_on_hello : forall data, keeps R (on_hello self data).
Proof using R_refl R_trans R_sent R_heartbeat_time.
  intro data. unfold on_hello. kept.
Qed.

(** What follows the two assignments of the READY branch. *)
Lemma keeps_ready_tail :
  keeps R (bind start_heartbeat
             (fun _ => bind (log Info_connected)
                         (fun _ => first_ready self identity stack_depth))).
Proof using R_refl R_trans R_logged R_called R_fetched R_flag R_robot R_heartbeat.
  kept. apply keeps_first_ready.
Qed.

Hint Resolve keeps_data_process keeps_first_ready keeps_on_resumed
  keeps_on_invalid_session keeps_on_hello : core.

Lemma keeps_on_ready :
  forall data, keeps R (on_ready self identity stack_depth data).
Proof using R_refl R_trans R_logged R_called R_fetched R_flag R_robot
  R_heartbeat R_reconnect_zero R_session_id.
  intro data. unfold on_ready. kept.
Qed.

Hint Resolve keeps_on_ready : core.

Lemma keeps_on_op :
  forall op data,
    keeps R (on_op treat_msg loads repr_obj self identity stack_depth op data).
Proof using R_refl R_trans R_logged R_called R_fetched R_flag R_robot
  R_heartbeat R_reconnect_zero R_session_id R_sent R_op9 R_heartbeat_time.
  intros op data. unfold on_op. kept.
Qed.

Hint Resolve keeps_on_op : core.

Lemma keeps_main :
  forall msg, keeps R (main treat_msg loads repr_obj self identity stack_depth msg).
Proof using R_refl R_trans R_logged R_called R_fetched R_flag R_robot
  R_heartbeat R_reconnect_zero R_session_id R_sent R_op9 R_heartbeat_time R_s.
  intro msg. unfold main. kept.
Qed.

Hint Resolve keeps_main : core.

Lemma keeps_receive :
  forall messages,
    keeps R (receive treat_msg loads repr_obj self identity stack_depth messages).
Proof using R_refl R_trans R_logged R_called R_fetched R_flag R_robot
  R_heartbeat R_reconnect_zero R_session_id R_sent R_op9 R_heartbeat_time R_s
  R_re_connect R_ws_closed.
  induction messages as [|m rest IH]; cbn [receive]; kept.
Qed.

Lemma keeps_with_ws :
  forall body, keeps R body -> keeps R (with_ws body).
Proof using R_trans R_ws_closed.
  intros body Hbody st. unfold with_ws.
  specialize (Hbody (set_ws_closed false st)).
  destruct (body (set_ws_closed false st)) as [r st1]. cbn in *.
  eapply R_trans; [apply R_ws_closed|]. eapply R_trans; [exact Hbody|apply R_ws_closed].
Qed.

Lemma keeps_connect :
  forall a, keeps R (connect treat_msg loads repr_obj self identity stack_depth a).
Proof using R_refl R_trans R_logged R_called R_fetched R_flag R_robot
  R_heartbeat R_reconnect_zero R_session_id R_sent R_op9 R_heartbeat_time R_s
  R_re_connect R_ws_closed R_reconnect_next.
  intro a. unfold connect.
  apply keeps_bind; [exact R_trans|kept|]. intros _.
  apply keeps_try_except; [exact R_trans| |intros; kept].
  destruct a as [e|messages]; [kept|].
  apply keeps_with_ws, keeps_receive.
Qed.

Lemma keeps_reconnect :
  forall a, keeps R (reconnect treat_msg loads repr_obj self identity stack_depth a).
Proof using R_refl R_trans R_logged R_called R_fetched R_flag R_robot
  R_heartbeat R_reconnect_zero R_session_id R_sent R_op9 R_heartbeat_time R_s
  R_re_connect R_ws_closed R_reconnect_next.
  intro a. unfold reconnect.
  apply keeps_bind; [exact R_trans|kept|]. intros _. apply keeps_connect.
Qed.

End Frame.

(** ** The claims about the gateway connection *)

Ltac frame_same := unfold same; intros; first [reflexivity | congruence].

Ltac frame_sticky := unfold op9_sticky; intros; auto.

Ltac frame_grows :=
  unfold sent_grows; intros;
  first [ exists []; cbn; rewrite app_nil_r; reflexivity
        | eexists; cbn; reflexivity
        | match goal with
          | H1 : exists _, _, H2 : exists _, _ |- _ =>
              destruct H1 as [l1 H1]; destruct H2 as [l2 H2];
              exists (l1 ++ l2); rewrite H2, H1, app_assoc; reflexivity
          end ].

Section Gateway.

Variable treat_msg : str -> json.
Variable loads : str -> option json.
Variable repr_obj : json -> str.
Variable self : Bot.
Variable identity : nat -> py json.
Variable stack_depth : nat.

Lemma on_op_same_s :
  forall op data st,
    s (snd (on_op treat_msg loads repr_obj self identity stack_depth op data st)) = s st.
Proof.
  intros op data st.
  apply (keeps_on_op treat_msg loads repr_obj self identity stack_depth (same s));
    frame_same.
Qed.

(** C9, as the code has it.  A frame that carries a sequence number leaves
    exactly that number stored, whatever was stored before and however the
    handling of the frame ends; nothing is compared. *)
Theorem C9_sequence_is_overwritten :
  forall msg v st,
    seq_of msg = Some v ->
    s (snd (main treat_msg loads repr_obj self identity stack_depth msg st)) = v.
Proof.
  intros msg v st Hseq.
  destruct msg as [[| | | | |kv]|]; cbn in Hseq; try discriminate.
  unfold main. rewrite Hseq. unfold bind at 1. cbn [modify].
  rewrite on_op_same_s. reflexivity.
Qed.

(** A frame without a sequence number leaves the stored one alone. *)
Lemma no_sequence_same_s :
  forall msg st,
    seq_of msg = None ->
    s (snd (main treat_msg loads repr_obj self identity stack_depth msg st)) = s st.
Proof.
  intros msg st Hseq.
  destruct msg as [[| | | | |kv]|]; try reflexivity.
  cbn in Hseq. unfold main. rewrite Hseq. unfold bind at 1. cbn [ret].
  apply on_op_same_s.
Qed.

Lemma connect_op9_sticky :
  forall a st,
    op9_flag st = true ->
    op9_flag (snd (connect treat_msg loads repr_obj self identity stack_depth a st)) = true.
Proof.
  intros a st.
  apply (keeps_connect treat_msg loads repr_obj self identity stack_depth op9_sticky);
    frame_sticky.
Qed.

Lemma reconnect_op9_sticky :
  forall a st,
    op9_flag st = true ->
    op9_flag (snd (reconnect treat_msg loads repr_obj self identity stack_depth a st)) = true.
Proof.
  intros a st.
  apply (keeps_reconnect treat_msg loads repr_obj self identity stack_depth op9_sticky);
    frame_sticky.
Qed.

(** C3, as the code has it.  An invalid-session frame is handled by the
    flag [op9_flag] alone.  While the flag is unset, the frame sets it,
    re-sends identify (resume not allowed) or resume (allowed), logs nothing
    and lets the receive loop go on.  Once the flag is set, the frame logs
    the fatal error and ends the process.  No connection attempt, first or
    later, clears the flag: it stays set through [connect] and through a
    round of the reconnect loop. *)
Theorem C3_invalid_session_flag :
  forall kv st a,
    dict_get "op" kv = Some (JInt 9) ->
    let st1 := match dict_get "s" kv with Some v => set_s v st | None => st end in
    let out := main treat_msg loads repr_obj self identity stack_depth
                 (Some (JDict kv)) st in
    (if op9_flag st
     then fst out = Exit
          /\ logged (snd out) = logged st ++ [Error_op9]
          /\ sent (snd out) = sent st
     else fst out = Return tt
          /\ op9_flag (snd out) = true
          /\ logged (snd out) = logged st
          /\ sent (snd out) =
               if ws_closed st then sent st
               else sent st ++ [if re_connect st then reconnect_paras self st1
                                else connect_paras self])
    /\ implb (op9_flag st)
         (op9_flag (snd (connect treat_msg loads repr_obj self identity
                           stack_depth a st))) = true
    /\ implb (op9_flag st)
         (op9_flag (snd (reconnect treat_msg loads repr_obj self identity
                           stack_depth a st))) = true.
Proof.
  intros kv st a Hop st1 out. split; [|split].
  - assert (Hout : out = on_invalid_session self st1).
    { unfold out, main. rewrite Hop. unfold bind at 1.
      unfold st1. destruct (dict_get "s" kv); reflexivity. }
    assert (H1 : op9_flag st1 = op9_flag st /\ logged st1 = logged st
                 /\ sent st1 = sent st /\ ws_closed st1 = ws_closed st
                 /\ re_connect st1 = re_connect st).
    { unfold st1. destruct (dict_get "s" kv); repeat split. }
    destruct H1 as (Hflag & Hlog & Hsent & Hclosed & Hre).
    rewrite Hout, <- Hflag, <- Hlog, <- Hsent, <- Hclosed, <- Hre.
    unfold on_invalid_session, bind, gets.
    destruct (op9_flag st1); cbn [negb].
    + repeat split.
    + unfold modify, handshake, bind, gets. cbn [re_connect set_op9_flag].
      destruct (re_connect st1); cbn [negb];
        unfold send_reconnect, send_connect, ws_send, modify;
        cbn [ws_closed set_op9_flag]; destruct (ws_closed st1); repeat split.
  - destruct (op9_flag st) eqn:E; [|reflexivity].
    cbn [implb]. now apply connect_op9_sticky.
  - destruct (op9_flag st) eqn:E; [|reflexivity].
    cbn [implb]. now apply reconnect_op9_sticky.
Qed.

Lemma on_ready_reconnect_times :
  forall kv st,
    reconnect_times (snd (on_ready self identity stack_depth (JDict kv) st)) =
      if match dict_get "d" kv with
         | Some (JDict d) => dict_has "session_id" d
         | _ => false
         end
      then 0 else reconnect_times st.
Proof.
  intros kv st. unfold on_ready. cbn [subscript].
  destruct (dict_get "d" kv) as [d|]; [|reflexivity].
  rewrite bind_return.
  destruct d as [| | | | |payload]; try reflexivity.
  cbn [subscript]. unfold dict_has.
  destruct (dict_get "session_id" payload) as [sid|]; [|reflexivity].
  rewrite bind_return, !bind_modify.
  apply (keeps_ready_tail self identity stack_depth (same reconnect_times));
    frame_same.
Qed.

Lemma on_op_reconnect_times :
  forall op kv st,
    reconnect_times
      (snd (on_op treat_msg loads repr_obj self identity stack_depth op (JDict kv) st)) =
      if py_eq op (JInt 0)
         && match dict_get "t" kv with
            | Some t =>
                if py_eq t (JStr "READY") then
                  match dict_get "d" kv with
                  | Some (JDict d) => dict_has "session_id" d
                  | _ => false
                  end
                else py_eq t (JStr "RESUMED")
            | None => false
            end
      then 0 else reconnect_times st.
Proof.
  intros op kv st. unfold on_op.
  destruct (py_eq op (JInt 0)) eqn:E0; cbn [andb].
  - destruct (py_eq op (JInt 11)) eqn:E11;
      [pose proof (py_eq_int_unique _ _ _ E0 E11); discriminate|].
    destruct (py_eq op (JInt 9)) eqn:E9;
      [pose proof (py_eq_int_unique _ _ _ E0 E9); discriminate|].
    destruct (py_eq op (JInt 10)) eqn:E10;
      [pose proof (py_eq_int_unique _ _ _ E0 E10); discriminate|].
    cbn [subscript]. destruct (dict_get "t" kv) as [t|]; [|reflexivity].
    rewrite bind_return.
    destruct (py_eq t (JStr "READY")); [apply on_ready_reconnect_times|].
    destruct (py_eq t (JStr "RESUMED")).
    + unfold on_resumed. rewrite bind_modify.
      unfold start_heartbeat, log, bind, modify. cbn.
      destruct (heartbeat st); reflexivity.
    + apply (keeps_data_process treat_msg loads repr_obj self (same reconnect_times));
        frame_same.
  - destruct (py_eq op (JInt 11)); [reflexivity|].
    destruct (py_eq op (JInt 9)).
    { apply (keeps_on_invalid_session self (same reconnect_times)); frame_same. }
    destruct (py_eq op (JInt 10)); [|reflexivity].
    apply (keeps_on_hello self (same reconnect_times)); frame_same.
Qed.

(** [main] never assigns [re_connect]. *)
Lemma main_same_re_connect :
  forall msg st,
    re_connect (snd (main treat_msg loads repr_obj self identity stack_depth msg st))
    = re_connect st.
Proof.
  intros msg st.
  apply (keeps_main treat_msg loads repr_obj self identity stack_depth (same re_connect));
    frame_same.
Qed.

Lemma main_reconnect_times :
  forall msg st,
    reconnect_times (snd (main treat_msg loads repr_obj self identity stack_depth msg st))
    = if ready_or_resumed msg then 0 else reconnect_times st.
Proof.
  intros msg st.
  destruct msg as [[| | | | |kv]|]; try reflexivity.
  unfold main, ready_or_resumed, op_of.
  destruct (dict_get "s" kv) as [v|]; [rewrite bind_modify|rewrite bind_ret];
    rewrite on_op_reconnect_times; reflexivity.
Qed.

(** A hello frame handled on an open socket while resume is not allowed:
    the period is stored and the identify frame is sent. *)
Lemma hello_sends_identify :
  forall kv d interval n f st,
    dict_get "op" kv = Some (JInt 10) ->
    dict_get "d" kv = Some d ->
    subscript d "heartbeat_interval" = Return interval ->
    int_of interval = Return n ->
    float_of_int n = Return f ->
    re_connect st = false ->
    ws_closed st = false ->
    exists st',
      main treat_msg loads repr_obj self identity stack_depth (Some (JDict kv)) st
        = (Return tt, st')
      /\ sent st' = sent st ++ [connect_paras self].
Proof.
  intros kv d interval n f st Hop Hd Hi Hn Hf Hre Hclosed.
  set (st1 := match dict_get "s" kv with Some v => set_s v st | None => st end).
  assert (H1 : re_connect st1 = false /\ ws_closed st1 = false /\ sent st1 = sent st).
  { unfold st1. destruct (dict_get "s" kv); repeat split; assumption. }
  destruct H1 as (Hre1 & Hclosed1 & Hsent1).
  exists (set_sent (sent st1 ++ [connect_paras self])
            (set_heartbeat_time (PrimFloat.mul f milli) st1)).
  split; [|cbn; now rewrite Hsent1].
  unfold main. rewrite Hop.
  assert (Hs : forall k : unit -> M state unit,
             bind (match dict_get "s" kv with
                   | Some v => modify (set_s v)
                   | None => ret tt
                   end) k st = k tt st1).
  { intro k. unfold st1. destruct (dict_get "s" kv); reflexivity. }
  rewrite Hs. unfold on_op.
  change (py_eq (JInt 10) (JInt 11)) with false.
  change (py_eq (JInt 10) (JInt 9)) with false.
  change (py_eq (JInt 10) (JInt 10)) with true.
  cbv iota. unfold on_hello. cbn [subscript].
  rewrite Hd, bind_return, Hi, bind_return, Hn, bind_return, Hf, bind_return.
  rewrite bind_modify. unfold handshake. rewrite bind_gets.
  cbn [re_connect set_heartbeat_time]. rewrite Hre1. cbn [negb].
  unfold send_connect, ws_send, modify. cbn [ws_closed set_heartbeat_time].
  rewrite Hclosed1. reflexivity.
Qed.

Lemma receive_sent_grows :
  forall messages st,
    sent_grows st
      (snd (receive treat_msg loads repr_obj self identity stack_depth messages st)).
Proof.
  intros messages st.
  apply (keeps_receive treat_msg loads repr_obj self identity stack_depth sent_grows);
    frame_grows.
Qed.

(** When the counter has reached 20, the round of the reconnect loop that
    follows answers the gateway's hello with identify: it is the first frame
    the round sends. *)
Lemma reconnect_identifies :
  forall kv d interval n f rest st,
    running st = true ->
    20 <= reconnect_times st ->
    dict_get "op" kv = Some (JInt 10) ->
    dict_get "d" kv = Some d ->
    subscript d "heartbeat_interval" = Return interval ->
    int_of interval = Return n ->
    float_of_int n = Return f ->
    nth_error
      (sent (snd (reconnect treat_msg loads repr_obj self identity stack_depth
                    (Connected (TEXT (Some (JDict kv)) :: rest)) st)))
      (List.length (sent st))
    = Some (connect_paras self).
Proof.
  intros kv d interval n f rest st Hrun Hcount Hop Hd Hi Hn Hf.
  unfold reconnect. rewrite bind_modify.
  assert (H20 : (20 <=? reconnect_times st) = true) by now apply Z.leb_le.
  rewrite H20. unfold connect. rewrite bind_modify.
  set (stB := set_reconnect_times _ _).
  set (stC := set_ws_closed false stB).
  destruct (hello_sends_identify kv d interval n f stC Hop Hd Hi Hn Hf eq_refl eq_refl)
    as (stD & Hmain & HsentD).
  assert (Hbody : receive treat_msg loads repr_obj self identity stack_depth
                    (TEXT (Some (JDict kv)) :: rest) stC
                  = receive treat_msg loads repr_obj self identity stack_depth rest stD).
  { cbn [receive]. rewrite bind_gets.
    change (running stC) with (running st). rewrite Hrun. cbn [negb].
    unfold bind at 1. rewrite Hmain. reflexivity. }
  assert (Hgrow : exists more,
             sent (snd (receive treat_msg loads repr_obj self identity stack_depth
                          rest stD))
             = sent st ++ connect_paras self :: more).
  { destruct (receive_sent_grows rest stD) as [more Hmore].
    exists more. rewrite Hmore, HsentD.
    change (sent stC) with (sent st). now rewrite <- app_assoc. }
  destruct Hgrow as [more Hgrow].
  assert (Hfinal : sent (snd (try_except
                     (with_ws (receive treat_msg loads repr_obj self identity
                                 stack_depth (TEXT (Some (JDict kv)) :: rest)))
                     (fun e =>
                        bind (log Warning_disconnected)
                          (fun _ => bind cancel_heartbeat
                             (fun _ => bind (log (Error_exception e))
                                (fun _ => log (Debug_exception e))))) stB))
                   = sent st ++ connect_paras self :: more).
  { unfold try_except, with_ws. fold stC. rewrite Hbody.
    destruct (receive treat_msg loads repr_obj self identity stack_depth rest stD)
      as [[u|e|] stE]; cbn [snd] in Hgrow; cbn [snd fst]; try exact Hgrow.
    unfold log, cancel_heartbeat, bind, modify. cbn.
    destruct (heartbeat stE); cbn; exact Hgrow. }
  rewrite Hfinal.
  rewrite nth_error_app2 by lia. now rewrite Nat.sub_diag.
Qed.

(** C6.  Handling a message leaves the counter at 0 when the message is a
    READY or RESUMED dispatch and leaves it as it was otherwise, and it never
    changes whether resume is allowed; and once the counter is 20 or more,
    the next round of the reconnect loop answers the gateway's hello with the
    identify frame: the first frame the round sends is op 2 with the token,
    the intents and the shard, which is no resume frame (op 6) for any
    session. *)
Theorem C6_counter_reset_and_full_identify :
  forall msg st0 kv d interval n f rest st,
    running st = true ->
    20 <= reconnect_times st ->
    dict_get "op" kv = Some (JInt 10) ->
    dict_get "d" kv = Some d ->
    subscript d "heartbeat_interval" = Return interval ->
    int_of interval = Return n ->
    float_of_int n = Return f ->
    reconnect_times
      (snd (main treat_msg loads repr_obj self identity stack_depth msg st0))
      = (if ready_or_resumed msg then 0 else reconnect_times st0)
    /\ re_connect
         (snd (main treat_msg loads repr_obj self identity stack_depth msg st0))
       = re_connect st0
    /\ nth_error
         (sent (snd (reconnect treat_msg loads repr_obj self identity stack_depth
                       (Connected (TEXT (Some (JDict kv)) :: rest)) st)))
         (List.length (sent st))
       = Some (identify_frame self)
    /\ (forall sid seq, identify_frame self <> resume_frame self sid seq).
Proof.
  intros msg st0 kv d interval n f rest st Hrun Hcount Hop Hd Hi Hn Hf.
  split; [apply main_reconnect_times|].
  split; [apply main_same_re_connect|].
  split; [|intros sid seq; unfold identify_frame, resume_frame; discriminate].
  exact (reconnect_identifies kv d interval n f rest st Hrun Hcount Hop Hd Hi Hn Hf).
Qed.

(** [distribute] on a well-formed envelope whose payload is a mapping:
    the callback is started on the payload, to which the event type and the
    event id were added. *)
Lemma distribute_delivers :
  forall kv t payload eid f st,
    dict_get "t" kv = Some t ->
    dict_get "d" kv = Some (JDict payload) ->
    dict_get "id" kv = Some eid ->
    distribute self (Some f) (JDict kv) st
    = (Return tt,
       set_called
         (called st
          ++ [mkCall f (Some (JDict (dict_set "event_id" eid (dict_set "t" t payload))))
                (if is_async self then LoopTask else Direct)]) st).
Proof.
  intros kv t payload eid f st Ht Hd Hid.
  unfold distribute. cbn [subscript].
  rewrite Ht, bind_return, Hd, bind_return. cbn [setitem].
  rewrite bind_return, Hid, bind_return. cbn [setitem].
  rewrite bind_return. reflexivity.
Qed.

(** [distribute] on an envelope without [id]: the lookup of the event id
    raises before the callback is looked at. *)
Lemma distribute_without_id :
  forall function kv t payload st,
    dict_get "t" kv = Some t ->
    dict_get "d" kv = Some (JDict payload) ->
    dict_get "id" kv = None ->
    distribute self function (JDict kv) st = (Raise (KeyError "id"), st).
Proof.
  intros function kv t payload st Ht Hd Hid.
  unfold distribute. cbn [subscript].
  rewrite Ht, bind_return, Hd, bind_return. cbn [setitem].
  rewrite bind_return, Hid. reflexivity.
Qed.

(** C5, as the code has it.  With self-filtering enabled and a delete
    callback registered, a message-delete event whose deleting user is the
    author of the message changes nothing: no callback is started and nothing
    is logged.  Otherwise, when the envelope carries an event id, the
    callback is started once, on the event's payload [d] extended with the
    event type [t] and the event id [event_id]: the callback is not handed
    the envelope itself; and when the envelope carries no event id, no
    callback is started and the missing key is logged.  The callback list and
    the log stay as they were exactly when the two ids are equal. *)
Theorem C5_delete_self_filter :
  forall kv name payload message author target deleter op_user f st,
    is_filter_self self = true ->
    on_delete_function self = Some f ->
    dict_get "t" kv = Some (JStr name) ->
    In name ["MESSAGE_DELETE"; "PUBLIC_MESSAGE_DELETE"; "DIRECT_MESSAGE_DELETE"] ->
    dict_get "d" kv = Some (JDict payload) ->
    dict_get "message" payload = Some message ->
    subscript message "author" = Return author ->
    subscript author "id" = Return target ->
    dict_get "op_user" payload = Some deleter ->
    subscript deleter "id" = Return op_user ->
    let out := data_process treat_msg loads repr_obj self (JDict kv) st in
    let delivered eid :=
      mkCall f (Some (JDict (dict_set "event_id" eid (dict_set "t" (JStr name) payload))))
        (if is_async self then LoopTask else Direct) in
    out = (Return tt,
           if py_eq op_user target then st
           else match dict_get "id" kv with
                | Some eid => set_called (called st ++ [delivered eid]) st
                | None =>
                    set_logged (logged st ++ [Error_exception (KeyError "id")]) st
                end)
    /\ (called (snd out) = called st /\ logged (snd out) = logged st
        <-> py_eq op_user target = true).
Proof.
  intros kv name payload message author target deleter op_user f st
         Hfilter Hf Ht Hname Hd Hmessage Hauthor Htarget Hdeleter Hop out delivered.
  assert (Hcreate : in_strs (JStr name) ["AT_MESSAGE_CREATE"; "MESSAGE_CREATE"] = false).
  { destruct Hname as [<-|[<-|[<-|[]]]]; reflexivity. }
  assert (Hdelete : in_strs (JStr name)
                      ["MESSAGE_DELETE"; "PUBLIC_MESSAGE_DELETE"; "DIRECT_MESSAGE_DELETE"]
                    = true).
  { destruct Hname as [<-|[<-|[<-|[]]]]; reflexivity. }
  assert (Hout : out = (Return tt,
                        if py_eq op_user target then st
                        else match dict_get "id" kv with
                             | Some eid => set_called (called st ++ [delivered eid]) st
                             | None =>
                                 set_logged
                                   (logged st ++ [Error_exception (KeyError "id")]) st
                             end)).
  { unfold out, data_process, exception_processor, try_except, data_process_body.
    cbn [subscript]. rewrite Ht, bind_return, Hcreate, Hdelete, Hfilter.
    rewrite Hd, bind_return. cbn [subscript].
    rewrite Hmessage, bind_return, Hauthor, bind_return, Htarget, bind_return.
    rewrite bind_return. cbn [subscript].
    rewrite Hdeleter, bind_return, Hop, bind_return.
    destruct (py_eq op_user target); [reflexivity|].
    rewrite Hf. destruct (dict_get "id" kv) as [eid|] eqn:Hid.
    - rewrite (distribute_delivers kv (JStr name) payload eid f st Ht Hd Hid).
      reflexivity.
    - rewrite (distribute_without_id (Some f) kv (JStr name) payload st Ht Hd Hid).
      reflexivity. }
  split; [exact Hout|].
  rewrite Hout. cbn [snd].
  destruct (py_eq op_user target).
  - split; [reflexivity|]. intros _. split; reflexivity.
  - split; [|discriminate]. destruct (dict_get "id" kv) as [eid|].
    + intros [Hcalled _]. cbn in Hcalled.
      apply (f_equal (@List.length call)) in Hcalled.
      rewrite length_app in Hcalled. cbn in Hcalled. lia.
    + intros [_ Hlogged]. destruct st. cbn in Hlogged.
      apply (f_equal (@List.length log_record)) in Hlogged.
      rewrite length_app in Hlogged. cbn in Hlogged. lia.
Qed.

(** The mention is at hand exactly when the bot's own id is. *)
Lemma mention_of_own_id :
  forall st,
    mention repr_obj st
    = (match own_id st with
       | Some rid => Return ("<@!" ++ format repr_obj rid ++ ">")%str
       | None => Raise AttributeError
       end, st).
Proof.
  intro st. unfold mention, own_id. rewrite bind_gets.
  destruct (robot st) as [[| | | | |r]|]; try reflexivity.
  cbn [getattr]. destruct (dict_get "id" r); reflexivity.
Qed.

(** The trimmed content: the text of the payload, or [AttributeError] when
    the content is no text. *)
Lemma raw_content_of_text :
  forall kv payload st,
    dict_get "d" kv = Some (JDict payload) ->
    raw_content (JDict kv) st
    = (match content_text payload with
       | Some content => Return (strip content)
       | None => Raise AttributeError
       end, st).
Proof.
  intros kv payload st Hd.
  unfold raw_content. cbn [subscript]. rewrite Hd, bind_return.
  unfold content_text. cbn [contains]. unfold dict_has.
  rewrite bind_return. cbn [subscript].
  destruct (dict_get "content" payload) as [c|]; cbn [negb]; [|reflexivity].
  rewrite bind_return. destruct c; reflexivity.
Qed.

(** C8, as the code has it.  With message treatment enabled, what happens
    to a guild message depends on three things.  When the bot's own id is
    known and the content is text, or absent, which counts as the empty
    text, [treated_msg] is the tokenizer's result on this text: the content,
    trimmed; without the bot's own mention when the trimmed text begins with
    it; trimmed again.  The payload then reaches the callback with
    [treated_msg], [t] and [event_id] added when the envelope carries an
    event id and a callback is registered; without an event id the missing
    key is logged and no callback is started.  When the bot's own id is not
    known, or the content is no text, no treated text is computed: the
    attribute error is logged and no callback is started. *)
Theorem C8_message_treatment :
  forall kv name payload st,
    msg_treat self = true ->
    dict_get "t" kv = Some (JStr name) ->
    In name ["AT_MESSAGE_CREATE"; "MESSAGE_CREATE"] ->
    dict_get "d" kv = Some (JDict payload) ->
    data_process treat_msg loads repr_obj self (JDict kv) st
    = (Return tt,
       match content_text payload, own_id st with
       | Some content, Some rid =>
           let at_ := ("<@!" ++ format repr_obj rid ++ ">")%str in
           let treated := treat_msg (strip (removeprefix at_ (strip content))) in
           match dict_get "id" kv with
           | Some eid =>
               match on_msg_function self with
               | Some f =>
                   set_called
                     (called st
                      ++ [mkCall f
                            (Some (JDict (dict_set "event_id" eid
                                            (dict_set "t" (JStr name)
                                               (dict_set "treated_msg" treated
                                                  payload)))))
                            (if is_async self then LoopTask else Direct)]) st
               | None => st
               end
           | None => set_logged (logged st ++ [Error_exception (KeyError "id")]) st
           end
       | _, _ => set_logged (logged st ++ [Error_exception AttributeError]) st
       end).
Proof.
  intros kv name payload st Htreat Ht Hname Hd.
  assert (Hcreate : in_strs (JStr name) ["AT_MESSAGE_CREATE"; "MESSAGE_CREATE"] = true).
  { destruct Hname as [<-|[<-|[]]]; reflexivity. }
  unfold data_process, exception_processor, try_except, data_process_body.
  cbn [subscript]. rewrite Ht, bind_return, Hcreate, Htreat.
  unfold bind at 1. rewrite (raw_content_of_text kv payload st Hd).
  destruct (content_text payload) as [content|]; [|reflexivity].
  unfold bind at 1. rewrite mention_of_own_id.
  destruct (own_id st) as [rid|]; [|reflexivity].
  rewrite mention_test_removes_prefix.
  set (at_ := ("<@!" ++ format repr_obj rid ++ ">")%str).
  set (treated := treat_msg (strip (removeprefix at_ (strip content)))).
  unfold set_d. cbn [subscript]. rewrite Hd. cbn [setitem].
  rewrite bind_return.
  assert (Ht' : dict_get "t" (dict_set "d" (JDict (dict_set "treated_msg" treated payload)) kv)
                = Some (JStr name)).
  { rewrite dict_get_set_other by discriminate. exact Ht. }
  assert (Hd' : dict_get "d" (dict_set "d" (JDict (dict_set "treated_msg" treated payload)) kv)
                = Some (JDict (dict_set "treated_msg" treated payload))).
  { apply dict_get_set_same. }
  destruct (dict_get "id" kv) as [eid|] eqn:Hid.
  - destruct (on_msg_function self) as [f|].
    + rewrite (distribute_delivers _ (JStr name)
                 (dict_set "treated_msg" treated payload) eid f st Ht' Hd').
      * reflexivity.
      * rewrite dict_get_set_other by discriminate. exact Hid.
    + unfold distribute. cbn [subscript].
      rewrite Ht', bind_return, Hd', bind_return. cbn [setitem].
      rewrite bind_return, dict_get_set_other by discriminate.
      rewrite Hid, bind_return. cbn [setitem]. rewrite bind_return. reflexivity.
  - rewrite (distribute_without_id (on_msg_function self) _ (JStr name)
               (dict_set "treated_msg" treated payload) st Ht' Hd').
    + reflexivity.
    + rewrite dict_get_set_other by discriminate. exact Hid.
Qed.

(** A hello frame stores the product of the interval and [0.001]. *)
Lemma hello_stores_period :
  forall kv d interval n f st,
    dict_get "op" kv = Some (JInt 10) ->
    dict_get "d" kv = Some d ->
    subscript d "heartbeat_interval" = Return interval ->
    int_of interval = Return n ->
    float_of_int n = Return f ->
    heartbeat_time
      (snd (main treat_msg loads repr_obj self identity stack_depth (Some (JDict kv)) st))
    = PrimFloat.mul f milli.
Proof.
  intros kv d interval n f st Hop Hd Hi Hn Hf.
  unfold main. rewrite Hop.
  assert (Hs : forall k : unit -> M state unit,
             exists st1,
               bind (match dict_get "s" kv with
                     | Some v => modify (set_s v)
                     | None => ret tt
                     end) k st = k tt st1).
  { intro k. destruct (dict_get "s" kv); eexists; reflexivity. }
  destruct (Hs (fun _ => on_op treat_msg loads repr_obj self identity stack_depth
                           (JInt 10) (JDict kv))) as [st1 ->].
  unfold on_op.
  change (py_eq (JInt 10) (JInt 11)) with false.
  change (py_eq (JInt 10) (JInt 9)) with false.
  change (py_eq (JInt 10) (JInt 10)) with true.
  cbv iota. unfold on_hello. cbn [subscript].
  rewrite Hd, bind_return, Hi, bind_return, Hn, bind_return, Hf, bind_return.
  rewrite bind_modify.
  exact (keeps_handshake self (same heartbeat_time) ltac:(frame_same)
           ltac:(frame_same) ltac:(frame_same)
           (set_heartbeat_time (PrimFloat.mul f milli) st1)).
Qed.

Lemma near_from_all :
  forall k n,
    near_from k n = true ->
    forall m, n <= m < n + Z.of_nat k -> period_near m = true.
Proof.
  induction k as [|k IH]; intros n Hall m Hm; [lia|].
  cbn [near_from] in Hall. apply andb_prop in Hall. destruct Hall as [Hn Hrest].
  destruct (Z.eq_dec m n) as [->|Hne]; [exact Hn|].
  apply (IH (n + 1) Hrest). lia.
Qed.

Lemma period_near_checked : near_from (Z.to_nat 100001) 0 = true.
Proof. vm_compute. reflexivity. Qed.

Lemma period_near_range :
  forall n, 0 <= n <= 100000 -> period_near n = true.
Proof.
  intros n Hn.
  apply (near_from_all _ _ period_near_checked).
  rewrite Z2Nat.id; lia.
Qed.

(** An interval beyond the range of a double: the product cannot be
    formed, the frame raises and the period stays as it was. *)
Lemma hello_interval_too_large :
  forall kv d interval n st,
    dict_get "op" kv = Some (JInt 10) ->
    dict_get "d" kv = Some d ->
    subscript d "heartbeat_interval" = Return interval ->
    int_of interval = Return n ->
    float_of_int n = Raise OverflowError ->
    let out := main treat_msg loads repr_obj self identity stack_depth
                 (Some (JDict kv)) st in
    fst out = Raise OverflowError /\ heartbeat_time (snd out) = heartbeat_time st.
Proof.
  intros kv d interval n st Hop Hd Hi Hn Hf out. unfold out, main. rewrite Hop.
  assert (Hs : forall k : unit -> M state unit,
             exists st1,
               heartbeat_time st1 = heartbeat_time st
               /\ bind (match dict_get "s" kv with
                        | Some v => modify (set_s v)
                        | None => ret tt
                        end) k st = k tt st1).
  { intro k.
    destruct (dict_get "s" kv); eexists; (split; [|reflexivity]); reflexivity. }
  destruct (Hs (fun _ => on_op treat_msg loads repr_obj self identity stack_depth
                           (JInt 10) (JDict kv))) as (st1 & Hsame & ->).
  unfold on_op.
  change (py_eq (JInt 10) (JInt 11)) with false.
  change (py_eq (JInt 10) (JInt 9)) with false.
  change (py_eq (JInt 10) (JInt 10)) with true.
  cbv iota. unfold on_hello. cbn [subscript].
  rewrite Hd, bind_return, Hi, bind_return, Hn, bind_return, Hf, bind_raised.
  split; [reflexivity|exact Hsame].
Qed.

(** For the intervals up to 100000 ms the period stored is the quotient
    [n / 1000] correctly rounded, or the double next to it. *)
Theorem hello_period_near_quotient :
  forall kv payload n st,
    dict_get "op" kv = Some (JInt 10) ->
    dict_get "d" kv = Some (JDict payload) ->
    dict_get "heartbeat_interval" payload = Some (JInt n) ->
    0 <= n <= 100000 ->
    adjacent
      (heartbeat_time
         (snd (main treat_msg loads repr_obj self identity stack_depth
                 (Some (JDict kv)) st)))
      (thousandth n) = true.
Proof.
  intros kv payload n st Hop Hd Hi Hn.
  pose proof (period_near_range n Hn) as Hnear.
  unfold period_near in Hnear. apply andb_prop in Hnear. destruct Hnear as [Hfin Hadj].
  assert (Hf : float_of_int n = Return (double_of_int n)).
  { unfold float_of_int. apply negb_true_iff in Hfin. now rewrite Hfin. }
  assert (Hperiod := hello_stores_period kv (JDict payload) (JInt n) n
                       (double_of_int n) st Hop Hd).
  cbn [subscript int_of] in Hperiod. rewrite Hi in Hperiod.
  specialize (Hperiod eq_refl eq_refl Hf).
  rewrite Hperiod. exact Hadj.
Qed.

(** C7, as the code has it.  A hello frame whose interval [int] converts to
    [n] sets the heartbeat period to the product of two doubles, [n] as a
    double and [0.001]: that is what is stored, where the quotient
    [n / 1000] would be another double for some [n].  When [n] is beyond the
    range of a double the product is not formed: the frame raises
    [OverflowError] and the period stays as it was. *)
Theorem C7_heartbeat_period :
  forall kv d interval n st,
    dict_get "op" kv = Some (JInt 10) ->
    dict_get "d" kv = Some d ->
    subscript d "heartbeat_interval" = Return interval ->
    int_of interval = Return n ->
    let out := main treat_msg loads repr_obj self identity stack_depth
                 (Some (JDict kv)) st in
    if PrimFloat.is_infinity (double_of_int n)
    then fst out = Raise OverflowError /\ heartbeat_time (snd out) = heartbeat_time st
    else heartbeat_time (snd out) = PrimFloat.mul (double_of_int n) milli.
Proof.
  intros kv d interval n st Hop Hd Hi Hn out.
  destruct (PrimFloat.is_infinity (double_of_int n)) eqn:Hinf.
  - apply (hello_interval_too_large kv d interval n st Hop Hd Hi Hn).
    unfold float_of_int. now rewrite Hinf.
  - apply (hello_stores_period kv d interval n (double_of_int n) st Hop Hd Hi Hn).
    unfold float_of_int. now rewrite Hinf.
Qed.

(** The first call of [get_robot_info] never reaches [exit()], whatever
    the endpoint answers: the call it makes on a missing [id] passes the
    [retry] flag on as it was, unset. *)
Lemma get_robot_info_never_exits :
  (forall n, exits (identity n) = false) ->
  forall depth st, exits (fst (get_robot_info identity depth false st)) = false.
Proof.
  intro Hfetch.
  induction depth as [|depth IH]; intro st; [reflexivity|].
  cbn [get_robot_info]. rewrite bind_gets, bind_modify.
  unfold bind at 1, lift at 1. specialize (Hfetch (fetched st)).
  destruct (identity (fetched st)) as [body|e|]; [|reflexivity|discriminate].
  assert (Hcontains : exists r, contains "id" body = r /\ exits r = false).
  { destruct body; eexists; (split; [reflexivity|reflexivity]). }
  destruct Hcontains as (r & -> & Hr).
  unfold bind at 1, lift at 1.
  destruct r as [[|]|e|]; cbn [negb]; try reflexivity; [apply IH|discriminate].
Qed.

(** While no answer carries an [id], every allowed nested call makes one
    more fetch, and the calls end in [RecursionError]. *)
Lemma get_robot_info_keeps_fetching :
  (forall n, exists body,
      identity n = Return body /\ contains "id" body = Return false) ->
  forall depth st,
    get_robot_info identity depth false st
    = (Raise RecursionError, set_fetched (fetched st + depth) st).
Proof.
  intros Hbad. induction depth as [|depth IH]; intro st.
  - cbn [get_robot_info]. unfold raise. rewrite Nat.add_0_r.
    destruct st; reflexivity.
  - cbn [get_robot_info]. rewrite bind_gets, bind_modify.
    destruct (Hbad (fetched st)) as (body & Hbody & Hid).
    rewrite Hbody, bind_return, Hid, bind_return. cbn [negb].
    rewrite IH. cbn [fetched set_fetched]. rewrite Nat.add_succ_r. reflexivity.
Qed.

End Gateway.

Lemma C3_first_invalid_session :
  fst (main tokens no_json no_repr bot0 known 1000 (Some invalid_session) initial)
    = Return tt
  /\ op9_flag (snd (main tokens no_json no_repr bot0 known 1000
                      (Some invalid_session) initial)) = true
  /\ logged (snd (main tokens no_json no_repr bot0 known 1000
                    (Some invalid_session) initial)) = []
  /\ sent (snd (main tokens no_json no_repr bot0 known 1000
                  (Some invalid_session) initial)) = [connect_paras bot0].
Proof.
  exact (proj1 (C3_invalid_session_flag tokens no_json no_repr bot0 known 1000
                  [("op", JInt 9)] initial (Connected []) eq_refl)).
Defined.

(** One invalid session in the first connection, which then closes; the
    bot reconnects, is greeted, and the first invalid session of the new
    connection ends the process. *)
Lemma C3_later_attempt_is_fatal :
  exists st1 st2,
    connect tokens no_json no_repr bot0 known 1000
      (Connected [TEXT (Some invalid_session); CLOSE]) initial = (Return tt, st1)
    /\ reconnect tokens no_json no_repr bot0 known 1000
         (Connected [TEXT (Some (hello 41250)); TEXT (Some invalid_session)]) st1
       = (Exit, st2)
    /\ logged st2 = [Warning_disconnected; Error_op9].
Proof.
  do 2 eexists. split; [vm_compute; reflexivity|].
  split; vm_compute; reflexivity.
Qed.

(** C2, on the code.  The claim allows two fetches and then an exit.  With
    two answers without [id] followed by the bot's user, [get_robot_info()]
    makes three fetches and returns the third answer: the call it makes on a
    missing [id] passes [retry] on unset. *)
Lemma C2_third_fetch_succeeds :
  get_robot_info third_time 1000 false initial
  = (Return (JDict [("id", JStr "42"); ("username", JStr "bot")]),
     set_fetched 3 initial).
Proof. vm_compute. reflexivity. Qed.

(** No answer ever carries [id]: a thousand fetches, no [exit()]. *)
Lemma C2_fetches_until_the_stack_ends :
  get_robot_info unknown 1000 false initial
  = (Raise RecursionError, set_fetched 1000 initial).
Proof. vm_compute. reflexivity. Qed.

(** With the flag set by hand the second branch is reached: one fetch, the
    error is logged, the process exits. *)
Lemma get_robot_info_retry_flag_set :
  get_robot_info unknown 1000 true initial
  = (Exit, set_logged [Error_robot_info] (set_fetched 1 initial)).
Proof. vm_compute. reflexivity. Qed.

Lemma C5_foreign_delete_delivered :
  data_process tokens no_json no_repr bot0 (message_delete "1001" "2002") ready_state
  = (Return tt,
     set_called
       [mkCall "on_delete"
          (Some (JDict [("message", deleted_message "1001");
                        ("op_user", JDict [("id", JStr "2002")]);
                        ("t", JStr "MESSAGE_DELETE");
                        ("event_id", JStr "MESSAGE_DELETE:e1")]))
          Direct] ready_state).
Proof.
  exact (proj1 (C5_delete_self_filter tokens no_json no_repr bot0
                  (delete_fields "1001" "2002") "MESSAGE_DELETE"
                  (delete_payload "1001" "2002") (deleted_message "1001")
                  (JDict [("id", JStr "1001")]) (JStr "1001")
                  (JDict [("id", JStr "2002")]) (JStr "2002")
                  "on_delete" ready_state
                  eq_refl eq_refl eq_refl (or_introl eq_refl)
                  eq_refl eq_refl eq_refl eq_refl eq_refl eq_refl)).
Defined.

(** The delete callback is handed the payload with the event type and id
    added, which is not the envelope: the envelope's [op] and [s] are not in
    it. *)
Lemma C5_callback_gets_payload :
  called (snd (data_process tokens no_json no_repr bot0
                 (message_delete "1001" "2002") ready_state))
  = [mkCall "on_delete"
       (Some (JDict [("message", deleted_message "1001");
                     ("op_user", JDict [("id", JStr "2002")]);
                     ("t", JStr "MESSAGE_DELETE");
                     ("event_id", JStr "MESSAGE_DELETE:e1")]))
       Direct]
  /\ JDict [("message", deleted_message "1001");
            ("op_user", JDict [("id", JStr "2002")]);
            ("t", JStr "MESSAGE_DELETE");
            ("event_id", JStr "MESSAGE_DELETE:e1")]
     <> message_delete "1001" "2002".
Proof. split; [vm_compute; reflexivity|]. cbv. discriminate. Qed.

Lemma C6_ready_resets_and_identify_after_twenty :
  reconnect_times
    (snd (main tokens no_json no_repr bot0 known 1000 (Some ready)
            (set_reconnect_times 3 initial))) = 0
  /\ re_connect
       (snd (main tokens no_json no_repr bot0 known 1000 (Some ready)
               (set_reconnect_times 3 initial))) = false
  /\ nth_error
       (sent (snd (reconnect tokens no_json no_repr bot0 known 1000
                     (Connected [TEXT (Some (hello 41250))])
                     (set_reconnect_times 20 initial))))
       0
     = Some (JDict [("op", JInt 2);
                    ("d", JDict [("token", JStr "Bot 102.secret");
                                 ("intents", JInt 513);
                                 ("shard", JList [JInt 0; JInt 1])])])
  /\ (forall sid seq, identify_frame bot0 <> resume_frame bot0 sid seq).
Proof.
  exact (C6_counter_reset_and_full_identify tokens no_json no_repr bot0 known 1000
           (Some ready) (set_reconnect_times 3 initial)
           (hello_fields 41250) (hello_payload 41250) (JInt 41250) 41250
           (double_of_int 41250) [] (set_reconnect_times 20 initial)
           eq_refl ltac:(cbn; lia) eq_refl eq_refl eq_refl eq_refl
           ltac:(vm_compute; reflexivity)).
Defined.

Lemma C7_period_for_41250 :
  heartbeat_time
    (snd (main tokens no_json no_repr bot0 known 1000 (Some (hello 41250)) initial))
  = PrimFloat.mul (double_of_int 41250) milli.
Proof.
  exact (C7_heartbeat_period tokens no_json no_repr bot0 known 1000
           (hello_fields 41250) (hello_payload 41250) (JInt 41250) 41250 initial
           eq_refl eq_refl eq_refl eq_refl).
Defined.

(** An interval beyond the doubles: no period is stored. *)
Example huge_interval_raises :
  fst (main tokens no_json no_repr bot0 known 1000 (Some (hello (10 ^ 400))) initial)
  = Raise OverflowError.
Proof. vm_compute. reflexivity. Qed.

Lemma period_for_30000_near_quotient :
  adjacent
    (heartbeat_time
       (snd (main tokens no_json no_repr bot0 known 1000 (Some (hello 30000)) initial)))
    (thousandth 30000) = true.
Proof.
  apply (hello_period_near_quotient tokens no_json no_repr bot0 known 1000
           (hello_fields 30000) [("heartbeat_interval", JInt 30000)] 30000 initial);
    [reflexivity|reflexivity|reflexivity|lia].
Defined.

(** An interval of 1001 ms: the period stored is 1.0010000000000001 s, the
    quotient 1001/1000 is the double below it. *)
Lemma C7_period_differs_from_quotient :
  heartbeat_time
    (snd (main tokens no_json no_repr bot0 known 1000 (Some (hello 1001)) initial))
  = 1.0010000000000001%float
  /\ thousandth 1001 = 1.0009999999999999%float
  /\ PrimFloat.eqb
       (heartbeat_time
          (snd (main tokens no_json no_repr bot0 known 1000 (Some (hello 1001)) initial)))
       (thousandth 1001) = false.
Proof. repeat split; vm_compute; reflexivity. Qed.

Lemma C8_leading_mention_removed :
  data_process tokens no_json no_repr bot0 (at_message " <@!42>  hi there ") ready_state
  = (Return tt,
     set_called
       [mkCall "on_msg"
          (Some (JDict [("content", JStr " <@!42>  hi there "); ("id", JStr "m2");
                        ("treated_msg", JStr "hi there");
                        ("t", JStr "AT_MESSAGE_CREATE");
                        ("event_id", JStr "AT_MESSAGE_CREATE:e2")]))
          Direct] ready_state).
Proof.
  exact (C8_message_treatment tokens no_json no_repr bot0
           (message_fields " <@!42>  hi there ") "AT_MESSAGE_CREATE"
           (message_payload " <@!42>  hi there ") ready_state
           eq_refl eq_refl (or_introl eq_refl) eq_refl).
Defined.

(** A guild message handled while the bot's identity is not known: the
    mention cannot be built, so no treated text is made and the message does
    not reach its callback; the attribute error is logged. *)
Lemma C8_unknown_identity_drops_message :
  data_process tokens no_json no_repr bot0 (at_message "<@!42> hi") initial
  = (Return tt, set_logged [Error_exception AttributeError] initial).
Proof. vm_compute. reflexivity. Qed.

(** How the bot gets there: the identity fetch of the first READY raises
    after [flag] was set, so the connection that follows does not fetch
    again, and the guild message it delivers is dropped. *)
Example message_after_failed_identity_fetch :
  let out := starter tokens no_json no_repr bot0 offline 1000
               [Connected [TEXT (Some (hello 41250)); TEXT (Some ready)];
                Connected [TEXT (Some (hello 41250)); TEXT (Some resumed);
                           TEXT (Some (at_message "<@!42> hi"))]]
               initial in
  fst out = Return tt
  /\ robot (snd out) = None
  /\ called (snd out) = []
  /\ logged (snd out)
     = [Info_connected; Warning_disconnected;
        Error_exception (OtherError "timeout"); Debug_exception (OtherError "timeout");
        Info_resumed; Error_exception AttributeError].
Proof. vm_compute. repeat split. Qed.

(** Trimming follows Unicode: the ideographic space around the text goes,
    the text itself stays. *)
Example wide_blanks_trimmed :
  called (snd (data_process tokens no_json no_repr bot0
                 (at_message "　<@!42>　你好　") ready_state))
  = [mkCall "on_msg"
       (Some (JDict [("content", JStr "　<@!42>　你好　"); ("id", JStr "m2");
                     ("treated_msg", JStr "你好");
                     ("t", JStr "AT_MESSAGE_CREATE");
                     ("event_id", JStr "AT_MESSAGE_CREATE:e2")]))
       Direct].
Proof. vm_compute. reflexivity. Qed.

(** A mention that is not at the start stays in the text. *)
Example inner_mention_kept :
  called (snd (data_process tokens no_json no_repr bot0
                 (at_message "hi <@!42> there") ready_state))
  = [mkCall "on_msg"
       (Some (JDict [("content", JStr "hi <@!42> there"); ("id", JStr "m2");
                     ("treated_msg", JStr "hi <@!42> there");
                     ("t", JStr "AT_MESSAGE_CREATE");
                     ("event_id", JStr "AT_MESSAGE_CREATE:e2")]))
       Direct].
Proof. vm_compute. reflexivity. Qed.

(** A delete by the author of the message is dropped silently. *)
Example own_delete_dropped :
  data_process tokens no_json no_repr bot0 (message_delete "1001" "1001") ready_state
  = (Return tt, ready_state).
Proof. vm_compute. reflexivity. Qed.

Lemma C9_sequence_overwritten_by_ack :
  s (snd (main tokens no_json no_repr bot0 known 1000
            (Some (heartbeat_ack 3)) (set_s (JInt 5) initial))) = JInt 3.
Proof.
  apply (C9_sequence_is_overwritten tokens no_json no_repr bot0 known 1000
           (Some (heartbeat_ack 3)) (JInt 3) (set_s (JInt 5) initial)).
  reflexivity.
Defined.

(** The stored sequence number goes down from 5 to 3 when the gateway sends
    a frame numbered 3. *)
Lemma C9_sequence_decreases :
  s (set_s (JInt 5) initial) = JInt 5
  /\ s (snd (main tokens no_json no_repr bot0 known 1000
               (Some (heartbeat_ack 3)) (set_s (JInt 5) initial))) = JInt 3
  /\ 3 < 5.
Proof. repeat split. Qed.

(** ** The scenarios of the specification, run *)

(** READY with session id abc123: the session is recorded, the counter is
    0, the heartbeat runs, the identity is fetched once and the start
    callback is run once. *)
Example ready_scenario :
  main tokens no_json no_repr bot0 known 1000 (Some ready)
    (set_reconnect_times 1 initial)
  = (Return tt,
     mkState (Some (JDict [("id", JStr "42"); ("username", JStr "bot")]))
       0%float (JInt 1) 0 false true (JStr "abc123") true Beating false false
       [] [Info_connected; Info_robot_id (JStr "42")]
       [mkCall "on_start" None Direct] 1).
Proof. vm_compute. reflexivity. Qed.

(** A second READY fetches nothing and starts nothing. *)
Example second_ready :
  main tokens no_json no_repr bot0 known 1000 (Some ready) ready_state
  = (Return tt,
     set_logged [Info_connected]
       (set_heartbeat Beating
          (set_session_id (JStr "abc123") (set_s (JInt 1) ready_state)))).
Proof. vm_compute. reflexivity. Qed.

(** An event of a type the bot does not know: one warning, no callback. *)
Example unknown_event_warned :
  data_process tokens no_json no_repr bot0
    (JDict [("op", JInt 0); ("t", JStr "GUILD_BANNED"); ("id", JStr "e9");
            ("d", JDict [])]) ready_state
  = (Return tt, set_logged [Warning_unknown_event (JStr "GUILD_BANNED")] ready_state).
Proof. vm_compute. reflexivity. Qed.

(** An envelope without an event id: the exception raised in [distribute]
    is logged at the dispatch boundary, and no callback is started. *)
Example missing_event_id_logged :
  data_process tokens no_json no_repr bot0
    (JDict [("op", JInt 0); ("t", JStr "GUILD_CREATE"); ("d", JDict [])]) ready_state
  = (Return tt, set_logged [Error_exception (KeyError "id")] ready_state).
Proof. vm_compute. reflexivity. Qed.

(** The identity endpoint never answers with an [id]: the READY frame of
    the first connection uses up the stack in fetches, the connection is
    given up with the exception logged, and the process does not exit. *)
Example identity_never_resolved :
  let out := starter tokens no_json no_repr bot0 unknown 1000
               [Connected [TEXT (Some (hello 41250)); TEXT (Some ready)]] initial in
  fst out = Return tt
  /\ fetched (snd out) = 1000%nat
  /\ robot (snd out) = None
  /\ logged (snd out)
     = [Info_connected; Warning_disconnected;
        Error_exception RecursionError; Debug_exception RecursionError].
Proof. vm_compute. repeat split. Qed.

(** A bot that subscribes to no event is refused at construction. *)
Example no_intents_refused :
  __init__ (mkBot "102" "secret" 0 0 1 true true true false
              None None None None None None None None None None None None)
  = (Exit, [Error_no_intents]).
Proof. reflexivity. Qed.

(** Twenty rounds without READY: the twenty-first connection identifies
    anew, the earlier ones resume. *)
Example identify_after_twenty_rounds :
  let greeted := Connected [TEXT (Some (hello 41250)); CLOSE] in
  let out := starter tokens no_json no_repr bot0 known 1000
               (repeat greeted 21) initial in
  reconnect_times (snd out) = 21
  /\ nth_error (sent (snd out)) 0 = Some (connect_paras bot0)
  /\ nth_error (sent (snd out)) 19
     = Some (reconnect_paras bot0 (set_s JNull (set_session_id (JInt 0) initial)))
  /\ nth_error (sent (snd out)) 20 = Some (connect_paras bot0).
Proof. vm_compute. repeat split. Qed.

End WsSpec.

(** * Further properties of the gateway connection *)

Module WsMore.
Import Py PySpec Ws Claims Samples Notions WsSpec.
Local Open Scope list_scope.

Lemma in_strs_names :
  forall name names, in_strs (JStr name) names = existsb (Str.eqb name) names.
Proof. reflexivity. Qed.

Lemma in_strs_absent :
  forall name names, ~ In name names -> in_strs (JStr name) names = false.
Proof.
  intros name names Hnot. rewrite in_strs_names.
  destruct (existsb (Str.eqb name) names) eqn:E; [|reflexivity].
  apply existsb_exists in E. destruct E as (n & Hin & Heq).
  apply str_eqb_eq in Heq. subst n. contradiction.
Qed.

Lemma events_get_absent :
  forall name table, ~ In name (map fst table) -> events_get name table = None.
Proof.
  intros name table. induction table as [|[k f] rest IH]; intro Hnot; [reflexivity|].
  cbn [events_get]. destruct (str_eqb_spec name k) as [->|Hne].
  - exfalso. apply Hnot. now left.
  - apply IH. intro Hin. apply Hnot. now right.
Qed.

Lemma events_get_present :
  forall name table handler,
    events_get name table = Some handler -> In name (map fst table).
Proof.
  intros name table handler. induction table as [|[k f] rest IH]; [discriminate|].
  cbn [events_get]. destruct (str_eqb_spec name k) as [->|Hne]; intro H.
  - now left.
  - right. now apply IH.
Qed.

Lemma dict_set_twice :
  forall k v v' kv, dict_set k v' (dict_set k v kv) = dict_set k v' kv.
Proof.
  intros k v v' kv. induction kv as [|[k0 v0] rest IH]; cbn.
  - now rewrite str_eqb_refl.
  - destruct (Str.eqb k k0) eqn:E; cbn; rewrite E; [reflexivity|now rewrite IH].
Qed.

Lemma dict_set_held :
  forall k v kv, dict_get k kv = Some v -> dict_set k v kv = kv.
Proof.
  intros k v kv. induction kv as [|[k0 v0] rest IH]; cbn; [discriminate|].
  destruct (Str.eqb k k0) eqn:E.
  - intro H. injection H as ->. reflexivity.
  - intro H. now rewrite IH.
Qed.

Section Dispatch.

Variable treat_msg : str -> json.
Variable loads : str -> option json.
Variable repr_obj : json -> str.
Variable self : Bot.

(** The types of the table are none of the types that have a branch of
    their own. *)
Lemma table_types_apart :
  forall name,
    In name (map fst (events self)) ->
    in_strs (JStr name) ["AT_MESSAGE_CREATE"; "MESSAGE_CREATE"] = false
    /\ in_strs (JStr name)
         ["MESSAGE_DELETE"; "PUBLIC_MESSAGE_DELETE"; "DIRECT_MESSAGE_DELETE"] = false
    /\ py_eq (JStr name) (JStr "DIRECT_MESSAGE_CREATE") = false
    /\ in_strs (JStr name) forum_events = false.
Proof.
  intros name Hin. cbn in Hin.
  repeat (destruct Hin as [<-|Hin]; [repeat split|]). contradiction.
Qed.

(** An event whose type has no branch and no table entry is answered with
    one warning that names the type; no callback is started and nothing
    else changes. *)
Theorem unknown_type_only_warns :
  forall kv name st,
    dict_get "t" kv = Some (JStr name) ->
    ~ In name (known_types self) ->
    data_process treat_msg loads repr_obj self (JDict kv) st
    = (Return tt, set_logged (logged st ++ [Warning_unknown_event (JStr name)]) st).
Proof.
  intros kv name st Ht Hnot.
  unfold known_types in Hnot.
  assert (Hcreate : in_strs (JStr name) ["AT_MESSAGE_CREATE"; "MESSAGE_CREATE"] = false).
  { apply in_strs_absent. intro H. apply Hnot. cbn in *. tauto. }
  assert (Hdelete : in_strs (JStr name)
                      ["MESSAGE_DELETE"; "PUBLIC_MESSAGE_DELETE"; "DIRECT_MESSAGE_DELETE"]
                    = false).
  { apply in_strs_absent. intro H. apply Hnot. cbn in *. tauto. }
  assert (Hdm : py_eq (JStr name) (JStr "DIRECT_MESSAGE_CREATE") = false).
  { cbn [py_eq]. apply str_eqb_neq. intros ->. apply Hnot. cbn. tauto. }
  assert (Hforum : in_strs (JStr name) forum_events = false).
  { apply in_strs_absent. intro H. apply Hnot.
    apply in_or_app. right. apply in_or_app. now left. }
  assert (Htable : events_get name (events self) = None).
  { apply events_get_absent. intro H. apply Hnot.
    apply in_or_app. right. apply in_or_app. now right. }
  unfold data_process, exception_processor, try_except, data_process_body.
  cbn [subscript]. rewrite Ht, bind_return, Hcreate, Hdelete, Hdm, Hforum, Htable.
  reflexivity.
Qed.

(** An event whose type is in the table: the registered callback is started
    once on the payload, to which the type and the event id were added; when
    no callback was registered for the type, nothing happens at all. *)
Theorem table_event_reaches_its_callback :
  forall kv name handler payload eid st,
    dict_get "t" kv = Some (JStr name) ->
    events_get name (events self) = Some handler ->
    dict_get "d" kv = Some (JDict payload) ->
    dict_get "id" kv = Some eid ->
    data_process treat_msg loads repr_obj self (JDict kv) st
    = (Return tt,
       match handler with
       | Some f =>
           set_called
             (called st
              ++ [mkCall f
                    (Some (JDict (dict_set "event_id" eid
                                    (dict_set "t" (JStr name) payload))))
                    (if is_async self then LoopTask else Direct)]) st
       | None => st
       end).
Proof.
  intros kv name handler payload eid st Ht Hget Hd Hid.
  destruct (table_types_apart name (events_get_present _ _ _ Hget))
    as (Hcreate & Hdelete & Hdm & Hforum).
  unfold data_process, exception_processor, try_except, data_process_body.
  cbn [subscript]. rewrite Ht, bind_return, Hcreate, Hdelete, Hdm, Hforum, Hget.
  destruct handler as [f|]; [|reflexivity].
  rewrite (distribute_delivers self kv (JStr name) payload eid f st Ht Hd Hid).
  reflexivity.
Qed.

(** The event id is not optional for the code: on an envelope without
    [id], [distribute] raises [KeyError] before any callback is started, and
    [data_process] ends with that exception logged. *)
Theorem envelope_without_id_is_not_delivered :
  forall kv name f payload function st,
    dict_get "t" kv = Some (JStr name) ->
    events_get name (events self) = Some (Some f) ->
    dict_get "d" kv = Some (JDict payload) ->
    dict_get "id" kv = None ->
    distribute self function (JDict kv) st = (Raise (KeyError "id"), st)
    /\ data_process treat_msg loads repr_obj self (JDict kv) st
       = (Return tt, set_logged (logged st ++ [Error_exception (KeyError "id")]) st).
Proof.
  intros kv name f payload function st Ht Hget Hd Hid.
  assert (Hraise : forall g, distribute self g (JDict kv) st = (Raise (KeyError "id"), st)).
  { intro g. unfold distribute. cbn [subscript].
    rewrite Ht, bind_return, Hd, bind_return. cbn [setitem].
    rewrite bind_return, Hid, bind_raised. reflexivity. }
  split; [apply Hraise|].
  destruct (table_types_apart name (events_get_present _ _ _ Hget))
    as (Hcreate & Hdelete & Hdm & Hforum).
  unfold data_process, exception_processor, try_except, data_process_body.
  cbn [subscript]. rewrite Ht, bind_return, Hcreate, Hdelete, Hdm, Hforum, Hget.
  rewrite Hraise. reflexivity.
Qed.

(** A direct message with treatment enabled reaches its callback with
    [treated_msg] set to the tokenizer's result on the trimmed content; no
    mention is looked for, and the bot's identity is not needed. *)
Theorem direct_message_treatment :
  forall kv payload content eid f st,
    dm_treat self = true ->
    on_dm_function self = Some f ->
    dict_get "t" kv = Some (JStr "DIRECT_MESSAGE_CREATE") ->
    dict_get "id" kv = Some eid ->
    dict_get "d" kv = Some (JDict payload) ->
    content_text payload = Some content ->
    data_process treat_msg loads repr_obj self (JDict kv) st
    = (Return tt,
       set_called
         (called st
          ++ [mkCall f
                (Some (JDict (dict_set "event_id" eid
                                (dict_set "t" (JStr "DIRECT_MESSAGE_CREATE")
                                   (dict_set "treated_msg" (treat_msg (strip content))
                                      payload)))))
                (if is_async self then LoopTask else Direct)]) st).
Proof.
  intros kv payload content eid f st Htreat Hf Ht Hid Hd Hcontent.
  assert (Hraw : raw_content (JDict kv) st = (Return (strip content), st)).
  { unfold raw_content. cbn [subscript]. rewrite Hd, bind_return.
    unfold content_text in Hcontent. cbn [contains]. unfold dict_has.
    rewrite bind_return. cbn [subscript].
    destruct (dict_get "content" payload) as [c|]; cbn [negb].
    - destruct c; try discriminate. injection Hcontent as <-.
      rewrite bind_return. reflexivity.
    - injection Hcontent as <-. reflexivity. }
  unfold data_process, exception_processor, try_except, data_process_body.
  cbn [subscript]. rewrite Ht, bind_return.
  change (in_strs (JStr "DIRECT_MESSAGE_CREATE") ["AT_MESSAGE_CREATE"; "MESSAGE_CREATE"])
    with false.
  change (in_strs (JStr "DIRECT_MESSAGE_CREATE")
            ["MESSAGE_DELETE"; "PUBLIC_MESSAGE_DELETE"; "DIRECT_MESSAGE_DELETE"])
    with false.
  change (py_eq (JStr "DIRECT_MESSAGE_CREATE") (JStr "DIRECT_MESSAGE_CREATE")) with true.
  cbv iota. rewrite Htreat. unfold bind at 1. rewrite Hraw.
  unfold set_d. cbn [subscript]. rewrite Hd. cbn [setitem]. rewrite bind_return, Hf.
  rewrite (distribute_delivers self _ (JStr "DIRECT_MESSAGE_CREATE")
             (dict_set "treated_msg" (treat_msg (strip content)) payload) eid f st).
  - reflexivity.
  - rewrite dict_get_set_other by discriminate. exact Ht.
  - apply dict_get_set_same.
  - rewrite dict_get_set_other by discriminate. exact Hid.
Qed.

Lemma load_thread_field_decodes :
  forall items kv payload info txt st,
    dict_get "d" kv = Some (JDict payload) ->
    dict_get "thread_info" payload = Some (JDict info) ->
    dict_get items info = Some (JStr txt) ->
    load_thread_field loads items (JDict kv) st
    = (Return
         (JDict (dict_set "d"
                   (JDict (dict_set "thread_info"
                             (JDict (dict_set items (decoded loads txt) info))
                             payload)) kv)), st).
Proof.
  intros items kv payload info txt st Hd Hinfo Htxt.
  unfold load_thread_field, decoded. cbn [subscript].
  rewrite Hd, bind_return. cbn [subscript].
  rewrite Hinfo, bind_return. cbn [subscript].
  rewrite Htxt, bind_return.
  destruct (loads txt) as [v|].
  - cbn [setitem]. rewrite bind_return. unfold set_d. cbn [subscript].
    rewrite Hd. reflexivity.
  - rewrite (dict_set_held items (JStr txt) info Htxt).
    rewrite (dict_set_held "thread_info" (JDict info) payload Hinfo).
    rewrite (dict_set_held "d" (JDict payload) kv Hd). reflexivity.
Qed.

(** A forum event whose thread carries [content] and [title] as text
    reaches the forum callback with each of the two replaced by the JSON it
    holds, and left as it is when it holds none; everything else in the
    payload is passed on unchanged, with the type and the event id added. *)
Theorem forum_event_fields_decoded :
  forall kv name payload info content title eid f st,
    In name forum_events ->
    on_forum_function self = Some f ->
    dict_get "t" kv = Some (JStr name) ->
    dict_get "id" kv = Some eid ->
    dict_get "d" kv = Some (JDict payload) ->
    dict_get "thread_info" payload = Some (JDict info) ->
    dict_get "content" info = Some (JStr content) ->
    dict_get "title" info = Some (JStr title) ->
    data_process treat_msg loads repr_obj self (JDict kv) st
    = (Return tt,
       set_called
         (called st
          ++ [mkCall f
                (Some (JDict
                   (dict_set "event_id" eid
                      (dict_set "t" (JStr name)
                         (dict_set "thread_info"
                            (JDict (dict_set "title" (decoded loads title)
                                      (dict_set "content" (decoded loads content) info)))
                            payload)))))
                (if is_async self then LoopTask else Direct)]) st).
Proof.
  intros kv name payload info content title eid f st
         Hname Hf Ht Hid Hd Hinfo Hcontent Htitle.
  assert (Hapart :
            in_strs (JStr name) ["AT_MESSAGE_CREATE"; "MESSAGE_CREATE"] = false
            /\ in_strs (JStr name)
                 ["MESSAGE_DELETE"; "PUBLIC_MESSAGE_DELETE"; "DIRECT_MESSAGE_DELETE"]
               = false
            /\ py_eq (JStr name) (JStr "DIRECT_MESSAGE_CREATE") = false
            /\ in_strs (JStr name) forum_events = true).
  { unfold forum_events in *. cbn in Hname.
    repeat (destruct Hname as [<-|Hname]; [repeat split|]). contradiction. }
  destruct Hapart as (Hcreate & Hdelete & Hdm & Hforum).
  unfold data_process, exception_processor, try_except, data_process_body.
  cbn [subscript]. rewrite Ht, bind_return, Hcreate, Hdelete, Hdm, Hforum.
  unfold bind at 1.
  rewrite (load_thread_field_decodes "content" kv payload info content st
             Hd Hinfo Hcontent).
  set (info1 := dict_set "content" (decoded loads content) info).
  set (payload1 := dict_set "thread_info" (JDict info1) payload).
  unfold bind at 1.
  rewrite (load_thread_field_decodes "title" (dict_set "d" (JDict payload1) kv)
             payload1 info1 title st).
  2: apply dict_get_set_same.
  2: apply dict_get_set_same.
  2: { unfold info1. rewrite dict_get_set_other by discriminate. exact Htitle. }
  unfold payload1 at 1. rewrite !dict_set_twice.
  set (payload2 := dict_set "thread_info" _ payload).
  rewrite Hf.
  rewrite (distribute_delivers self _ (JStr name) payload2 eid f st).
  - reflexivity.
  - rewrite dict_get_set_other by discriminate. exact Ht.
  - apply dict_get_set_same.
  - rewrite dict_get_set_other by discriminate. exact Hid.
Qed.

(** A forum event whose thread lacks one of the two fields is not
    delivered: the missing key is logged at the dispatch boundary. *)
Theorem forum_event_without_title_is_dropped :
  forall kv name payload info content st,
    In name forum_events ->
    dict_get "t" kv = Some (JStr name) ->
    dict_get "d" kv = Some (JDict payload) ->
    dict_get "thread_info" payload = Some (JDict info) ->
    dict_get "content" info = Some (JStr content) ->
    dict_get "title" info = None ->
    data_process treat_msg loads repr_obj self (JDict kv) st
    = (Return tt, set_logged (logged st ++ [Error_exception (KeyError "title")]) st).
Proof.
  intros kv name payload info content st Hname Ht Hd Hinfo Hcontent Htitle.
  assert (Hapart :
            in_strs (JStr name) ["AT_MESSAGE_CREATE"; "MESSAGE_CREATE"] = false
            /\ in_strs (JStr name)
                 ["MESSAGE_DELETE"; "PUBLIC_MESSAGE_DELETE"; "DIRECT_MESSAGE_DELETE"]
               = false
            /\ py_eq (JStr name) (JStr "DIRECT_MESSAGE_CREATE") = false
            /\ in_strs (JStr name) forum_events = true).
  { unfold forum_events in *. cbn in Hname.
    repeat (destruct Hname as [<-|Hname]; [repeat split|]). contradiction. }
  destruct Hapart as (Hcreate & Hdelete & Hdm & Hforum).
  unfold data_process, exception_processor, try_except, data_process_body.
  cbn [subscript]. rewrite Ht, bind_return, Hcreate, Hdelete, Hdm, Hforum.
  unfold bind at 1.
  rewrite (load_thread_field_decodes "content" kv payload info content st
             Hd Hinfo Hcontent).
  unfold bind at 1. unfold load_thread_field at 1. cbn [subscript].
  rewrite dict_get_set_same, bind_return. cbn [subscript].
  rewrite dict_get_set_same, bind_return. cbn [subscript].
  rewrite dict_get_set_other by discriminate. rewrite Htitle, bind_raised.
  reflexivity.
Qed.

End Dispatch.

Section Connection.

Variable treat_msg : str -> json.
Variable loads : str -> option json.
Variable repr_obj : json -> str.
Variable self : Bot.
Variable identity : nat -> py json.
Variable stack_depth : nat.

(** A frame whose [op] is none of 0, 9, 10 and 11, or which has no [op],
    is ignored: its sequence number is stored and nothing else happens. *)
Theorem other_op_only_stores_sequence :
  forall kv st,
    py_eq (op_of kv) (JInt 11) = false ->
    py_eq (op_of kv) (JInt 9) = false ->
    py_eq (op_of kv) (JInt 10) = false ->
    py_eq (op_of kv) (JInt 0) = false ->
    main treat_msg loads repr_obj self identity stack_depth (Some (JDict kv)) st
    = (Return tt, match dict_get "s" kv with Some v => set_s v st | None => st end).
Proof.
  intros kv st H11 H9 H10 H0. unfold op_of in *. unfold main.
  destruct (dict_get "s" kv) as [v|]; [rewrite bind_modify|rewrite bind_ret];
    unfold on_op; rewrite H11, H9, H10, H0; reflexivity.
Qed.

Lemma handler_result :
  forall e st,
    bind (log Warning_disconnected)
      (fun _ => bind cancel_heartbeat
         (fun _ => bind (log (Error_exception e))
            (fun _ => log (Debug_exception e)))) st
    = (Return tt,
       set_logged
         (logged st ++ [Warning_disconnected; Error_exception e; Debug_exception e])
         (set_heartbeat (cancelled (heartbeat st)) st)).
Proof.
  intros e [? ? ? ? ? ? ? ? h ? ? ? ? ? ?].
  destruct h; unfold log, cancel_heartbeat, bind, modify; cbn;
    rewrite <- !app_assoc; reflexivity.
Qed.

(** A text frame on which [main] raises an exception, such as a text that
    is not JSON, ends the connection attempt: the exception is logged, the
    heartbeat is cancelled, the socket is closed, and [connect] returns
    without handling the messages that follow and without ending the
    process. *)
Theorem raising_frame_ends_the_attempt :
  forall msg e st1 rest st,
    running st = true ->
    main treat_msg loads repr_obj self identity stack_depth msg
      (set_ws_closed false (set_reconnect_times (reconnect_times st + 1) st))
    = (Raise e, st1) ->
    connect treat_msg loads repr_obj self identity stack_depth
      (Connected (TEXT msg :: rest)) st
    = (Return tt,
       set_logged
         (logged st1 ++ [Warning_disconnected; Error_exception e; Debug_exception e])
         (set_heartbeat (cancelled (heartbeat st1)) (set_ws_closed true st1))).
Proof.
  intros msg e st1 rest st Hrun Hmain.
  unfold connect. rewrite bind_modify. unfold try_except, with_ws.
  cbn [receive]. rewrite bind_gets.
  change (running (set_ws_closed false
                     (set_reconnect_times (reconnect_times st + 1) st)))
    with (running st).
  rewrite Hrun. cbn [negb]. unfold bind at 1. rewrite Hmain.
  rewrite handler_result. reflexivity.
Qed.

Lemma connect_never_raises :
  forall a st,
    raises (fst (connect treat_msg loads repr_obj self identity stack_depth a st))
    = false.
Proof.
  intros a st. unfold connect. rewrite bind_modify. unfold try_except.
  match goal with
  | |- context [match ?body ?state with _ => _ end] =>
      destruct (body state) as [[u|e|] st']
  end; [reflexivity| |reflexivity].
  rewrite handler_result. reflexivity.
Qed.

Lemma reconnect_loop_never_raises :
  forall attempts st,
    raises (fst (reconnect_loop treat_msg loads repr_obj self identity stack_depth
                   attempts st)) = false.
Proof.
  induction attempts as [|a rest IH]; intro st; [reflexivity|].
  cbn [reconnect_loop]. rewrite bind_gets.
  destruct (running st); [|reflexivity].
  unfold bind at 1. unfold reconnect at 1. rewrite bind_modify.
  pose proof (connect_never_raises a
                (set_re_connect (if 20 <=? reconnect_times st then false else true) st))
    as Hc.
  destruct (connect treat_msg loads repr_obj self identity stack_depth a _)
    as [[u|e|] st']; cbn in Hc; [apply IH|discriminate|reflexivity].
Qed.

(** No exception leaves [connect] or [starter]: each returns, or the
    process exits.  The handler that [starter] keeps for a failed handshake
    therefore never runs. *)
Theorem no_exception_leaves_the_connection :
  forall a attempts st,
    raises (fst (connect treat_msg loads repr_obj self identity stack_depth a st))
    = false
    /\ raises (fst (starter treat_msg loads repr_obj self identity stack_depth
                      attempts st)) = false.
Proof.
  intros a attempts st. split; [apply connect_never_raises|].
  destruct attempts as [|a0 rest]; [reflexivity|].
  cbn [starter]. unfold bind.
  pose proof (connect_never_raises a0 st) as Hc.
  destruct (connect treat_msg loads repr_obj self identity stack_depth a0 st)
    as [[u|e|] st']; cbn in Hc;
    [apply reconnect_loop_never_raises|discriminate|reflexivity].
Qed.

(** Once the bot was told to stop ([running] is false), the next text
    frame is not handled: the heartbeat is cancelled, the socket is closed,
    the end is logged and [connect] returns; and the reconnect loop makes no
    further attempt. *)
Theorem stopped_bot_handles_nothing :
  forall msg rest attempts st,
    running st = false ->
    connect treat_msg loads repr_obj self identity stack_depth
      (Connected (TEXT msg :: rest)) st
    = (Return tt,
       set_logged (logged st ++ [Info_ws_ended])
         (set_heartbeat (cancelled (heartbeat st))
            (set_ws_closed true
               (set_reconnect_times (reconnect_times st + 1) st))))
    /\ reconnect_loop treat_msg loads repr_obj self identity stack_depth attempts st
       = (Return tt, st).
Proof.
  intros msg rest attempts st Hstop. split.
  - unfold connect. rewrite bind_modify. unfold try_except, with_ws.
    cbn [receive]. rewrite bind_gets.
    change (running (set_ws_closed false
                       (set_reconnect_times (reconnect_times st + 1) st)))
      with (running st).
    rewrite Hstop. cbn [negb].
    unfold cancel_heartbeat, log, bind, modify. cbn.
    destruct st as [? ? ? ? ? ? ? ? h ? ? ? ? ? ?]. destruct h; reflexivity.
  - destruct attempts as [|a more]; [reflexivity|].
    cbn [reconnect_loop]. rewrite bind_gets, Hstop. reflexivity.
Qed.

(** The first frame an attempt sends is the one its first message is
    answered with. *)
Lemma attempt_first_frame :
  forall msg rest st stD frame,
    running st = true ->
    main treat_msg loads repr_obj self identity stack_depth msg
      (set_ws_closed false (set_reconnect_times (reconnect_times st + 1) st))
    = (Return tt, stD) ->
    sent stD = sent st ++ [frame] ->
    nth_error
      (sent (snd (connect treat_msg loads repr_obj self identity stack_depth
                    (Connected (TEXT msg :: rest)) st)))
      (List.length (sent st))
    = Some frame.
Proof.
  intros msg rest st stD frame Hrun Hmain HsentD.
  unfold connect. rewrite bind_modify. unfold try_except, with_ws.
  cbn [receive]. rewrite bind_gets.
  change (running (set_ws_closed false
                     (set_reconnect_times (reconnect_times st + 1) st)))
    with (running st).
  rewrite Hrun. cbn [negb]. unfold bind at 1. rewrite Hmain.
  destruct (receive_sent_grows treat_msg loads repr_obj self identity stack_depth
              rest stD) as [more Hmore].
  assert (Hgrow : sent (snd (receive treat_msg loads repr_obj self identity
                               stack_depth rest stD))
                  = sent st ++ frame :: more).
  { rewrite Hmore, HsentD, <- app_assoc. reflexivity. }
  destruct (receive treat_msg loads repr_obj self identity stack_depth rest stD)
    as [[u|e|] stE]; cbn [snd fst] in *; try rewrite handler_result;
    cbn [snd sent set_logged set_heartbeat set_ws_closed];
    rewrite Hgrow, nth_error_app2 by lia; now rewrite Nat.sub_diag.
Qed.

(** A hello frame handled on an open socket while resume is allowed:
    the resume frame is sent, with the session id stored and the sequence
    number as the hello frame itself leaves it. *)
Lemma hello_sends_resume :
  forall kv d interval n f st,
    dict_get "op" kv = Some (JInt 10) ->
    dict_get "d" kv = Some d ->
    subscript d "heartbeat_interval" = Return interval ->
    int_of interval = Return n ->
    float_of_int n = Return f ->
    re_connect st = true ->
    ws_closed st = false ->
    exists st',
      main treat_msg loads repr_obj self identity stack_depth (Some (JDict kv)) st
        = (Return tt, st')
      /\ sent st' = sent st
                    ++ [resume_frame self (session_id st)
                          (match dict_get "s" kv with Some v => v | None => s st end)].
Proof.
  intros kv d interval n f st Hop Hd Hi Hn Hf Hre Hclosed.
  set (st1 := match dict_get "s" kv with Some v => set_s v st | None => st end).
  assert (H1 : re_connect st1 = true /\ ws_closed st1 = false /\ sent st1 = sent st
               /\ session_id st1 = session_id st
               /\ s st1 = match dict_get "s" kv with Some v => v | None => s st end).
  { unfold st1. destruct (dict_get "s" kv); repeat split; assumption. }
  destruct H1 as (Hre1 & Hclosed1 & Hsent1 & Hsid1 & Hs1).
  exists (set_sent (sent st1 ++ [reconnect_paras self
                                   (set_heartbeat_time (PrimFloat.mul f milli) st1)])
            (set_heartbeat_time (PrimFloat.mul f milli) st1)).
  split.
  - unfold main. rewrite Hop.
    assert (Hs : forall k : unit -> M state unit,
               bind (match dict_get "s" kv with
                     | Some v => modify (set_s v)
                     | None => ret tt
                     end) k st = k tt st1).
    { intro k. unfold st1. destruct (dict_get "s" kv); reflexivity. }
    rewrite Hs. unfold on_op.
    change (py_eq (JInt 10) (JInt 11)) with false.
    change (py_eq (JInt 10) (JInt 9)) with false.
    change (py_eq (JInt 10) (JInt 10)) with true.
    cbv iota. unfold on_hello. cbn [subscript].
    rewrite Hd, bind_return, Hi, bind_return, Hn, bind_return, Hf, bind_return.
    rewrite bind_modify. unfold handshake. rewrite bind_gets.
    cbn [re_connect set_heartbeat_time]. rewrite Hre1. cbn [negb].
    unfold send_reconnect, ws_send, modify. cbn [ws_closed set_heartbeat_time].
    rewrite Hclosed1. reflexivity.
  - cbn [sent set_sent]. rewrite Hsent1. unfold reconnect_paras, resume_frame, token.
    cbn [session_id s set_heartbeat_time]. rewrite Hsid1, Hs1. reflexivity.
Qed.

(** While the counter is below 20, a round of the reconnect loop answers
    the gateway's hello with a resume frame that carries the session id
    stored by READY and the last sequence number stored. *)
Theorem reconnect_resumes_below_twenty :
  forall kv d interval n f rest st,
    running st = true ->
    reconnect_times st < 20 ->
    dict_get "op" kv = Some (JInt 10) ->
    dict_get "s" kv = None ->
    dict_get "d" kv = Some d ->
    subscript d "heartbeat_interval" = Return interval ->
    int_of interval = Return n ->
    float_of_int n = Return f ->
    nth_error
      (sent (snd (reconnect treat_msg loads repr_obj self identity stack_depth
                    (Connected (TEXT (Some (JDict kv)) :: rest)) st)))
      (List.length (sent st))
    = Some (resume_frame self (session_id st) (s st)).
Proof.
  intros kv d interval n f rest st Hrun Hcount Hop Hnoseq Hd Hi Hn Hf.
  unfold reconnect. rewrite bind_modify.
  assert (H20 : (20 <=? reconnect_times st) = false) by now apply Z.leb_gt.
  rewrite H20.
  set (stA := set_re_connect true st).
  destruct (hello_sends_resume kv d interval n f
              (set_ws_closed false (set_reconnect_times (reconnect_times stA + 1) stA))
              Hop Hd Hi Hn Hf eq_refl eq_refl) as (stD & Hmain & HsentD).
  rewrite Hnoseq in HsentD.
  apply (attempt_first_frame (Some (JDict kv)) rest stA stD _ Hrun Hmain HsentD).
Qed.

(** [get_robot_info()] returns the first answer that contains [id], after
    one fetch for every answer up to that one, as long as the depth of
    nested calls allows. *)
Theorem get_robot_info_returns_first_id :
  forall k depth st body,
    (k < depth)%nat ->
    (forall i, (i < k)%nat ->
               exists b, identity (fetched st + i) = Return b
                         /\ contains "id" b = Return false) ->
    identity (fetched st + k) = Return body ->
    contains "id" body = Return true ->
    get_robot_info identity depth false st
    = (Return body, set_fetched (fetched st + S k) st).
Proof.
  induction k as [|k IH]; intros depth st body Hdepth Hbefore Hbody Hid;
    (destruct depth as [|depth]; [lia|]); cbn [get_robot_info];
    rewrite bind_gets, bind_modify.
  - rewrite Nat.add_0_r in Hbody. rewrite Hbody, bind_return, Hid, bind_return.
    cbn [negb]. unfold ret, objectize. now rewrite Nat.add_1_r.
  - destruct (Hbefore 0%nat ltac:(lia)) as (b & Hb & Hno).
    rewrite Nat.add_0_r in Hb. rewrite Hb, bind_return, Hno, bind_return.
    cbn [negb].
    rewrite (IH depth (set_fetched (S (fetched st)) st) body).
    + cbn [fetched set_fetched].
      replace (S (fetched st) + S k)%nat with (fetched st + S (S k))%nat by lia.
      reflexivity.
    + lia.
    + intros i Hi. cbn [fetched set_fetched].
      destruct (Hbefore (S i) ltac:(lia)) as (b' & Hb' & Hno').
      exists b'. replace (S (fetched st) + i)%nat with (fetched st + S i)%nat by lia.
      now split.
    + cbn [fetched set_fetched].
      replace (S (fetched st) + k)%nat with (fetched st + S k)%nat by lia.
      exact Hbody.
    + exact Hid.
Qed.

(** *** Once the first READY was handled *)

Lemma settled_refl : forall st, identity_settled st st.
Proof. intros st H. auto. Qed.

Lemma settled_trans :
  forall a b c, identity_settled a b -> identity_settled b c -> identity_settled a c.
Proof.
  intros a b c Hab Hbc Ha. destruct (Hab Ha) as (Hb & Hf & Hr).
  destruct (Hbc Hb) as (Hc & Hf' & Hr'). repeat split; congruence.
Qed.

Ltac settled_side :=
  intros; unfold identity_settled; cbn; intro;
  repeat match goal with
         | |- context [match ?x with _ => _ end] => destruct x
         end;
  cbn; auto.

Ltac settled :=
  lazymatch goal with
  | |- keeps _ (bind _ _) =>
      apply keeps_bind; [exact settled_trans | settled | intros; settled]
  | |- keeps _ (try_except _ _) =>
      apply keeps_try_except; [exact settled_trans | settled | intros; settled]
  | |- keeps _ (ret _) => apply keeps_ret; exact settled_refl
  | |- keeps _ (lift _) => apply keeps_lift; exact settled_refl
  | |- keeps _ (gets _) => apply keeps_gets; exact settled_refl
  | |- keeps _ (raise _) => apply keeps_raise; exact settled_refl
  | |- keeps _ exit => apply keeps_exit; exact settled_refl
  | |- keeps _ (modify _) => apply keeps_modify; settled_side
  | |- keeps _ (log _) => apply keeps_log; settled_side
  | |- keeps _ start_heartbeat =>
      apply keeps_start_heartbeat; [exact settled_refl | settled_side]
  | |- keeps _ cancel_heartbeat =>
      apply keeps_cancel_heartbeat; [exact settled_refl | settled_side]
  | |- keeps _ (match ?x with _ => _ end) => destruct x; settled
  | |- _ => auto
  end.

Lemma first_ready_settled :
  keeps identity_settled (first_ready self identity stack_depth).
Proof.
  intros st Hflag. unfold first_ready. rewrite bind_gets, Hflag. cbn. auto.
Qed.

Lemma on_op_settled :
  forall op data,
    keeps identity_settled
      (on_op treat_msg loads repr_obj self identity stack_depth op data).
Proof.
  intros op data. unfold on_op.
  destruct (py_eq op (JInt 11)); [settled|].
  destruct (py_eq op (JInt 9)).
  { apply keeps_on_invalid_session;
      first [exact settled_refl | exact settled_trans | settled_side]. }
  destruct (py_eq op (JInt 10)).
  { apply keeps_on_hello;
      first [exact settled_refl | exact settled_trans | settled_side]. }
  destruct (py_eq op (JInt 0)); [|settled].
  apply keeps_bind; [exact settled_trans|settled|]. intro t.
  destruct (py_eq t (JStr "READY")).
  { unfold on_ready. pose proof first_ready_settled. settled. }
  destruct (py_eq t (JStr "RESUMED")).
  { unfold on_resumed. settled. }
  apply keeps_data_process;
    first [exact settled_refl | exact settled_trans | settled_side].
Qed.

Lemma main_settled :
  forall msg,
    keeps identity_settled
      (main treat_msg loads repr_obj self identity stack_depth msg).
Proof.
  intro msg. unfold main. pose proof on_op_settled. settled.
Qed.

Lemma receive_settled :
  forall messages,
    keeps identity_settled
      (receive treat_msg loads repr_obj self identity stack_depth messages).
Proof.
  pose proof main_settled.
  induction messages as [|m rest IH]; cbn [receive]; settled.
Qed.

Lemma connect_settled :
  forall a,
    keeps identity_settled
      (connect treat_msg loads repr_obj self identity stack_depth a).
Proof.
  intro a. unfold connect.
  apply keeps_bind; [exact settled_trans|settled|]. intros _.
  apply keeps_try_except; [exact settled_trans| |intros; settled].
  destruct a as [e|messages]; [settled|].
  apply keeps_with_ws; [exact settled_trans|settled_side|apply receive_settled].
Qed.

Lemma reconnect_loop_settled :
  forall attempts,
    keeps identity_settled
      (reconnect_loop treat_msg loads repr_obj self identity stack_depth attempts).
Proof.
  pose proof connect_settled.
  induction attempts as [|a rest IH]; cbn [reconnect_loop]; [settled|].
  unfold reconnect. settled.
Qed.

(** The bot's identity is fetched on the first READY only: from a state in
    which the first READY was handled ([flag] set), no run of [starter]
    makes another fetch or replaces the identity, and the flag stays set. *)
Theorem identity_fetched_on_first_ready_only :
  forall attempts st,
    flag st = true ->
    flag (snd (starter treat_msg loads repr_obj self identity stack_depth attempts st))
    = true
    /\ fetched (snd (starter treat_msg loads repr_obj self identity stack_depth
                       attempts st)) = fetched st
    /\ robot (snd (starter treat_msg loads repr_obj self identity stack_depth
                     attempts st)) = robot st.
Proof.
  intros attempts st Hflag.
  assert (Hkeeps : keeps identity_settled
                     (starter treat_msg loads repr_obj self identity stack_depth
                        attempts)).
  { destruct attempts as [|a rest]; cbn [starter].
    - settled.
    - pose proof connect_settled. pose proof reconnect_loop_settled. settled. }
  exact (Hkeeps st Hflag).
Qed.

End Connection.

(** ** The properties above on concrete inputs *)

Lemma banned_guild_only_warns :
  data_process tokens no_json no_repr bot0
    (JDict (envelope "GUILD_BANNED" guild_payload)) ready_state
  = (Return tt,
     set_logged (logged ready_state ++ [Warning_unknown_event (JStr "GUILD_BANNED")])
       ready_state).
Proof.
  apply (unknown_type_only_warns tokens no_json no_repr bot0
           (envelope "GUILD_BANNED" guild_payload) "GUILD_BANNED" ready_state eq_refl).
  unfold known_types. cbn. intro H.
  repeat (destruct H as [H|H]; [discriminate|]). exact H.
Defined.

Lemma guild_create_delivered :
  data_process tokens no_json no_repr bot0
    (JDict (envelope "GUILD_CREATE" guild_payload)) ready_state
  = (Return tt,
     set_called
       (called ready_state
        ++ [mkCall "on_guild"
              (Some (JDict (dict_set "event_id" (JStr "e3")
                              (dict_set "t" (JStr "GUILD_CREATE") guild_payload))))
              Direct]) ready_state).
Proof.
  exact (table_event_reaches_its_callback tokens no_json no_repr bot0
           (envelope "GUILD_CREATE" guild_payload) "GUILD_CREATE" (Some "on_guild")
           guild_payload (JStr "e3") ready_state eq_refl eq_refl eq_refl eq_refl).
Defined.

Lemma guild_create_without_id :
  distribute bot0 (Some "on_guild")
    (JDict (envelope_without_id "GUILD_CREATE" guild_payload)) ready_state
  = (Raise (KeyError "id"), ready_state)
  /\ data_process tokens no_json no_repr bot0
       (JDict (envelope_without_id "GUILD_CREATE" guild_payload)) ready_state
     = (Return tt,
        set_logged (logged ready_state ++ [Error_exception (KeyError "id")])
          ready_state).
Proof.
  exact (envelope_without_id_is_not_delivered tokens no_json no_repr bot0
           (envelope_without_id "GUILD_CREATE" guild_payload) "GUILD_CREATE"
           "on_guild" guild_payload (Some "on_guild") ready_state
           eq_refl eq_refl eq_refl eq_refl).
Defined.

Lemma direct_message_tokenized :
  data_process tokens no_json no_repr bot0
    (JDict (envelope "DIRECT_MESSAGE_CREATE" [("content", JStr "  <@!42> hi ")]))
    Ws.initial
  = (Return tt,
     set_called
       (called Ws.initial
        ++ [mkCall "on_dm"
              (Some (JDict (dict_set "event_id" (JStr "e3")
                              (dict_set "t" (JStr "DIRECT_MESSAGE_CREATE")
                                 (dict_set "treated_msg"
                                    (tokens (strip "  <@!42> hi "))
                                    [("content", JStr "  <@!42> hi ")])))))
              Direct]) Ws.initial).
Proof.
  exact (direct_message_treatment tokens no_json no_repr bot0
           (envelope "DIRECT_MESSAGE_CREATE" [("content", JStr "  <@!42> hi ")])
           [("content", JStr "  <@!42> hi ")] "  <@!42> hi " (JStr "e3") "on_dm"
           Ws.initial eq_refl eq_refl eq_refl eq_refl eq_refl eq_refl).
Defined.

Lemma forum_thread_decoded :
  data_process tokens reads_one no_repr bot0
    (JDict (envelope "FORUM_THREAD_CREATE" [("thread_info", JDict thread)]))
    ready_state
  = (Return tt,
     set_called
       (called ready_state
        ++ [mkCall "on_forum"
              (Some (JDict
                 (dict_set "event_id" (JStr "e3")
                    (dict_set "t" (JStr "FORUM_THREAD_CREATE")
                       (dict_set "thread_info"
                          (JDict (dict_set "title" (decoded reads_one "plain title")
                                    (dict_set "content" (decoded reads_one "[1]")
                                       thread)))
                          [("thread_info", JDict thread)])))))
              Direct]) ready_state).
Proof.
  exact (forum_event_fields_decoded tokens reads_one no_repr bot0
           (envelope "FORUM_THREAD_CREATE" [("thread_info", JDict thread)])
           "FORUM_THREAD_CREATE" [("thread_info", JDict thread)] thread
           "[1]" "plain title" (JStr "e3") "on_forum" ready_state
           (or_introl eq_refl) eq_refl eq_refl eq_refl eq_refl eq_refl eq_refl eq_refl).
Defined.

Lemma forum_thread_without_title :
  data_process tokens reads_one no_repr bot0
    (JDict (envelope "FORUM_POST_CREATE" [("thread_info", JDict thread_without_title)]))
    ready_state
  = (Return tt,
     set_logged (logged ready_state ++ [Error_exception (KeyError "title")])
       ready_state).
Proof.
  exact (forum_event_without_title_is_dropped tokens reads_one no_repr bot0
           (envelope "FORUM_POST_CREATE" [("thread_info", JDict thread_without_title)])
           "FORUM_POST_CREATE" [("thread_info", JDict thread_without_title)]
           thread_without_title "[1]" ready_state
           (or_intror (or_intror (or_intror (or_introl eq_refl))))
           eq_refl eq_refl eq_refl eq_refl eq_refl).
Defined.

Lemma reconnect_request_ignored :
  main tokens no_json no_repr bot0 known 1000
    (Some (JDict [("op", JInt 7); ("s", JInt 4)])) ready_state
  = (Return tt, set_s (JInt 4) ready_state).
Proof.
  exact (other_op_only_stores_sequence tokens no_json no_repr bot0 known 1000
           [("op", JInt 7); ("s", JInt 4)] ready_state
           eq_refl eq_refl eq_refl eq_refl).
Defined.

Lemma garbage_ends_the_attempt :
  connect tokens no_json no_repr bot0 known 1000
    (Connected [TEXT None; TEXT (Some ready)]) Ws.initial
  = (Return tt,
     set_logged
       (logged (set_ws_closed false (set_reconnect_times (0 + 1) Ws.initial))
        ++ [Warning_disconnected; Error_exception JSONDecodeError;
            Debug_exception JSONDecodeError])
       (set_heartbeat
          (cancelled
             (heartbeat (set_ws_closed false (set_reconnect_times (0 + 1) Ws.initial))))
          (set_ws_closed true
             (set_ws_closed false (set_reconnect_times (0 + 1) Ws.initial))))).
Proof.
  exact (raising_frame_ends_the_attempt tokens no_json no_repr bot0 known 1000
           None JSONDecodeError
           (set_ws_closed false (set_reconnect_times (0 + 1) Ws.initial))
           [TEXT (Some ready)] Ws.initial eq_refl eq_refl).
Defined.

Lemma stopped_bot_ignores_ready :
  connect tokens no_json no_repr bot0 known 1000
    (Connected [TEXT (Some ready)]) (set_running false ready_state)
  = (Return tt,
     set_logged (logged (set_running false ready_state) ++ [Info_ws_ended])
       (set_heartbeat (cancelled (heartbeat (set_running false ready_state)))
          (set_ws_closed true
             (set_reconnect_times
                (reconnect_times (set_running false ready_state) + 1)
                (set_running false ready_state)))))
  /\ reconnect_loop tokens no_json no_repr bot0 known 1000
       [Connected [TEXT (Some ready)]] (set_running false ready_state)
     = (Return tt, set_running false ready_state).
Proof.
  exact (stopped_bot_handles_nothing tokens no_json no_repr bot0 known 1000
           (Some ready) [] [Connected [TEXT (Some ready)]]
           (set_running false ready_state) eq_refl).
Defined.

Lemma session_resumed_after_three_rounds :
  nth_error
    (sent (snd (reconnect tokens no_json no_repr bot0 known 1000
                  (Connected [TEXT (Some (hello 41250))]) resumable)))
    (List.length (sent resumable))
  = Some (resume_frame bot0 (session_id resumable) (s resumable)).
Proof.
  exact (reconnect_resumes_below_twenty tokens no_json no_repr bot0 known 1000
           (hello_fields 41250) (hello_payload 41250) (JInt 41250) 41250
           (double_of_int 41250) [] resumable
           eq_refl ltac:(cbn; lia) eq_refl eq_refl eq_refl eq_refl eq_refl
           ltac:(vm_compute; reflexivity)).
Defined.

Lemma third_answer_returned :
  get_robot_info third_time 1000 false Ws.initial
  = (Return (JDict [("id", JStr "42"); ("username", JStr "bot")]),
     set_fetched (fetched Ws.initial + 3) Ws.initial).
Proof.
  apply (get_robot_info_returns_first_id third_time 2 1000 Ws.initial
           (JDict [("id", JStr "42"); ("username", JStr "bot")])).
  - lia.
  - intros i Hi. destruct i as [|[|i]]; [eexists; split; reflexivity..|lia].
  - reflexivity.
  - reflexivity.
Defined.

Lemma identity_kept_across_reconnect :
  flag (snd (starter tokens no_json no_repr bot0 unknown 1000
               [Connected [TEXT (Some ready); CLOSE];
                Connected [TEXT (Some (hello 41250)); TEXT (Some ready)]]
               ready_state)) = true
  /\ fetched (snd (starter tokens no_json no_repr bot0 unknown 1000
                     [Connected [TEXT (Some ready); CLOSE];
                      Connected [TEXT (Some (hello 41250)); TEXT (Some ready)]]
                     ready_state)) = fetched ready_state
  /\ robot (snd (starter tokens no_json no_repr bot0 unknown 1000
                   [Connected [TEXT (Some ready); CLOSE];
                    Connected [TEXT (Some (hello 41250)); TEXT (Some ready)]]
                   ready_state)) = robot ready_state.
Proof.
  exact (identity_fetched_on_first_ready_only tokens no_json no_repr bot0 unknown 1000
           [Connected [TEXT (Some ready); CLOSE];
            Connected [TEXT (Some (hello 41250)); TEXT (Some ready)]]
           ready_state eq_refl).
Defined.

End WsMore.

(** * Further properties of the REST session, the form and the version check *)

Module HttpMore.
Import Py PySpec Http Form Samples Notions HttpSpec WsSpec.
Local Open Scope list_scope.

Section Request.

Variable retry_err_code : list Z.
Variable self : Session.
Variable server : nat -> response.

(** A REST call logs at most one warning, and the warning it logs is about
    the failed response that the call returns; a call that returns a
    successful response, at once or on the re-issue, logs nothing. *)
Theorem at_most_one_warning :
  forall fuel method url retry w,
    exists r w',
      _request retry_err_code self server (S (S fuel)) method url retry w = Some (r, w')
      /\ (logged w' = logged w
          \/ exists resp,
               r = Return resp /\ ok resp = false
               /\ logged w' = logged w
                    ++ [Warning_api url (status resp) (text resp) (trace_id resp)])
      /\ (forall resp, r = Return resp -> ok resp = true -> logged w' = logged w).
Proof.
  intros fuel method url retry w.
  assert (Hfinal : forall f w0,
             logged w0 = logged w ->
             exists r w',
               _request retry_err_code self server (S f) method url true w0
                 = Some (r, w')
               /\ (logged w' = logged w
                   \/ exists resp,
                        r = Return resp /\ ok resp = false
                        /\ logged w' = logged w
                             ++ [Warning_api url (status resp) (text resp)
                                   (trace_id resp)])).
  { intros f w0 H0. rewrite retry_call_is_final.
    set (resp := server (List.length (issued w0))).
    do 2 eexists. split; [reflexivity|].
    destruct (ok resp) eqn:Eok.
    - left. cbn. now rewrite check_session_logged.
    - destruct (_is_log_error self).
      + right. exists resp. repeat split; [exact Eok|].
        cbn. now rewrite check_session_logged, H0.
      + left. cbn. now rewrite check_session_logged. }
  assert (Hmain : exists r w',
             _request retry_err_code self server (S (S fuel)) method url retry w
               = Some (r, w')
             /\ (logged w' = logged w
                 \/ exists resp,
                      r = Return resp /\ ok resp = false
                      /\ logged w' = logged w
                           ++ [Warning_api url (status resp) (text resp)
                                 (trace_id resp)])).
  { destruct retry; [apply Hfinal; reflexivity|].
    rewrite first_call_unfold.
    set (resp := server (List.length (issued w))).
    set (w1 := add_request (mkRequest method url false) (_check_session w)).
    assert (H1 : logged w1 = logged w) by (cbn; now rewrite check_session_logged).
    destruct (ok resp) eqn:Eok.
    { do 2 eexists. split; [reflexivity|]. left. exact H1. }
    destruct (_is_retry self).
    - destruct (Str.eqb (content_type resp) "application/json");
        [|apply Hfinal; exact H1].
      destruct (json_ resp) as [j|e|].
      + destruct (not_retryable retry_err_code j); [|apply Hfinal; exact H1].
        do 2 eexists. split; [reflexivity|]. right. exists resp.
        repeat split; [exact Eok|]. cbn. now rewrite check_session_logged.
      + do 2 eexists. split; [reflexivity|]. left. exact H1.
      + do 2 eexists. split; [reflexivity|]. left. exact H1.
    - do 2 eexists. split; [reflexivity|].
      destruct (_is_log_error self).
      + right. exists resp. repeat split; [exact Eok|].
        cbn. now rewrite check_session_logged.
      + left. exact H1. }
  destruct Hmain as (r & w' & Hrun & Hlog).
  exists r, w'. split; [exact Hrun|]. split; [exact Hlog|].
  intros resp Hr Hok. destruct Hlog as [Hsame|(resp' & Hr' & Hfail & _)];
    [exact Hsame|].
  rewrite Hr in Hr'. injection Hr' as <-. congruence.
Qed.

(** With retry disabled a call issues exactly one request and returns its
    response, whatever it is; a failure is logged exactly when error logging
    is enabled. *)
Theorem retry_disabled_single_request :
  forall fuel method url retry w,
    _is_retry self = false ->
    exists w',
      _request retry_err_code self server (S fuel) method url retry w
        = Some (Return (server (List.length (issued w))), w')
      /\ issued w' = issued w ++ [mkRequest method url retry]
      /\ logged w' =
           if ok (server (List.length (issued w))) || negb (_is_log_error self)
           then logged w
           else logged w
                  ++ [Warning_api url
                        (status (server (List.length (issued w))))
                        (text (server (List.length (issued w))))
                        (trace_id (server (List.length (issued w))))].
Proof.
  intros fuel method url retry w Hoff.
  set (resp := server (List.length (issued w))).
  destruct retry.
  - rewrite retry_call_is_final. fold resp.
    eexists. split; [reflexivity|].
    destruct (ok resp); [|destruct (_is_log_error self)]; cbn;
      rewrite check_session_issued, check_session_logged; split; reflexivity.
  - rewrite first_call_unfold. fold resp. rewrite Hoff.
    destruct (ok resp); [|destruct (_is_log_error self)];
      eexists; (split; [reflexivity|]); cbn;
      rewrite check_session_issued, check_session_logged; split; reflexivity.
Qed.

End Request.

Lemma retry_disabled_failure_returned :
  exists w',
    _request codes (mkSession false true) (always limited) 1 "GET" "/guilds" false fresh
      = Some (Return limited, w')
    /\ issued w' = [mkRequest "GET" "/guilds" false]
    /\ logged w' = [Warning_api "/guilds" 429 "code 11298" (Some "trace-1")].
Proof.
  exact (retry_disabled_single_request codes (mkSession false true) (always limited)
           0 "GET" "/guilds" false fresh eq_refl).
Defined.

Lemma keyword_only_call_raises :
  wrap describe failing_queue "get" [] [("url", JStr "/users/@me")] fresh
  = (Raise IndexError, fresh).
Proof.
  exact (wrap_without_positional_argument describe failing_queue "get"
           [("url", JStr "/users/@me")] (OtherError "queue is closed") fresh eq_refl).
Defined.

Section FormData.

Variable V P : Type.
Variable get_payload : V -> option str -> list (str * str) -> option P.
Variable disposed : list (str * str) -> P -> P.

Lemma append_fields_appends :
  forall fields parts form,
    parts_of get_payload disposed fields = Some parts ->
    append_fields V P get_payload disposed fields form
    = (Return tt,
       mkForm (_fields form) (_writer form ++ parts) (_is_processed form)
         (printed form)).
Proof.
  induction fields as [|f rest IH]; intros parts form Hparts; cbn in Hparts.
  - injection Hparts as <-. cbn. rewrite app_nil_r. destruct form; reflexivity.
  - cbn [append_fields]. destruct (unwrapped V (held f)) as [v|].
    + destruct (part_of V P get_payload disposed f v) as [part|]; [|discriminate].
      destruct (parts_of get_payload disposed rest) as [more|]; [|discriminate].
      injection Hparts as <-. rewrite bind_modify, (IH more _ eq_refl).
      cbn. rewrite <- app_assoc. reflexivity.
    + apply IH. exact Hparts.
Qed.

Lemma parts_of_length :
  forall fields parts,
    parts_of get_payload disposed fields = Some parts ->
    List.length parts = List.length (filter (holds_value (V:=V)) fields).
Proof.
  induction fields as [|f rest IH]; intros parts Hparts; cbn in Hparts.
  - injection Hparts as <-. reflexivity.
  - cbn [filter]. unfold holds_value at 1.
    destruct (unwrapped V (held f)) as [v|].
    + destruct (part_of V P get_payload disposed f v) as [part|]; [|discriminate].
      destruct (parts_of get_payload disposed rest) as [more|]; [|discriminate].
      injection Hparts as <-. cbn. f_equal. now apply IH.
    + now apply IH.
Qed.

(** A form whose fields can all be serialised gains one part for each
    field that holds a value, in the order of the fields; a field that holds
    [None], directly or behind a [StrPtr], gives no part.  The form is then
    marked as processed, and generating it again, as a retried request does,
    returns the same parts and adds nothing. *)
Theorem form_generated_once :
  forall form parts,
    _is_processed form = false ->
    parts_of get_payload disposed (_fields form) = Some parts ->
    let once := _gen_form_data V P get_payload disposed form in
    once = (Return (_writer form ++ parts),
            mkForm (_fields form) (_writer form ++ parts) true (printed form))
    /\ List.length parts = List.length (filter (holds_value (V:=V)) (_fields form))
    /\ _gen_form_data V P get_payload disposed (snd once)
       = (Return (_writer form ++ parts), snd once).
Proof.
  intros form parts Hfresh Hparts once.
  assert (Honce : once = (Return (_writer form ++ parts),
                          mkForm (_fields form) (_writer form ++ parts) true
                            (printed form))).
  { unfold once, _gen_form_data. rewrite bind_gets, Hfresh, bind_gets.
    unfold bind at 1. rewrite (append_fields_appends _ _ _ Hparts).
    reflexivity. }
  split; [exact Honce|]. split; [exact (parts_of_length _ _ Hparts)|].
  rewrite Honce. reflexivity.
Qed.

(** When a field cannot be serialised, [TypeError] is raised and the form
    is not marked as processed, but the parts of the fields before it are
    already in the writer: generating the form again adds them a second
    time. *)
Theorem form_failure_keeps_earlier_parts :
  forall form before f v after parts,
    _is_processed form = false ->
    _fields form = before ++ f :: after ->
    parts_of get_payload disposed before = Some parts ->
    unwrapped V (held f) = Some v ->
    part_of V P get_payload disposed f v = None ->
    let failed := _gen_form_data V P get_payload disposed form in
    failed = (Raise TypeError,
              mkForm (_fields form) (_writer form ++ parts) false
                (printed form ++ [f]))
    /\ _gen_form_data V P get_payload disposed (snd failed)
       = (Raise TypeError,
          mkForm (_fields form) ((_writer form ++ parts) ++ parts) false
            ((printed form ++ [f]) ++ [f])).
Proof.
  intros form before f v after parts Hfresh Hfields Hparts Hv Hpart failed.
  assert (Hloop : forall fm,
             append_fields V P get_payload disposed (before ++ f :: after) fm
             = (Raise TypeError,
                mkForm (_fields fm) (_writer fm ++ parts) (_is_processed fm)
                  (printed fm ++ [f]))).
  { clear Hfresh Hfields failed form. revert parts Hparts.
    induction before as [|b rest IH]; intros parts Hparts fm; cbn in Hparts.
    - injection Hparts as <-. cbn [app append_fields]. rewrite Hv, Hpart.
      rewrite bind_modify. cbn. rewrite app_nil_r. reflexivity.
    - cbn [app append_fields]. destruct (unwrapped V (held b)) as [vb|].
      + destruct (part_of V P get_payload disposed b vb) as [pb|]; [|discriminate].
        destruct (parts_of get_payload disposed rest) as [more|]; [|discriminate].
        injection Hparts as <-. rewrite bind_modify, (IH more eq_refl).
        cbn. rewrite <- app_assoc. reflexivity.
      + apply IH. exact Hparts. }
  assert (Hfailed : failed = (Raise TypeError,
                              mkForm (_fields form) (_writer form ++ parts) false
                                (printed form ++ [f]))).
  { unfold failed, _gen_form_data. rewrite bind_gets, Hfresh, bind_gets.
    unfold bind at 1. rewrite Hfields, Hloop, Hfresh, ?Hfields. reflexivity. }
  split; [exact Hfailed|].
  rewrite Hfailed. cbn [snd]. unfold _gen_form_data.
  rewrite bind_gets. cbn [_is_processed]. rewrite bind_gets.
  unfold bind at 1. cbn [_fields]. rewrite Hfields, Hloop. cbn.
  rewrite ?Hfields. reflexivity.
Qed.

End FormData.

Lemma text_form_generated_once :
  _gen_form_data str str text_payload text_disposed
    (mkForm text_fields [] false [])
  = (Return ([] ++ ["form-data;hello"; "text/plain:world"]),
     mkForm text_fields ([] ++ ["form-data;hello"; "text/plain:world"]) true [])
  /\ List.length ["form-data;hello"; "text/plain:world"]
     = List.length (filter (holds_value (V:=str)) text_fields)
  /\ _gen_form_data str str text_payload text_disposed
       (snd (_gen_form_data str str text_payload text_disposed
               (mkForm text_fields [] false [])))
     = (Return ([] ++ ["form-data;hello"; "text/plain:world"]),
        snd (_gen_form_data str str text_payload text_disposed
               (mkForm text_fields [] false []))).
Proof.
  exact (form_generated_once str str text_payload text_disposed
           (mkForm text_fields [] false []) ["form-data;hello"; "text/plain:world"]
           eq_refl eq_refl).
Defined.

Lemma text_form_fails_after_two_parts :
  _gen_form_data str str text_payload text_disposed
    (mkForm (text_fields ++ bad_field :: text_fields) [] false [])
  = (Raise TypeError,
     mkForm (text_fields ++ bad_field :: text_fields)
       ([] ++ ["form-data;hello"; "text/plain:world"]) false ([] ++ [bad_field]))
  /\ _gen_form_data str str text_payload text_disposed
       (snd (_gen_form_data str str text_payload text_disposed
               (mkForm (text_fields ++ bad_field :: text_fields) [] false [])))
     = (Raise TypeError,
        mkForm (text_fields ++ bad_field :: text_fields)
          (([] ++ ["form-data;hello"; "text/plain:world"])
           ++ ["form-data;hello"; "text/plain:world"]) false
          (([] ++ [bad_field]) ++ [bad_field])).
Proof.
  exact (form_failure_keeps_earlier_parts str str text_payload text_disposed
           (mkForm (text_fields ++ bad_field :: text_fields) [] false [])
           text_fields bad_field "?" text_fields
           ["form-data;hello"; "text/plain:world"]
           eq_refl eq_refl eq_refl eq_refl eq_refl).
Defined.

(** ** The version check *)

Lemma digit_read :
  forall n, (n < 10)%nat ->
    int_of_str (Chr (digit_char n) Empty) = Some (Z.of_nat n).
Proof.
  intros n Hn.
  do 10 (destruct n as [|n]; [reflexivity|]). lia.
Qed.

Lemma dotted_lower_at :
  forall a b c rest,
    (a < 10)%nat -> (b < 10)%nat -> (c < 10)%nat ->
    lower_at (dotted a b c rest) 0 3 = (Z.of_nat a <? 3)
    /\ lower_at (dotted a b c rest) 1 8 = (Z.of_nat b <? 8)
    /\ lower_at (dotted a b c rest) 2 1 = (Z.of_nat c <? 1).
Proof.
  intros a b c rest Ha Hb Hc. unfold lower_at, dotted. cbn [Nat.mul Nat.add Str.get].
  rewrite (digit_read a Ha), (digit_read b Hb), (digit_read c Hc). repeat split.
Qed.

(** For a version written with three single digits the check compares
    digit by digit: it stays silent exactly when the first digit is at least
    3, the second at least 8 and the third at least 1.  Every version before
    3.8.1 is therefore warned about, and so are later ones such as 3.9.0 or
    4.0.0. *)
Theorem version_warning_is_digitwise :
  forall a b c rest,
    (a < 10)%nat -> (b < 10)%nat -> (c < 10)%nat ->
    (version_warning (dotted a b c rest) = false
     <-> (3 <= a /\ 8 <= b /\ 1 <= c)%nat)
    /\ (before_3_8_1 a b c -> version_warning (dotted a b c rest) = true).
Proof.
  intros a b c rest Ha Hb Hc.
  destruct (dotted_lower_at a b c rest Ha Hb Hc) as (H0 & H1 & H2).
  assert (Hw : version_warning (dotted a b c rest)
               = (Z.of_nat a <? 3) || (Z.of_nat b <? 8) || (Z.of_nat c <? 1)).
  { unfold version_warning, version_checking. cbn [warned_from].
    rewrite H0, H1, H2.
    destruct (Z.of_nat a <? 3), (Z.of_nat b <? 8), (Z.of_nat c <? 1); reflexivity. }
  rewrite Hw. unfold before_3_8_1. split.
  - rewrite !orb_false_iff, !Z.ltb_ge. lia.
  - intro Hold. rewrite !orb_true_iff, !Z.ltb_lt. lia.
Qed.

Lemma version_3_7_4_warned :
  (version_warning (dotted 3 7 4 Empty) = false
   <-> (3 <= 3 /\ 8 <= 7 /\ 1 <= 4)%nat)
  /\ (before_3_8_1 3 7 4 -> version_warning (dotted 3 7 4 Empty) = true).
Proof.
  apply (version_warning_is_digitwise 3 7 4 Empty); lia.
Defined.

(** A version with a two-digit component is read character by character
    as well: for 3.10.2 the characters at 0, 2 and 4 are 3, 1 and period. *)
Example version_3_10_2_warned : version_warning "3.10.2" = true.
Proof. reflexivity. Qed.

Example version_3_8_1_silent : version_warning "3.8.1" = false.
Proof. reflexivity. Qed.

End HttpMore.
